(** * Token wallet analytics and real-time monitor

    A shallow embedding of two services of the wallet-analysis client:

    - [WalletAnalyticsService] (holder percentages, wallet classification,
      aggregate risk), and
    - [RealTimeMonitor] (lifecycle, poll cycle, per-wallet balance check,
      sell handling).

    JavaScript numbers are IEEE 754 binary64 values and are modelled by the
    kernel's primitive floats, so every comparison and every arithmetic
    operation below rounds exactly as the program does.  Network calls are
    inputs of the model: each call site receives the outcome of its request
    (a value, or a thrown error) from an explicit environment. *)

From Stdlib Require Import ZArith List String Ascii Bool Arith Lia.
From Stdlib Require Import Floats Uint63.
Import ListNotations.
Set Warnings "-inexact-float,-register-all".
Local Open Scope string_scope.

(* ===================================================================== *)
(** ** JavaScript values and built-ins *)
(* ===================================================================== *)

Module Js.

(** A JavaScript number. *)
Definition number : Set := float.

Definition NaN : number := PrimFloat.nan.

(** [a > b] and [a < b] on numbers: false as soon as one side is NaN. *)
Definition gt (a b : number) : bool := PrimFloat.ltb b a.
Definition lt (a b : number) : bool := PrimFloat.ltb a b.
Arguments gt (a b)%_float_scope.
Arguments lt (a b)%_float_scope.

(** The values that reach the code modelled here. *)
Inductive value : Type :=
| Undefined
| Null
| Num (n : number)
| Str (s : string)
| Obj (fields : list (string * value)).
Arguments Num n%_float_scope.

(** The outcome of a call that may throw: the returned value, or the message
    of the thrown error. *)
Inductive result (A : Type) : Type :=
| Ok (a : A)
| Throw (message : string).
Arguments Ok {A} a.
Arguments Throw {A} message.

(** ToBoolean on a number: [0], [-0] and [NaN] are falsy. *)
Definition number_truthy (n : number) : bool :=
  negb (PrimFloat.eqb n 0 || PrimFloat.is_nan n).

(** ToBoolean. *)
Definition truthy (v : value) : bool :=
  match v with
  | Undefined | Null => false
  | Num n => number_truthy n
  | Str s => negb (s =? "")
  | Obj _ => true
  end.

Fixpoint lookup_field (fields : list (string * value)) (key : string) : value :=
  match fields with
  | [] => Undefined
  | (k, v) :: rest => if k =? key then v else lookup_field rest key
  end.

(** [v.key] for a value [v] that is neither [undefined] nor [null] (the call
    sites below read a property only after a truthiness test): an own
    property of an object, [undefined] on a primitive. *)
Definition get (v : value) (key : string) : value :=
  match v with
  | Obj fields => lookup_field fields key
  | _ => Undefined
  end.

(** [x || d] on numbers. *)
Definition number_or (x d : number) : number :=
  if number_truthy x then x else d.
Arguments number_or (x d)%_float_scope.

(** [s || d] on an optional string ([None] is [undefined]/[null]). *)
Definition string_or (s : option string) (d : string) : string :=
  match s with
  | Some x => if x =? "" then d else x
  | None => d
  end.

(** ToNumber on a field that holds a number or [null]. *)
Definition to_number (x : option number) : number :=
  match x with
  | Some n => n
  | None => 0%float
  end.

(** The built-in functions whose results depend on decimal parsing and
    printing, or on the engine's [Math.pow]; their action is an input of the
    model. *)
Class Builtins : Type := {
  parseFloat_string : string -> number;   (* parseFloat on a string *)
  parseInt_string : string -> number;     (* parseInt on a string *)
  Math_pow : number -> number -> number;
  toFixed : number -> nat -> string       (* Number.prototype.toFixed *)
}.

(** [parseFloat(v)]: the argument is first converted to a string.  A number
    prints to a literal that parses back to itself ([-0] prints as "0");
    [undefined], [null] and plain objects print to text with no numeric
    prefix. *)
Definition parseFloat `{Builtins} (v : value) : number :=
  match v with
  | Num n => if PrimFloat.eqb n 0 then 0%float else n
  | Str s => parseFloat_string s
  | Undefined | Null | Obj _ => NaN
  end.

Definition lower_ascii (c : ascii) : ascii :=
  let n := nat_of_ascii c in
  if (65 <=? n)%nat && (n <=? 90)%nat then ascii_of_nat (n + 32) else c.

(** [String.prototype.toLowerCase] on the ASCII range (addresses are
    hexadecimal text). *)
Fixpoint toLowerCase (s : string) : string :=
  match s with
  | EmptyString => EmptyString
  | String c rest => String (lower_ascii c) (toLowerCase rest)
  end.

(** [Array.prototype.slice(i, j)] for [0 <= i]. *)
Definition slice {A : Type} (i j : nat) (l : list A) : list A :=
  firstn (j - i) (skipn i l).

(** Class bodies: a method defined twice keeps its last definition.  A class
    body is the list of its method definitions in source order, each tagged
    with the line where it starts; [resolve] returns the definition that a
    call [this.name(...)] reaches. *)
Definition class_body : Type := list (string * nat).

Definition resolve (body : class_body) (name : string) : option nat :=
  fold_left (fun found d => if fst d =? name then Some (snd d) else found)
            body None.

End Js.

(* ===================================================================== *)
(** ** WalletAnalyticsService *)
(* ===================================================================== *)

Module WalletAnalyticsService.
Import Js.

(** *** Data *)

Record TokenMetadata : Type := {
  name : string;
  symbol : string;
  decimals : option string;
  totalSupply : option string;
  contractAddress : string
}.

Record Holder : Type := {
  address : string;
  balance : number;       (* human-readable units *)
  balanceRaw : number;    (* smallest unit *)
  percentage : number
}.

Record Deployer : Type := {
  deployer_address : string;
  txHash : string;
  blockNumber : string
}.

Record Classification : Type := {
  type : string;
  reason : string;
  riskLevel : option string
}.

(** The object [{ ...holder, ...classification }]. *)
Record ClassifiedWallet : Type := {
  holder : Holder;
  classification : Classification
}.

Record RiskAssessment : Type := {
  risk_riskLevel : string;
  recommendation : string;
  teamSupplyPercentage : number;
  bundleSupplyPercentage : number;
  totalRiskySupply : number
}.

Record ClassificationResult : Type := {
  teamWallets : list ClassifiedWallet;
  bundleWallets : list ClassifiedWallet;
  regularWallets : list ClassifiedWallet;
  riskAssessment : RiskAssessment
}.

(** *** Responses of the data providers *)

(** A row of the Moralis owners endpoint. *)
Record Owner : Type := {
  owner_address : string;
  owner_balance : string
}.

(** A row of the Moralis metadata endpoint. *)
Record TokenRow : Type := {
  row_name : string;
  row_symbol : string;
  row_decimals : option string;
  row_total_supply : option string;
  row_address : string
}.

(** A row of an explorer transaction list. *)
Record RawTx : Type := {
  tx_hash : string;
  tx_from : string;
  tx_to : option string;
  tx_value : string;
  tx_timeStamp : string
}.

Record ExplorerResponse : Type := {
  status : string;
  result_rows : list RawTx
}.

(** A row of the Moralis wallet-balance endpoint. *)
Record BalanceRow : Type := {
  row_balance : string
}.

(** The network as the service sees it.  The metadata endpoint is indexed by
    the number of metadata requests made before, so that two requests of one
    analysis may see different snapshots. *)
Record Network : Type := {
  moralis_owners : string -> string -> result (option (list Owner));
  moralis_metadata : nat -> string -> string -> result (list TokenRow);
  moralis_balances : string -> string -> string -> result (list BalanceRow);
  explorer_tokentx : string -> string -> result ExplorerResponse;
  explorer_txlist : string -> string -> string -> result ExplorerResponse
}.

(** [this.chainIds]. *)
Definition chainIds (blockchain : string) : option Z :=
  if blockchain =? "ethereum" then Some 1%Z
  else if blockchain =? "bsc" then Some 56%Z
  else if blockchain =? "base" then Some 8453%Z
  else if blockchain =? "polygon" then Some 137%Z
  else if blockchain =? "arbitrum" then Some 42161%Z
  else None.

Section Service.
Context `{Builtins}.
Variable net : Network.

(** *** getTokenMetadata *)

(** [k] counts the metadata requests made so far.  An unknown chain makes
    [chainId.toString(16)] throw. *)
Definition getTokenMetadata (k : nat) (contractAddress blockchain : string)
  : result TokenMetadata :=
  match chainIds blockchain with
  | None => Throw "Cannot read properties of undefined (reading 'toString')"
  | Some _ =>
    match moralis_metadata net k contractAddress blockchain with
    | Throw e => Throw e
    | Ok [] => Throw "Token metadata not found"
    | Ok (token :: _) =>
        Ok {| name := row_name token;
              symbol := row_symbol token;
              decimals := row_decimals token;
              totalSupply := row_total_supply token;
              contractAddress := row_address token |}
    end
  end.

(** *** Holder percentages *)

(** [totalSupply / Math.pow(10, decimals)] with the defaults of the source. *)
Definition metadata_decimals (metadata : TokenMetadata) : number :=
  parseInt_string (string_or (decimals metadata) "18").

Definition totalSupplyFormatted (metadata : TokenMetadata) : number :=
  (parseFloat_string (string_or (totalSupply metadata) "0")
   / Math_pow 10 (metadata_decimals metadata))%float.

(** The record built for one holder from its address and raw balance. *)
Definition holder_record (metadata : TokenMetadata) (addr : string)
  (raw : number) : Holder :=
  let balanceFormatted := (raw / Math_pow 10 (metadata_decimals metadata))%float in
  let tsf := totalSupplyFormatted metadata in
  {| address := addr;
     balance := balanceFormatted;
     balanceRaw := raw;
     percentage := if gt tsf 0
                   then (balanceFormatted / tsf * 100)%float
                   else 0%float |}.

(** *** getHoldersFromTransactions *)

Definition zero_address : string := "0x0000000000000000000000000000000000000000".

(** [holders.set(key, (holders.get(key) || 0) + v)] on an insertion-ordered
    map. *)
Fixpoint accumulate (m : list (string * number)) (key : string) (v : number)
  : list (string * number) :=
  match m with
  | [] => [(key, (0 + v)%float)]
  | (k, cur) :: rest =>
      if k =? key then (k, (number_or cur 0 + v)%float) :: rest
      else (k, cur) :: accumulate rest key v
  end.

Definition record_transfer (m : list (string * number)) (tx : RawTx)
  : list (string * number) :=
  match tx_to tx with
  | Some to =>
      if negb (to =? "") && negb (to =? zero_address)
      then accumulate m to (parseFloat_string (tx_value tx))
      else m
  | None => m
  end.

(** [Array.prototype.sort] with comparator [cmp]: a stable sort, the order
    every engine produces when [cmp] is a consistent ordering. *)
Fixpoint sort_insert {A : Type} (cmp : A -> A -> number) (x : A) (l : list A)
  : list A :=
  match l with
  | [] => [x]
  | y :: rest => if gt (cmp x y) 0 then y :: sort_insert cmp x rest
                 else x :: y :: rest
  end.

Definition sort {A : Type} (cmp : A -> A -> number) (l : list A) : list A :=
  fold_right (sort_insert cmp) [] l.

Definition getHoldersFromTransactions (k : nat)
  (contractAddress blockchain : string) : list Holder :=
  match getTokenMetadata k contractAddress blockchain with
  | Throw _ => []
  | Ok metadata =>
    match explorer_tokentx net contractAddress blockchain with
    | Throw _ => []
    | Ok response =>
      if status response =? "1" then
        let holders := fold_left record_transfer (result_rows response) [] in
        firstn 100
          (sort (fun a b => (balance b - balance a)%float)
                (map (fun e => holder_record metadata (fst e) (snd e)) holders))
      else []
    end
  end.

(** *** getTopHolders *)

Definition getTopHolders (contractAddress blockchain : string) : list Holder :=
  match chainIds blockchain with
  | None => getHoldersFromTransactions 0 contractAddress blockchain
  | Some _ =>
    match moralis_owners net contractAddress blockchain with
    | Ok (Some (o :: owners)) =>
      match getTokenMetadata 0 contractAddress blockchain with
      | Ok metadata =>
          map (fun r => holder_record metadata (owner_address r)
                          (parseFloat_string (owner_balance r)))
              (o :: owners)
      | Throw _ => getHoldersFromTransactions 1 contractAddress blockchain
      end
    | Ok (Some []) | Ok None | Throw _ =>
        getHoldersFromTransactions 0 contractAddress blockchain
    end
  end.

(** *** classifyWallet and its sub-checks *)

(** The network checks that a classification may start. *)
Inductive Call : Type :=
| CallCheckDeployerFunding (walletAddress deployerAddress : string)
| CallDetectBundlePattern (walletAddress : string).

Definition checkDeployerFunding (walletAddress deployerAddress blockchain : string)
  : bool :=
  match explorer_txlist net walletAddress "asc" blockchain with
  | Ok response =>
      if status response =? "1"
      then existsb (fun tx => toLowerCase (tx_from tx)
                              =? toLowerCase deployerAddress)
                   (result_rows response)
      else false
  | Throw _ => false
  end.

Record WalletTx : Type := {
  wtx_hash : string;
  wtx_from : string;
  wtx_to : option string;
  wtx_value : string;
  wtx_timestamp : number;
  wtx_type : string
}.

Definition getWalletTransactions (addr blockchain : string) : list WalletTx :=
  match explorer_txlist net addr "desc" blockchain with
  | Ok response =>
      if status response =? "1"
      then map (fun tx =>
                  {| wtx_hash := tx_hash tx;
                     wtx_from := tx_from tx;
                     wtx_to := tx_to tx;
                     wtx_value := tx_value tx;
                     wtx_timestamp := (parseInt_string (tx_timeStamp tx) * 1000)%float;
                     wtx_type := if toLowerCase (tx_from tx) =? toLowerCase addr
                                 then "sell" else "buy" |})
               (result_rows response)
      else []
  | Throw _ => []
  end.

Record BundlePattern : Type := {
  isBundle : bool;
  pattern_reason : string
}.

(** [now] is the value of [Date.now()]. *)
Definition detectBundlePattern (now : number) (addr blockchain : string)
  : BundlePattern :=
  let transactions := getWalletTransactions addr blockchain in
  let sellTransactions := filter (fun tx => wtx_type tx =? "sell") transactions in
  let buyTransactions := filter (fun tx => wtx_type tx =? "buy") transactions in
  let hasQuickSells :=
    existsb (fun tx => lt (now - wtx_timestamp tx) (24 * 60 * 60 * 1000))
            sellTransactions in
  let hasLowActivity := (List.length transactions <? 10)%nat in
  let hasHighSellRatio :=
    (List.length buyTransactions <? List.length sellTransactions)%nat in
  if hasQuickSells && hasLowActivity then
    {| isBundle := true; pattern_reason := "Quick sell pattern detected" |}
  else if hasHighSellRatio && hasLowActivity then
    {| isBundle := true; pattern_reason := "High sell ratio with low activity" |}
  else
    {| isBundle := false; pattern_reason := "Normal activity pattern" |}.

(** [classifyWallet] returns the classification together with the network
    checks it started, in order. *)
Definition classifyWallet (now : number) (h : Holder) (deployer : option Deployer)
  (metadata : TokenMetadata) (blockchain : string)
  : Classification * list Call :=
  if gt (percentage h) 0.1 then
    ({| type := "team";
        reason := "Holds " ++ toFixed (percentage h) 2 ++ "% of total supply";
        riskLevel := Some (if gt (percentage h) 10 then "high" else "medium") |},
     [])
  else
    let funding :=
      match deployer with
      | Some d =>
          if negb (deployer_address d =? "")
          then (checkDeployerFunding (address h) (deployer_address d) blockchain,
                [CallCheckDeployerFunding (address h) (deployer_address d)])
          else (false, [])
      | None => (false, [])
      end in
    if fst funding then
      ({| type := "bundle";
          reason := "Funded by contract deployer";
          riskLevel := Some "high" |},
       snd funding)
    else
      let bundlePattern := detectBundlePattern now (address h) blockchain in
      let calls := (snd funding ++ [CallDetectBundlePattern (address h)])%list in
      if isBundle bundlePattern then
        ({| type := "bundle";
            reason := pattern_reason bundlePattern;
            riskLevel := Some "medium" |},
         calls)
      else
        ({| type := "regular";
            reason := "Normal wallet activity";
            riskLevel := Some "low" |},
         calls).

(** *** assessRisk *)

Definition supply (wallets : list ClassifiedWallet) : number :=
  fold_left (fun sum wallet => (sum + percentage (holder wallet))%float)
            wallets 0%float.

Definition assessRisk (teamWallets bundleWallets : list ClassifiedWallet)
  : RiskAssessment :=
  let teamSupply := supply teamWallets in
  let bundleSupply := supply bundleWallets in
  let verdict :=
    if gt teamSupply 20 then
      ("high", "HIGH RISK: Team controls significant portion of supply.")
    else if gt bundleSupply 15 then
      ("high", "HIGH RISK: Large bundle wallet presence detected.")
    else if gt teamSupply 10 || gt bundleSupply 10 then
      ("medium", "MEDIUM RISK: Monitor team and bundle wallet activity.")
    else
      ("low", "Token appears to have low risk factors.") in
  {| risk_riskLevel := fst verdict;
     recommendation := snd verdict;
     teamSupplyPercentage := teamSupply;
     bundleSupplyPercentage := bundleSupply;
     totalRiskySupply := (teamSupply + bundleSupply)%float |}.

(** *** classifyWallets *)

(** The three arrays filled by the loop. *)
Definition buckets : Type :=
  (list ClassifiedWallet * list ClassifiedWallet * list ClassifiedWallet)%type.

(** The record pushed when the classification of a holder threw. *)
Definition unknown_wallet (h : Holder) : ClassifiedWallet :=
  {| holder := h;
     classification := {| type := "unknown";
                          reason := "Classification failed";
                          riskLevel := None |} |}.

(** One iteration of the loop: the [try] block with its [switch], and the
    [catch] block.  [classify] is the call [this.classifyWallet(holder, ...)],
    which returns a classification or throws. *)
Definition classify_step (classify : Holder -> result Classification)
  (acc : buckets) (h : Holder) : buckets :=
  let '(team, bundle, regular) := acc in
  match classify h with
  | Ok c =>
      let w := {| holder := h; classification := c |} in
      if type c =? "team" then ((team ++ [w])%list, bundle, regular)
      else if type c =? "bundle" then (team, (bundle ++ [w])%list, regular)
      else (team, bundle, (regular ++ [w])%list)
  | Throw _ => (team, bundle, (regular ++ [unknown_wallet h])%list)
  end.

(** The loop on holder records; [holders] is [None] when the argument is not
    an array.  On records the log statement of lines 294-297 does not throw;
    [HolderRecords.classifyWallets_raw] is the method on arbitrary values. *)
Definition classifyWallets (classify : Holder -> result Classification)
  (holders : option (list Holder)) : ClassificationResult :=
  match holders with
  | None | Some [] =>
      {| teamWallets := []; bundleWallets := []; regularWallets := [];
         riskAssessment := assessRisk [] [] |}
  | Some hs =>
      let '(team, bundle, regular) :=
        fold_left (classify_step classify) hs ([], [], []) in
      {| teamWallets := team; bundleWallets := bundle;
         regularWallets := regular;
         riskAssessment := assessRisk team bundle |}
  end.

(** The method as the service runs it, with its own [classifyWallet]. *)
Definition classifyWallets_service (now : number) (holders : option (list Holder))
  (deployer : option Deployer) (metadata : TokenMetadata) (blockchain : string)
  : ClassificationResult :=
  classifyWallets
    (fun h => Ok (fst (classifyWallet now h deployer metadata blockchain)))
    holders.

(** *** getTokenBalance *)

Definition getTokenBalance (walletAddress tokenAddress blockchain : string)
  : number :=
  match chainIds blockchain with
  | None => 0%float
  | Some _ =>
    match moralis_balances net walletAddress tokenAddress blockchain with
    | Ok (row :: _) => parseFloat_string (row_balance row)
    | Ok [] => 0%float
    | Throw _ => 0%float
    end
  end.

End Service.
End WalletAnalyticsService.

(* ===================================================================== *)
(** ** WalletAnalyticsService on arbitrary holder values *)
(* ===================================================================== *)

(** [classifyWallets] and [classifyWallet] read [holder.address] and
    [holder.percentage] before any test of their shape.  The definitions of
    [WalletAnalyticsService] above are these methods on holder records, whose
    address is a string and whose percentage is a number; the definitions
    below are the same methods on whatever the array holds, with the
    statements that throw on other values (lines 294-297, 303, 316, 336-338
    of the service). *)
Module HolderRecords.
Import Js WalletAnalyticsService.

(** An object of the array, by the four properties of a holder. *)
Record HolderObject : Type := {
  raw_address : value;
  raw_balance : value;
  raw_balanceRaw : value;
  raw_percentage : value
}.

(** An element of the array: [None] is [null] or [undefined]. *)
Definition RawHolder : Type := option HolderObject.

(** ToNumber on the values that reach an addition or a comparison here: a
    number, [undefined] (NaN) or [null] (0). *)
Definition number_of_value (v : value) : number :=
  match v with
  | Num n => n
  | Null => 0%float
  | Undefined | Str _ | Obj _ => NaN
  end.

(** [const { address, balance, percentage } = holder] for a holder whose
    address is a string. *)
Definition destructured (o : HolderObject) : Holder :=
  {| address := match raw_address o with Str a => a | _ => "" end;
     balance := number_of_value (raw_balance o);
     balanceRaw := number_of_value (raw_balanceRaw o);
     percentage := number_of_value (raw_percentage o) |}.

(** [x.slice(0, 8)]: only a string has the method among these values. *)
Definition slice_0_8 (x : value) : result string :=
  match x with
  | Str a => Ok (substring 0 8 a)
  | Undefined => Throw "Cannot read properties of undefined (reading 'slice')"
  | Null => Throw "Cannot read properties of null (reading 'slice')"
  | Num _ | Obj _ => Throw "address.slice is not a function"
  end.

(** [x?.toFixed(digits)]: [undefined] for [undefined] and [null], the method
    of a number, and no such method on a string or a plain object. *)
Definition toFixed_optional `{Builtins} (x : value) (digits : nat)
  : result (option string) :=
  match x with
  | Undefined | Null => Ok None
  | Num n => Ok (Some (toFixed n digits))
  | Str _ | Obj _ => Throw "percentage?.toFixed is not a function"
  end.

(** [l.map(f)] for an [f] that may throw: the first error ends the call. *)
Fixpoint map_result {A B : Type} (f : A -> result B) (l : list A)
  : result (list B) :=
  match l with
  | [] => Ok []
  | x :: rest =>
      match f x with
      | Throw e => Throw e
      | Ok y =>
          match map_result f rest with
          | Throw e => Throw e
          | Ok ys => Ok (y :: ys)
          end
      end
  end.

Section Raw.
Context `{Builtins}.
Variable net : Network.

(** The object logged for one holder (lines 295-296); the template of line
    303 evaluates the same two expressions. *)
Definition log_row (h : RawHolder) : result (string * string) :=
  match h with
  | None => Throw "Cannot read properties of undefined (reading 'address')"
  | Some o =>
      match slice_0_8 (raw_address o) with
      | Throw e => Throw e
      | Ok a =>
          match toFixed_optional (raw_percentage o) 4 with
          | Throw e => Throw e
          | Ok p => Ok (a ++ "...", string_or p "undefined")
          end
      end
  end.

(** [holders.slice(0, 5).map(h => ...)] of lines 294-297, outside any
    [try]. *)
Definition log_top_holders (hs : list RawHolder)
  : result (list (string * string)) :=
  map_result log_row (slice 0 5 hs).

(** [classifyWallet] (lines 335-381): the destructuring and the template of
    lines 336-338, then the rules on the destructured values. *)
Definition classifyWallet_raw (now : number) (h : RawHolder)
  (deployer : option Deployer) (metadata : TokenMetadata) (blockchain : string)
  : result Classification :=
  match h with
  | None =>
      Throw "Cannot destructure property 'address' of 'holder' as it is undefined."
  | Some o =>
      match slice_0_8 (raw_address o) with
      | Throw e => Throw e
      | Ok _ =>
          match toFixed_optional (raw_percentage o) 4 with
          | Throw e => Throw e
          | Ok _ =>
              Ok (fst (classifyWallet net now (destructured o) deployer
                                      metadata blockchain))
          end
      end
  end.

(** [{ ...holder, ...classification }]. *)
Record RawClassified : Type := {
  classified_holder : HolderObject;
  classified_as : Classification
}.

(** [{ ...holder, type: 'unknown', reason: 'Classification failed' }]. *)
Definition unknown_raw (o : HolderObject) : RawClassified :=
  {| classified_holder := o;
     classified_as := {| type := "unknown";
                         reason := "Classification failed";
                         riskLevel := None |} |}.

Definition raw_buckets : Type :=
  (list RawClassified * list RawClassified * list RawClassified)%type.

(** The [try] block of one iteration up to its [switch] (lines 301-303). *)
Definition try_classify (now : number) (o : HolderObject)
  (deployer : option Deployer) (metadata : TokenMetadata) (blockchain : string)
  : result Classification :=
  match classifyWallet_raw now (Some o) deployer metadata blockchain with
  | Throw e => Throw e
  | Ok c =>
      match log_row (Some o) with
      | Throw e => Throw e
      | Ok _ => Ok c
      end
  end.

(** One iteration of the loop (lines 299-319).  For [null] or [undefined]
    the classification throws and so does the [catch] block, which reads
    [holder.address] (line 316): the method rejects. *)
Definition classify_step_raw (now : number) (deployer : option Deployer)
  (metadata : TokenMetadata) (blockchain : string)
  (acc : result raw_buckets) (h : RawHolder) : result raw_buckets :=
  match acc with
  | Throw e => Throw e
  | Ok (team, bundle, regular) =>
      match h with
      | None =>
          Throw "Cannot read properties of undefined (reading 'address')"
      | Some o =>
          match try_classify now o deployer metadata blockchain with
          | Ok c =>
              let w := {| classified_holder := o; classified_as := c |} in
              if type c =? "team" then Ok ((team ++ [w])%list, bundle, regular)
              else if type c =? "bundle"
                   then Ok (team, (bundle ++ [w])%list, regular)
                   else Ok (team, bundle, (regular ++ [w])%list)
          | Throw _ => Ok (team, bundle, (regular ++ [unknown_raw o])%list)
          end
      end
  end.

(** The wallet that [assessRisk] sees: it reads [wallet.percentage]. *)
Definition as_wallet (w : RawClassified) : ClassifiedWallet :=
  {| holder := destructured (classified_holder w);
     classification := classified_as w |}.

Record RawClassificationResult : Type := {
  raw_teamWallets : list RawClassified;
  raw_bundleWallets : list RawClassified;
  raw_regularWallets : list RawClassified;
  raw_riskAssessment : RiskAssessment
}.

(** [classifyWallets] (lines 261-333); [holders] is [None] when the argument
    is not an array. *)
Definition classifyWallets_raw (now : number)
  (holders : option (list RawHolder)) (deployer : option Deployer)
  (metadata : TokenMetadata) (blockchain : string)
  : result RawClassificationResult :=
  match holders with
  | None | Some [] =>
      Ok {| raw_teamWallets := []; raw_bundleWallets := [];
            raw_regularWallets := []; raw_riskAssessment := assessRisk [] [] |}
  | Some hs =>
      match log_top_holders hs with
      | Throw e => Throw e
      | Ok _ =>
          match fold_left (classify_step_raw now deployer metadata blockchain)
                          hs (Ok ([], [], [])) with
          | Throw e => Throw e
          | Ok (team, bundle, regular) =>
              Ok {| raw_teamWallets := team;
                    raw_bundleWallets := bundle;
                    raw_regularWallets := regular;
                    raw_riskAssessment :=
                      assessRisk (map as_wallet team) (map as_wallet bundle) |}
          end
      end
  end.

End Raw.

(** A holder record as an element of the array. *)
Definition of_holder (h : Holder) : RawHolder :=
  Some {| raw_address := Str (address h);
          raw_balance := Num (balance h);
          raw_balanceRaw := Num (balanceRaw h);
          raw_percentage := Num (percentage h) |}.

End HolderRecords.

(* ===================================================================== *)
(** ** RealTimeMonitor *)
(* ===================================================================== *)

Module RealTimeMonitor.
Import Js.

(** *** Data *)

(** An element of the [wallets] array given to [initialize]: the fields of a
    classified wallet that the monitor reads. *)
Record WalletInput : Type := {
  in_address : option string;
  in_type : string
}.

Record MonitoredWallet : Type := {
  address : string;
  type : string;
  wallet_tokenAddress : option string;
  network : option string;
  lastBalance : option number;
  lastChecked : option number;
  alertCount : number;
  totalVolumeSold : number
}.

(** The callback installed by [setInterval]. *)
Inductive PollCallback : Type :=
| RunCheckAllWalletsStaggered
| RunCheckAllWallets.

Record Timer : Type := {
  period : Z;
  callback : PollCallback
}.

(** The monitor object together with the timer table of its host.
    [monitoredWallets] is an insertion-ordered [Map]. *)
Record Monitor : Type := {
  monitoredWallets : list (string * MonitoredWallet);
  isMonitoring : bool;
  monitorInterval : option nat;
  tokenAddress : option string;
  blockchain : option string;
  timers : list (nat * Timer);
  nextTimerId : nat
}.

(** [new RealTimeMonitor()]; timer identifiers are positive integers. *)
Definition new_monitor : Monitor :=
  {| monitoredWallets := [];
     isMonitoring := false;
     monitorInterval := None;
     tokenAddress := None;
     blockchain := None;
     timers := [];
     nextTimerId := 1 |}.

(** The methods of the class in source order, with the line of each
    definition.  [startPolling] and [handleSellDetected] are defined twice. *)
Definition class_definition : class_body :=
  [ ("initialize", 17); ("onAlert", 59); ("onWalletUpdate", 64);
    ("notifyWalletUpdate", 73); ("startMonitoring", 87);
    ("startMonitoringLegacy", 110); ("startPolling", 142);
    ("checkAllWalletsStaggered", 149); ("handleSellDetected", 167);
    ("getTokenPrice", 207); ("getEnhancedStatus", 224);
    ("stopMonitoring", 242); ("startPolling", 255);
    ("checkAllWallets", 262); ("checkWalletChanges", 271);
    ("handleSellDetected", 308); ("sendAlert", 367);
    ("sendTelegramAlert", 376); ("sendDashboardAlert", 391);
    ("formatTelegramMessage", 404); ("storeAlert", 429);
    ("getExplorerLink", 438); ("subscribe", 449);
    ("notifySubscribers", 458); ("getStatus", 469) ]%nat.

(** *** Lifecycle *)

(** [map.set(key, w)]: an existing key keeps its position. *)
Fixpoint map_set (m : list (string * MonitoredWallet)) (key : string)
  (w : MonitoredWallet) : list (string * MonitoredWallet) :=
  match m with
  | [] => [(key, w)]
  | (k, old) :: rest =>
      if k =? key then (k, w) :: rest else (k, old) :: map_set rest key w
  end.

Definition set_wallets (m : Monitor) (ws : list (string * MonitoredWallet))
  : Monitor :=
  {| monitoredWallets := ws;
     isMonitoring := isMonitoring m;
     monitorInterval := monitorInterval m;
     tokenAddress := tokenAddress m;
     blockchain := blockchain m;
     timers := timers m;
     nextTimerId := nextTimerId m |}.

Definition set_isMonitoring (m : Monitor) (b : bool) : Monitor :=
  {| monitoredWallets := monitoredWallets m;
     isMonitoring := b;
     monitorInterval := monitorInterval m;
     tokenAddress := tokenAddress m;
     blockchain := blockchain m;
     timers := timers m;
     nextTimerId := nextTimerId m |}.

(** One iteration of the set-up loop of [initialize]. *)
Definition add_wallet (tok chain : option string)
  (ws : list (string * MonitoredWallet)) (wallet : option WalletInput)
  : list (string * MonitoredWallet) :=
  match wallet with
  | None => ws
  | Some wi =>
      match in_address wi with
      | None => ws
      | Some a =>
          if a =? "" then ws
          else map_set ws (toLowerCase a)
                 {| address := a;
                    type := in_type wi;
                    wallet_tokenAddress := tok;
                    network := chain;
                    lastBalance := None;
                    lastChecked := None;
                    alertCount := 0%float;
                    totalVolumeSold := 0%float |}
      end
  end.

(** [initialize({ tokenAddress, blockchain, wallets })]; [wallets] is [None]
    when the argument is not an array. *)
Definition initialize (m : Monitor) (tok chain : option string)
  (wallets : option (list (option WalletInput))) : result bool * Monitor :=
  let m1 :=
    {| monitoredWallets := [];
       isMonitoring := isMonitoring m;
       monitorInterval := monitorInterval m;
       tokenAddress := tok;
       blockchain := chain;
       timers := timers m;
       nextTimerId := nextTimerId m |} in
  match wallets with
  | None => (Throw "Wallets parameter must be an array", m1)
  | Some [] => (Ok true, m1)
  | Some ws => (Ok true, set_wallets m1 (fold_left (add_wallet tok chain) ws []))
  end.

(** [this.monitorInterval = setInterval(callback, period)]. *)
Definition setInterval (m : Monitor) (t : Timer) : Monitor :=
  {| monitoredWallets := monitoredWallets m;
     isMonitoring := isMonitoring m;
     monitorInterval := Some (nextTimerId m);
     tokenAddress := tokenAddress m;
     blockchain := blockchain m;
     timers := (timers m ++ [(nextTimerId m, t)])%list;
     nextTimerId := S (nextTimerId m) |}.

(** The first definition of [startPolling] (line 142). *)
Definition startPolling_at_142 (m : Monitor) : Monitor :=
  setInterval m {| period := 20000; callback := RunCheckAllWalletsStaggered |}.

(** The second definition of [startPolling] (line 255). *)
Definition startPolling_at_255 (m : Monitor) : Monitor :=
  setInterval m {| period := 30000; callback := RunCheckAllWallets |}.

(** The call [this.startPolling()]. *)
Definition startPolling (m : Monitor) : Monitor :=
  match resolve class_definition "startPolling" with
  | Some line =>
      if (line =? 142)%nat then startPolling_at_142 m
      else if (line =? 255)%nat then startPolling_at_255 m
      else m
  | None => m
  end.

Definition string_truthy (s : option string) : bool :=
  match s with
  | Some x => negb (x =? "")
  | None => false
  end.

Definition startMonitoring (m : Monitor) : result bool * Monitor :=
  if negb (string_truthy (tokenAddress m)) || negb (string_truthy (blockchain m))
  then (Throw "Monitor not initialized. Call initialize() first.", m)
  else if (List.length (monitoredWallets m) =? 0)%nat then (Ok false, m)
  else if isMonitoring m then (Ok true, m)
  else (Ok true, startPolling (set_isMonitoring m true)).

(** [clearInterval(id)] followed by [this.monitorInterval = null]. *)
Definition clearInterval (m : Monitor) (id : nat) : Monitor :=
  {| monitoredWallets := monitoredWallets m;
     isMonitoring := isMonitoring m;
     monitorInterval := None;
     tokenAddress := tokenAddress m;
     blockchain := blockchain m;
     timers := filter (fun t => negb (fst t =? id)%nat) (timers m);
     nextTimerId := nextTimerId m |}.

Definition stopMonitoring (m : Monitor) : Monitor :=
  let m1 :=
    match monitorInterval m with
    | Some id => if (id =? 0)%nat then m else clearInterval m id
    | None => m
    end in
  set_wallets (set_isMonitoring m1 false) [].

(** *** Poll cycle *)

(** What a poll cycle does, in order: a group of balance checks started
    together and awaited with [Promise.all], or a pause. *)
Inductive Step : Type :=
| Checks (batch : list MonitoredWallet)
| Wait (ms : Z).

Definition batchSize : nat := 3.

(** The [for] loop of [checkAllWalletsStaggered], from index [i]. *)
Fixpoint staggered_loop (fuel i : nat) (wallets : list MonitoredWallet)
  : list Step :=
  match fuel with
  | O => []
  | S fuel' =>
      if (i <? List.length wallets)%nat then
        (Checks (slice i (i + batchSize) wallets)
         :: (if (i + batchSize <? List.length wallets)%nat
             then [Wait 2000] else [])
         ++ staggered_loop fuel' (i + batchSize) wallets)%list
      else []
  end.

Definition wallet_values (m : Monitor) : list MonitoredWallet :=
  map snd (monitoredWallets m).

Definition checkAllWalletsStaggered (m : Monitor) : list Step :=
  let wallets := wallet_values m in
  staggered_loop (List.length wallets) 0 wallets.

Definition checkAllWallets (m : Monitor) : list Step :=
  [Checks (wallet_values m)].

(** The cycle run by a timer of the monitor. *)
Definition poll_cycle (t : Timer) (m : Monitor) : list Step :=
  match callback t with
  | RunCheckAllWalletsStaggered => checkAllWalletsStaggered m
  | RunCheckAllWallets => checkAllWallets m
  end.

(** *** Sell handling *)

Record SellAlert : Type := {
  id : option number;
  walletAddress : string;
  walletType : string;
  alert_tokenAddress : option string;
  alert_network : option string;
  amountSold : number;
  usdValue : number;
  previousBalance : option number;
  newBalance : number;
  changePercentage : string;
  timestamp : number;
  alert_alertCount : option number;
  alert_totalVolumeSold : option number;
  destination : option string;
  transactionHash : option string;
  explorerLink : option string
}.

(** What a balance check does besides updating the wallet. *)
Inductive Event : Type :=
| HandleSellDetected (amount balance : number)
| SendAlert (alert : SellAlert)
| StoreAlert (alert : SellAlert)
| NotifySubscribers (alert : SellAlert).
Arguments HandleSellDetected (amount balance)%_float_scope.

(** The body of the price aggregator's answer. *)
Record DexResponse : Type := {
  ok : bool;
  pairs : option (list (option string))
}.

(** An entry of a transaction history. *)
Record HistoryTx : Type := {
  h_hash : string;
  h_from : string;
  h_to : string;
  h_timestamp : number
}.

(** What one invocation of the sell handler receives from outside:
    [clock k] is the [k]-th reading of [Date.now()], [random] the value of
    [Math.random()], and the other fields are the outcomes of the price
    request and of the calls [WalletAnalyticsService.getTransactionHistory],
    [getUSDValue] and [identifyDEX]. *)
Record SellEnv : Type := {
  clock : nat -> number;
  random : number;
  price_response : result DexResponse;
  transactionHistory : result (list HistoryTx);
  usdValue_response : result number;
  dex_response : result string
}.

Section Checks.
Context `{Builtins}.

Definition getTokenPrice (env : SellEnv) : number :=
  match price_response env with
  | Ok data =>
      if ok data then
        match pairs data with
        | Some (Some priceUsd :: _) => parseFloat (Str priceUsd)
        | Some (None :: _) => parseFloat Undefined
        | Some [] | None => 0%float
        end
      else 0%float
  | Throw _ => 0%float
  end.

Definition getExplorerLink (txHash : string) (net : option string) : string :=
  match net with
  | Some n =>
      if n =? "ethereum" then "https://etherscan.io/tx/" ++ txHash
      else if n =? "bsc" then "https://bscscan.com/tx/" ++ txHash
      else if n =? "polygon" then "https://polygonscan.com/tx/" ++ txHash
      else "#" ++ txHash
  | None => "#" ++ txHash
  end.

Definition set_stats (w : MonitoredWallet) (count volume : number)
  : MonitoredWallet :=
  {| address := address w;
     type := type w;
     wallet_tokenAddress := wallet_tokenAddress w;
     network := network w;
     lastBalance := lastBalance w;
     lastChecked := lastChecked w;
     alertCount := count;
     totalVolumeSold := volume |}.

(** The first definition of [handleSellDetected] (line 167). *)
Definition handleSellDetected_at_167 (env : SellEnv) (w : MonitoredWallet)
  (amount balance : number) : MonitoredWallet * list Event :=
  let tokenPrice := getTokenPrice env in
  let usd := (amount * number_or tokenPrice 0)%float in
  let w' := set_stats w (number_or (alertCount w) 0 + 1)%float
                        (number_or (totalVolumeSold w) 0 + usd)%float in
  let alertData :=
    {| id := Some (clock env 0 + random env)%float;
       walletAddress := address w;
       walletType := type w;
       alert_tokenAddress := wallet_tokenAddress w;
       alert_network := network w;
       amountSold := amount;
       usdValue := usd;
       previousBalance := lastBalance w;
       newBalance := balance;
       changePercentage :=
         toFixed (amount / to_number (lastBalance w) * 100)%float 2;
       timestamp := clock env 1;
       alert_alertCount := Some (alertCount w');
       alert_totalVolumeSold := Some (totalVolumeSold w');
       destination := None;
       transactionHash := None;
       explorerLink := None |} in
  (w', [SendAlert alertData; NotifySubscribers alertData]).

(** The second definition of [handleSellDetected] (line 308).  The readings
    of the clock inside [find] are taken at one instant. *)
Definition handleSellDetected_at_308 (env : SellEnv) (w : MonitoredWallet)
  (amount balance : number) : MonitoredWallet * list Event :=
  match transactionHistory env with
  | Throw _ => (w, [])
  | Ok recentTxs =>
    match find (fun tx =>
                  (toLowerCase (h_from tx) =? toLowerCase (address w))
                  && lt (clock env 0 - h_timestamp tx) (5 * 60 * 1000))
               recentTxs with
    | None => (w, [])
    | Some sellTx =>
      match usdValue_response env with
      | Throw _ => (w, [])
      | Ok usd =>
        match dex_response env with
        | Throw _ => (w, [])
        | Ok dex =>
          let alertData :=
            {| id := None;
               walletAddress := address w;
               walletType := type w;
               alert_tokenAddress := wallet_tokenAddress w;
               alert_network := network w;
               amountSold := amount;
               usdValue := usd;
               previousBalance := lastBalance w;
               newBalance := balance;
               changePercentage :=
                 toFixed (amount / to_number (lastBalance w) * 100)%float 2;
               timestamp := h_timestamp sellTx;
               alert_alertCount := None;
               alert_totalVolumeSold := None;
               destination := Some dex;
               transactionHash := Some (h_hash sellTx);
               explorerLink :=
                 Some (getExplorerLink (h_hash sellTx) (network w)) |} in
          (w, [SendAlert alertData; StoreAlert alertData;
               NotifySubscribers alertData])
        end
      end
    end
  end.

(** The call [this.handleSellDetected(wallet, amountSold, newBalance)]. *)
Definition handleSellDetected (env : SellEnv) (w : MonitoredWallet)
  (amount balance : number) : MonitoredWallet * list Event :=
  match resolve class_definition "handleSellDetected" with
  | Some line =>
      if (line =? 167)%nat then handleSellDetected_at_167 env w amount balance
      else if (line =? 308)%nat then handleSellDetected_at_308 env w amount balance
      else (w, [])
  | None => (w, [])
  end.

(** *** checkWalletChanges *)

Definition set_balance (w : MonitoredWallet) (b t : number) : MonitoredWallet :=
  {| address := address w;
     type := type w;
     wallet_tokenAddress := wallet_tokenAddress w;
     network := network w;
     lastBalance := Some b;
     lastChecked := Some t;
     alertCount := alertCount w;
     totalVolumeSold := totalVolumeSold w |}.

(** [parseFloat(currentBalance.formatted)]. *)
Definition currentBalanceNum (currentBalance : value) : number :=
  parseFloat (get currentBalance "formatted").

(** The body of [checkWalletChanges] for a given sell handler.  [fetch] is the
    outcome of the awaited balance request and [now] the value of
    [Date.now()] when the wallet is updated.  The result is the wallet after
    the call and what the call did, in order. *)
Definition checkWalletChanges_with
  (handler : MonitoredWallet -> number -> number -> MonitoredWallet * list Event)
  (w : MonitoredWallet) (fetch : result value) (now : number)
  : MonitoredWallet * list Event :=
  match fetch with
  | Throw _ => (w, [])
  | Ok currentBalance =>
    if negb (truthy currentBalance) then (w, [])
    else
      let num := currentBalanceNum currentBalance in
      match lastBalance w with
      | None => (set_balance w num now, [])
      | Some last =>
          let balanceChange := (last - num)%float in
          let changePct := (balanceChange / last * 100)%float in
          if gt balanceChange 0 && gt changePct 1 then
            let handled := handler w balanceChange num in
            (set_balance (fst handled) num now,
             HandleSellDetected balanceChange num :: snd handled)
          else (set_balance w num now, [])
      end
  end.

(** The method as the class runs it. *)
Definition checkWalletChanges (env : SellEnv) (w : MonitoredWallet)
  (fetch : result value) (now : number) : MonitoredWallet * list Event :=
  checkWalletChanges_with (handleSellDetected env) w fetch now.

End Checks.

Arguments handleSellDetected_at_167 {_} env w (amount balance)%_float_scope.
Arguments handleSellDetected_at_308 {_} env w (amount balance)%_float_scope.
Arguments handleSellDetected {_} env w (amount balance)%_float_scope.
Arguments set_balance w (b t)%_float_scope.
Arguments checkWalletChanges {_} env w fetch now%_float_scope.

End RealTimeMonitor.

(* ===================================================================== *)
(** ** How the monitor reaches the analytics service *)
(* ===================================================================== *)

Module MonitorWiring.
Import Js RealTimeMonitor.

(** RealTimeMonitor.js imports the default export of the service module
    (line 3).  That export is the class: the page builds its service with
    [new WalletAnalyticsService()] (part_000, line 23) and so does
    EnhancedRealTimeMonitor.js (line 5).  The class body (part_001, lines
    3-560) declares a constructor and thirteen methods, none of them
    [static]. *)
Inductive MemberKind : Set := InstanceMethod | StaticMethod.

Definition WalletAnalyticsService_class : list (string * MemberKind) :=
  [ ("analyzeToken", InstanceMethod);
    ("getContractDeployer", InstanceMethod);
    ("getTokenMetadata", InstanceMethod);
    ("getTopHolders", InstanceMethod);
    ("getHoldersFromTransactions", InstanceMethod);
    ("classifyWallets", InstanceMethod);
    ("classifyWallet", InstanceMethod);
    ("checkDeployerFunding", InstanceMethod);
    ("detectBundlePattern", InstanceMethod);
    ("getWalletTransactions", InstanceMethod);
    ("assessRisk", InstanceMethod);
    ("getApiKey", InstanceMethod);
    ("getTokenBalance", InstanceMethod) ].

Definition member (name : string) : option MemberKind :=
  option_map snd (find (fun m => fst m =? name) WalletAnalyticsService_class).

(** [WalletAnalyticsService.name(...)], a call on the class itself (lines
    273, 311, 324 and 331 of the monitor): it runs a static member.  An
    instance method is a property of the prototype, not of the class: the
    read gives [undefined] and the call throws a TypeError.  [run] is the
    outcome of the body. *)
Definition call_on_class {A : Type} (name : string) (run : result A)
  : result A :=
  match member name with
  | Some StaticMethod => run
  | Some InstanceMethod | None =>
      Throw ("WalletAnalyticsService." ++ name ++ " is not a function")
  end.

(** [this.walletService.name(...)], the call on an instance that
    EnhancedRealTimeMonitor.js makes (line 194). *)
Definition call_on_instance {A : Type} (name : string) (run : result A)
  : result A :=
  match member name with
  | Some InstanceMethod => run
  | Some StaticMethod | None =>
      Throw ("this.walletService." ++ name ++ " is not a function")
  end.

Section Wired.
Context `{Builtins}.
Variable net : WalletAnalyticsService.Network.

(** What [getTokenBalance(wallet.address, wallet.tokenAddress,
    wallet.network)] returns.  An absent network has no entry in [chainIds],
    like the empty string; an absent token address selects the answer of the
    request as the empty string does. *)
Definition requested_balance (w : MonitoredWallet) : number :=
  WalletAnalyticsService.getTokenBalance net (address w)
    (string_or (wallet_tokenAddress w) "") (string_or (network w) "").

(** The awaited request of lines 273-277, as the file writes it. *)
Definition balance_request (w : MonitoredWallet) : result value :=
  call_on_class "getTokenBalance" (Ok (Num (requested_balance w))).

(** The same request made on an instance of the service. *)
Definition balance_request_on_instance (w : MonitoredWallet) : result value :=
  call_on_instance "getTokenBalance" (Ok (Num (requested_balance w))).

(** [checkWalletChanges(wallet)] with its request. *)
Definition checkWalletChanges_as_written (env : SellEnv) (w : MonitoredWallet)
  (now : number) : MonitoredWallet * list Event :=
  checkWalletChanges env w (balance_request w) now.

Definition checkWalletChanges_on_instance (env : SellEnv) (w : MonitoredWallet)
  (now : number) : MonitoredWallet * list Event :=
  checkWalletChanges env w (balance_request_on_instance w) now.

End Wired.

(** The collaborators of the sell handler as the file calls them (lines 311,
    324 and 331): three members that the class does not declare, so that no
    body runs.  The clock, the random number and the answer of the price
    request are inputs. *)
Definition collaborators (clock : nat -> number) (random : number)
  (price : result DexResponse) : SellEnv :=
  {| clock := clock;
     random := random;
     price_response := price;
     transactionHistory := call_on_class "getTransactionHistory" (Ok []);
     usdValue_response := call_on_class "getUSDValue" (Ok 0%float);
     dex_response := call_on_class "identifyDEX" (Ok "") |}.

End MonitorWiring.

(* ===================================================================== *)
(** ** Vocabulary of the properties *)
(* ===================================================================== *)

Module AnalyticsSpec.
Import Js WalletAnalyticsService.

(** The risk level as the specification words it, from the two totals. *)
Definition riskLevel_of_totals (teamSupply bundleSupply : number) : string :=
  if gt teamSupply 20 || gt bundleSupply 15 then "high"
  else if gt teamSupply 10 || gt bundleSupply 10 then "medium"
  else "low".

(** The record that one iteration of the loop of [classifyWallets] pushes for
    [h], when [classify] is the classification of one holder. *)
Definition pushed (classify : Holder -> result Classification) (h : Holder)
  : ClassifiedWallet :=
  match classify h with
  | Ok c => {| holder := h; classification := c |}
  | Throw _ => unknown_wallet h
  end.

Definition is_team (w : ClassifiedWallet) : bool :=
  type (classification w) =? "team".

Definition is_bundle (w : ClassifiedWallet) : bool :=
  type (classification w) =? "bundle".

Definition is_regular (w : ClassifiedWallet) : bool :=
  negb (is_team w) && negb (is_bundle w).

(** On arbitrary holder values: the holder objects whose two logged
    expressions evaluate, and the three buckets by the recorded type. *)
Definition loggable `{Builtins} (o : HolderRecords.HolderObject) : bool :=
  match HolderRecords.log_row (Some o) with
  | Ok _ => true
  | Throw _ => false
  end.

Definition raw_is_team (w : HolderRecords.RawClassified) : bool :=
  type (HolderRecords.classified_as w) =? "team".

Definition raw_is_bundle (w : HolderRecords.RawClassified) : bool :=
  type (HolderRecords.classified_as w) =? "bundle".

Definition raw_is_regular (w : HolderRecords.RawClassified) : bool :=
  negb (raw_is_team w) && negb (raw_is_bundle w).

(** The total of a bucket as the specification words it: the percentages of
    its wallets added one after the other, from the first wallet on, starting
    from 0. *)
Fixpoint summed_from (total : number) (wallets : list ClassifiedWallet)
  : number :=
  match wallets with
  | [] => total
  | w :: rest => summed_from (total + percentage (holder w))%float rest
  end.

Definition summed_percentage (wallets : list ClassifiedWallet) : number :=
  summed_from 0%float wallets.

(** An amount in human-readable units: the raw amount divided by
    [10^decimals], 18 decimals when the metadata gives none. *)
Definition human_units `{Builtins} (metadata : TokenMetadata) (raw : number)
  : number :=
  (raw / Math_pow 10 (parseInt_string (string_or (decimals metadata) "18")))%float.

(** The human-readable total supply: [totalSupply / 10^decimals], a total
    supply of "0" when the metadata gives none. *)
Definition totalSupplyHuman `{Builtins} (metadata : TokenMetadata) : number :=
  human_units metadata (parseFloat_string (string_or (totalSupply metadata) "0")).

(** The percentage of a holder with the raw balance [raw], as the
    specification words it. *)
Definition percentage_of_supply `{Builtins} (metadata : TokenMetadata)
  (raw : number) : number :=
  if gt (totalSupplyHuman metadata) 0
  then (human_units metadata raw / totalSupplyHuman metadata * 100)%float
  else 0%float.

(** The percentage rule for a holder record, given the human-readable total
    supply [tsf] of the metadata snapshot it was computed from. *)
Definition percentage_rule (tsf : number) (h : Holder) : Prop :=
  (gt tsf 0 = true -> percentage h = (balance h / tsf * 100)%float)
  /\ (PrimFloat.eqb tsf 0 = true -> percentage h = 0%float)
  /\ (gt tsf 0 = false -> percentage h = 0%float).

(** The rule of the specification for a holder record computed from the
    metadata [metadata]: its balance is its raw balance in human-readable
    units, and its percentage is [balance / (totalSupply / 10^decimals) * 100]
    when the human-readable total supply is positive and 0 when it is zero
    (or not positive at all). *)
Definition follows_percentage_rule `{Builtins} (metadata : TokenMetadata)
  (h : Holder) : Prop :=
  balance h = human_units metadata (balanceRaw h)
  /\ (gt (totalSupplyHuman metadata) 0 = true ->
        percentage h = (balance h / totalSupplyHuman metadata * 100)%float)
  /\ (PrimFloat.eqb (totalSupplyHuman metadata) 0 = true ->
        percentage h = 0%float)
  /\ (gt (totalSupplyHuman metadata) 0 = false -> percentage h = 0%float).

End AnalyticsSpec.

Module MonitorSpec.
Import Js RealTimeMonitor.

(** The groups of checks of a cycle, in order. *)
Fixpoint batches (steps : list Step) : list (list MonitoredWallet) :=
  match steps with
  | [] => []
  | Checks b :: rest => b :: batches rest
  | Wait _ :: rest => batches rest
  end.

(** A cycle that is paced as the staggered loop intends: groups of exactly
    three wallets, each followed by a pause of 2000 ms, and a last group of
    one to three wallets with no pause after it. *)
Inductive staggered : list Step -> Prop :=
| staggered_empty : staggered []
| staggered_last : forall b,
    (1 <= List.length b <= 3)%nat -> staggered [Checks b]
| staggered_more : forall b rest,
    List.length b = 3%nat -> rest <> [] -> staggered rest ->
    staggered (Checks b :: Wait 2000 :: rest).

(** The states of a monitor driven through [initialize], [startMonitoring]
    and [stopMonitoring]. *)
Inductive reachable : Monitor -> Prop :=
| reach_new : reachable new_monitor
| reach_initialize : forall m tok chain wallets,
    reachable m -> reachable (snd (initialize m tok chain wallets))
| reach_start : forall m,
    reachable m -> reachable (snd (startMonitoring m))
| reach_stop : forall m,
    reachable m -> reachable (stopMonitoring m).

(** The timer table agrees with the fields of the monitor: either no timer
    is active and the monitor is idle, or [monitorInterval] names the only
    active timer and the monitor is monitoring. *)
Definition coherent (m : Monitor) : Prop :=
  (1 <= nextTimerId m)%nat
  /\ match monitorInterval m with
     | Some id =>
         id <> 0%nat /\ isMonitoring m = true
         /\ exists t, timers m = [(id, t)]
     | None => isMonitoring m = false /\ timers m = []
     end.

(** [n] successive calls of [startMonitoring]: their results, and the monitor
    after the last one. *)
Fixpoint startMonitoring_times (n : nat) (m : Monitor)
  : list (result bool) * Monitor :=
  match n with
  | O => ([], m)
  | S k =>
      let first := startMonitoring m in
      let others := startMonitoring_times k (snd first) in
      (fst first :: fst others, snd others)
  end.

(** The event is a call of the sell handler. *)
Definition is_sell_call (e : Event) : bool :=
  match e with
  | HandleSellDetected _ _ => true
  | SendAlert _ | StoreAlert _ | NotifySubscribers _ => false
  end.

(** What an event says about the sale it reports: the amount sold and, for
    an alert, its value in USD. *)
Definition reported (e : Event) : number * option number :=
  match e with
  | HandleSellDetected amount _ => (amount, None)
  | SendAlert a | StoreAlert a | NotifySubscribers a =>
      (amountSold a, Some (usdValue a))
  end.

End MonitorSpec.

(* ===================================================================== *)
(** ** Sample data for the concrete instances *)
(* ===================================================================== *)

Module Samples.
Import Js.

(** Built-ins on the literals that occur in the concrete instances below:
    unsigned decimal literals below 2^63.  [parseInt] and [parseFloat] read
    such a literal as the number nearest to the integer it writes. *)
Definition digit_of (c : ascii) : option Z :=
  let n := nat_of_ascii c in
  if (48 <=? n)%nat && (n <=? 57)%nat then Some (Z.of_nat (n - 48)) else None.

Fixpoint digits_value (s : string) (acc : Z) : option Z :=
  match s with
  | EmptyString => Some acc
  | String c rest =>
      match digit_of c with
      | Some d => digits_value rest (acc * 10 + d)
      | None => None
      end
  end.

Definition decimal_literal (s : string) : option Z :=
  match s with
  | EmptyString => None
  | String _ _ => digits_value s 0
  end.

Definition number_of_literal (s : string) : number :=
  match decimal_literal s with
  | Some z => if (z <? 2 ^ 63)%Z then PrimFloat.of_uint63 (Uint63.of_Z z)
              else NaN
  | None => NaN
  end.

Definition sample_parseFloat (s : string) : number := number_of_literal s.

Definition sample_parseInt (s : string) : number := number_of_literal s.

Definition sample_pow (b e : number) : number :=
  if PrimFloat.eqb b 10 && PrimFloat.eqb e 0 then 1%float
  else if PrimFloat.eqb b 10 && PrimFloat.eqb e 6 then 1000000%float
  else if PrimFloat.eqb b 10 && PrimFloat.eqb e 18 then 1000000000000000000%float
  else NaN.

(** [Number.prototype.toFixed] for numbers below 10^21 in absolute value
    (above, the method prints exponent notation, which no instance reaches):
    the integer [n] nearest to [x * 10^digits], the larger one on a tie,
    computed on the exact value [m * 2^e] of the number and printed with
    [digits] decimals. *)
Definition scaled_round (m : positive) (e : Z) (digits : nat) : Z :=
  let p := (Zpos m * 10 ^ Z.of_nat digits)%Z in
  if (0 <=? e)%Z then (p * 2 ^ e)%Z
  else (2 * p + 2 ^ (- e)) / (2 * 2 ^ (- e)).

Fixpoint decimal_digits (fuel : nat) (n : Z) (text : string) : string :=
  match fuel with
  | O => text
  | S fuel' =>
      let text' := String (ascii_of_nat (48 + Z.to_nat (n mod 10))) text in
      if (n / 10 =? 0)%Z then text'
      else decimal_digits fuel' (n / 10) text'
  end.

Definition text_of_Z (n : Z) : string :=
  decimal_digits (S (Z.to_nat (Z.log2 n))) n "".

Fixpoint zeros (n : nat) : string :=
  match n with
  | O => ""
  | S n' => String "0" (zeros n')
  end.

Definition zero_padded (width : nat) (s : string) : string :=
  zeros (width - String.length s) ++ s.

Definition fixed_text (n : Z) (digits : nat) : string :=
  let s := zero_padded (S digits) (text_of_Z n) in
  let whole := String.length s - digits in
  match digits with
  | O => s
  | S _ => substring 0 whole s ++ "." ++ substring whole digits s
  end.

Definition sample_toFixed (x : number) (digits : nat) : string :=
  match Prim2SF x with
  | S754_nan => "NaN"
  | S754_infinity negative => if negative then "-Infinity" else "Infinity"
  | S754_zero _ => fixed_text 0 digits
  | S754_finite negative m e =>
      if PrimFloat.ltb (PrimFloat.abs x) 1e21 then
        (if negative then "-" else "") ++ fixed_text (scaled_round m e digits) digits
      else "NaN"
  end.

Arguments sample_toFixed x%_float_scope digits%_nat_scope.

Example sample_toFixed_instances :
  sample_toFixed 5 2 = "5.00"
  /\ sample_toFixed 25 2 = "25.00"
  /\ sample_toFixed 0.05 4 = "0.0500"
  /\ sample_toFixed 0.125 2 = "0.13"
  /\ sample_toFixed 1.005 2 = "1.00"
  /\ sample_toFixed (-0.001) 2 = "-0.00"
  /\ sample_toFixed 1234.5678 0 = "1235"
  /\ sample_toFixed 0 2 = "0.00"
  /\ sample_toFixed (50 / 1000 * 100) 2 = "5.00".
Proof. repeat split; vm_compute; reflexivity. Qed.

#[export] Instance sample_builtins : Builtins :=
  {| parseFloat_string := sample_parseFloat;
     parseInt_string := sample_parseInt;
     Math_pow := sample_pow;
     toFixed := sample_toFixed |}.

Definition token : string := "0xcccccccccccccccccccccccccccccccccccccccc".

Definition t0 : number := 1700000000000%float.

End Samples.

Module AnalyticsSamples.
Import Js WalletAnalyticsService HolderRecords Samples.

Definition holder_at (addr : string) (pct : number) : Holder :=
  {| address := addr; balance := pct; balanceRaw := pct; percentage := pct |}.
Arguments holder_at addr pct%_float_scope.

Definition holder_of_pct (pct : number) : Holder :=
  holder_at "0x1111111111111111111111111111111111111111" pct.
Arguments holder_of_pct pct%_float_scope.

Definition wallet_with (pct : number) (kind : string) : ClassifiedWallet :=
  {| holder := holder_of_pct pct;
     classification := {| type := kind; reason := ""; riskLevel := None |} |}.
Arguments wallet_with pct%_float_scope kind.

Definition deployer_addr : string := "0xDe0000000000000000000000000000000000000A".

Definition sample_deployer : Deployer :=
  {| deployer_address := deployer_addr; txHash := "0xbb"; blockNumber := "1" |}.

Definition sample_metadata : TokenMetadata :=
  {| name := "Token"; symbol := "TKN"; decimals := Some "0";
     totalSupply := Some "1000000000"; contractAddress := token |}.

(** A network in which every wallet has one incoming transaction from the
    deployer, and nothing else answers. *)
Definition funded_network : Network :=
  {| moralis_owners := fun _ _ => Throw "offline";
     moralis_metadata := fun _ _ _ => Throw "offline";
     moralis_balances := fun _ _ _ => Throw "offline";
     explorer_tokentx := fun _ _ => Throw "offline";
     explorer_txlist := fun _ _ _ =>
       Ok {| status := "1";
             result_rows := [ {| tx_hash := "0xaa";
                                 tx_from := "0xde0000000000000000000000000000000000000a";
                                 tx_to := Some "0x1111111111111111111111111111111111111111";
                                 tx_value := "1000";
                                 tx_timeStamp := "1700000000" |} ] |} |}.

(** An address used in the instances below. *)
Definition bad_address : string := "0x2222222222222222222222222222222222222222".

Definition metadata_row (supply : string) : TokenRow :=
  {| row_name := "Token"; row_symbol := "TKN"; row_decimals := Some "0";
     row_total_supply := Some supply; row_address := token |}.

(** A token with no decimals and two owners; [supply] is the total supply
    that the metadata endpoint reports. *)
Definition owners_network (supply : string) : Network :=
  {| moralis_owners := fun _ _ =>
       Ok (Some [ {| owner_address := "0x1111111111111111111111111111111111111111";
                     owner_balance := "250000000" |};
                  {| owner_address := "0x3333333333333333333333333333333333333333";
                     owner_balance := "50" |} ]);
     moralis_metadata := fun _ _ _ => Ok [ metadata_row supply ];
     moralis_balances := fun _ _ _ => Throw "offline";
     explorer_tokentx := fun _ _ => Throw "offline";
     explorer_txlist := fun _ _ _ => Throw "offline" |}.

(** A token with six decimals and a total supply of 10^9 raw units (1000
    tokens), with the same two owners. *)
Definition six_decimals_row : TokenRow :=
  {| row_name := "Token"; row_symbol := "TKN"; row_decimals := Some "6";
     row_total_supply := Some "1000000000"; row_address := token |}.

Definition six_decimals_network : Network :=
  {| moralis_owners := moralis_owners (owners_network "1000000000");
     moralis_metadata := fun _ _ _ => Ok [ six_decimals_row ];
     moralis_balances := fun _ _ _ => Throw "offline";
     explorer_tokentx := fun _ _ => Throw "offline";
     explorer_txlist := fun _ _ _ => Throw "offline" |}.

(** The same token when the owners endpoint is down and the explorer lists
    two transfers to one address (100 and 50 tokens) and one to another
    (250 tokens). *)
Definition transfer_to (recipient amount : string) : RawTx :=
  {| tx_hash := "0xaa"; tx_from := "0x9999999999999999999999999999999999999999";
     tx_to := Some recipient; tx_value := amount;
     tx_timeStamp := "1700000000" |}.

Definition transfers_network : Network :=
  {| moralis_owners := fun _ _ => Throw "offline";
     moralis_metadata := fun _ _ _ => Ok [ six_decimals_row ];
     moralis_balances := fun _ _ _ => Throw "offline";
     explorer_tokentx := fun _ _ =>
       Ok {| status := "1";
             result_rows :=
               [ transfer_to "0x1111111111111111111111111111111111111111"
                             "100000000";
                 transfer_to "0x3333333333333333333333333333333333333333"
                             "250000000";
                 transfer_to "0x1111111111111111111111111111111111111111"
                             "50000000" ] |};
     explorer_txlist := fun _ _ _ => Throw "offline" |}.

(** Five holder records and a sixth entry without an address, on a network
    where every wallet was funded by the deployer. *)
Definition nameless_holder : HolderObject :=
  {| raw_address := Undefined;
     raw_balance := Num 10;
     raw_balanceRaw := Num 10;
     raw_percentage := Num 0.01 |}.

Definition record_object (addr : string) (pct : number)
  : HolderObject :=
  {| raw_address := Str addr;
     raw_balance := Num pct;
     raw_balanceRaw := Num pct;
     raw_percentage := Num pct |}.
Arguments record_object addr pct%_float_scope.

Definition six_holders : list HolderObject :=
  [ record_object "0x1111111111111111111111111111111111111111" 5;
    record_object "0x3333333333333333333333333333333333333333" 5;
    record_object "0x4444444444444444444444444444444444444444" 0.05;
    record_object "0x5555555555555555555555555555555555555555" 0.05;
    record_object "0x6666666666666666666666666666666666666666" 0.05;
    nameless_holder ].

End AnalyticsSamples.

Module MonitorSamples.
Import Js RealTimeMonitor Samples.

(** A wallet as [initialize] creates it. *)
Definition fresh_wallet : MonitoredWallet :=
  {| address := "0xAbCd000000000000000000000000000000000001";
     type := "team";
     wallet_tokenAddress := Some token;
     network := Some "ethereum";
     lastBalance := None;
     lastChecked := None;
     alertCount := 0%float;
     totalVolumeSold := 0%float |}.

(** The same wallet after a first observation of [last] tokens. *)
Definition observed_wallet (last : number) : MonitoredWallet :=
  set_balance fresh_wallet last t0.
Arguments observed_wallet last%_float_scope.

(** A balance answer of the shape the check reads. *)
Definition formatted (text : string) : value := Obj [("formatted", Str text)].

(** An environment in which every collaborator of the sell handler answers:
    the history holds one outgoing transfer made ten seconds ago, worth
    100 USD. *)
Definition selling_env : SellEnv :=
  {| clock := fun _ => (t0 + 30000)%float;
     random := 0.5%float;
     price_response := Ok {| ok := true; pairs := Some [Some "2"] |};
     transactionHistory :=
       Ok [ {| h_hash := "0xfeed";
               h_from := "0xabcd000000000000000000000000000000000001";
               h_to := "0xd3d3000000000000000000000000000000000002";
               h_timestamp := (t0 + 20000)%float |} ];
     usdValue_response := Ok 100%float;
     dex_response := Ok "Uniswap" |}.

(** An environment in which the analytics service offers none of the three
    methods that the second handler calls: each call throws. *)
Definition missing_methods_env : SellEnv :=
  {| clock := fun _ => (t0 + 30000)%float;
     random := 0.5%float;
     price_response := Ok {| ok := true; pairs := Some [Some "2"] |};
     transactionHistory :=
       Throw "WalletAnalyticsService.getTransactionHistory is not a function";
     usdValue_response :=
       Throw "WalletAnalyticsService.getUSDValue is not a function";
     dex_response :=
       Throw "WalletAnalyticsService.identifyDEX is not a function" |}.

Definition wallet_input (addr : string) : option WalletInput :=
  Some {| in_address := Some addr; in_type := "team" |}.

Definition four_wallets : list (option WalletInput) :=
  [ wallet_input "0xAbCd000000000000000000000000000000000001";
    wallet_input "0xabcd000000000000000000000000000000000002";
    wallet_input "0xabcd000000000000000000000000000000000003";
    wallet_input "0xabcd000000000000000000000000000000000004" ].

(** A monitor initialised with four wallets. *)
Definition initialized_monitor : Monitor :=
  snd (initialize new_monitor (Some token) (Some "ethereum")
                  (Some four_wallets)).

(** The same monitor, started. *)
Definition started_monitor : Monitor :=
  snd (startMonitoring initialized_monitor).

(** The started monitor, initialised again with an empty list. *)
Definition emptied_monitor : Monitor :=
  snd (initialize started_monitor (Some token) (Some "ethereum") (Some [])).

(** The balance endpoint answers one row with the balance [text] for every
    wallet; nothing else answers. *)
Definition holding_network (text : string) : WalletAnalyticsService.Network :=
  {| WalletAnalyticsService.moralis_owners := fun _ _ => Throw "offline";
     WalletAnalyticsService.moralis_metadata := fun _ _ _ => Throw "offline";
     WalletAnalyticsService.moralis_balances := fun _ _ _ =>
       Ok [ {| WalletAnalyticsService.row_balance := text |} ];
     WalletAnalyticsService.explorer_tokentx := fun _ _ => Throw "offline";
     WalletAnalyticsService.explorer_txlist := fun _ _ _ => Throw "offline" |}.

(** The collaborators of the sell handler in the repository, with a price of
    2 USD. *)
Definition repository_env : SellEnv :=
  MonitorWiring.collaborators (fun _ => (t0 + 30000)%float) 0.5%float
    (Ok {| ok := true; pairs := Some [Some "2"] |}).

End MonitorSamples.

(* ===================================================================== *)
(** ** Properties of WalletAnalyticsService *)
(* ===================================================================== *)

Module AnalyticsProofs.
Import Js WalletAnalyticsService AnalyticsSpec Samples AnalyticsSamples.

(** *** Aggregate risk *)

Lemma supply_is_summed_from :
  forall (wallets : list ClassifiedWallet) (total : number),
    fold_left (fun sum wallet => (sum + percentage (holder wallet))%float)
              wallets total
    = summed_from total wallets.
Proof.
  induction wallets as [| w wallets IH]; intros total; [reflexivity |].
  cbn [fold_left summed_from]. apply IH.
Qed.

Lemma supply_is_summed :
  forall wallets, supply wallets = summed_percentage wallets.
Proof. intros wallets. apply supply_is_summed_from. Qed.

(** C8.  [assessRisk] depends on its two arguments only through the two
    totals, each the sum of the percentages of the wallets of one bucket:
    it reports these two sums and their sum, its risk level is 'high' when
    the team total exceeds 20 or the bundle total exceeds 15, 'medium' when
    one of them exceeds 10, 'low' otherwise, and two calls with the same
    totals return the same record.  Team wallets of 20 and 5 percent with no
    bundle wallet (25/0) give 'high', 7 and 5 (12/0) give 'medium', and team
    wallets of 2 and 3 with bundle wallets of 4 and 1 (5/5) give 'low'. *)
Theorem assessRisk_levels :
  forall team bundle : list ClassifiedWallet,
    risk_riskLevel (assessRisk team bundle)
      = riskLevel_of_totals (summed_percentage team) (summed_percentage bundle)
    /\ teamSupplyPercentage (assessRisk team bundle) = summed_percentage team
    /\ bundleSupplyPercentage (assessRisk team bundle)
       = summed_percentage bundle
    /\ totalRiskySupply (assessRisk team bundle)
       = (summed_percentage team + summed_percentage bundle)%float
    /\ (forall team' bundle',
          summed_percentage team' = summed_percentage team ->
          summed_percentage bundle' = summed_percentage bundle ->
          assessRisk team' bundle' = assessRisk team bundle)
    /\ (summed_percentage [wallet_with 20 "team"; wallet_with 5 "team"]
          = 25%float
        /\ risk_riskLevel
             (assessRisk [wallet_with 20 "team"; wallet_with 5 "team"] [])
           = "high")
    /\ (summed_percentage [wallet_with 7 "team"; wallet_with 5 "team"]
          = 12%float
        /\ risk_riskLevel
             (assessRisk [wallet_with 7 "team"; wallet_with 5 "team"] [])
           = "medium")
    /\ (summed_percentage [wallet_with 2 "team"; wallet_with 3 "team"]
          = 5%float
        /\ summed_percentage [wallet_with 4 "bundle"; wallet_with 1 "bundle"]
           = 5%float
        /\ risk_riskLevel
             (assessRisk [wallet_with 2 "team"; wallet_with 3 "team"]
                         [wallet_with 4 "bundle"; wallet_with 1 "bundle"])
           = "low").
Proof.
  intros team bundle.
  split; [| split; [| split; [| split; [| split]]]].
  - unfold assessRisk, riskLevel_of_totals; cbn [risk_riskLevel].
    rewrite !supply_is_summed.
    destruct (gt (summed_percentage team) 20),
      (gt (summed_percentage bundle) 15),
      (gt (summed_percentage team) 10),
      (gt (summed_percentage bundle) 10); reflexivity.
  - cbn [assessRisk teamSupplyPercentage]. apply supply_is_summed.
  - cbn [assessRisk bundleSupplyPercentage]. apply supply_is_summed.
  - cbn [assessRisk totalRiskySupply]. now rewrite !supply_is_summed.
  - intros team' bundle' Ht Hb.
    unfold assessRisk. rewrite !supply_is_summed, Ht, Hb. reflexivity.
  - split; [split | split; [split | split; [| split]]];
      vm_compute; reflexivity.
Qed.

(** Totals reached by several wallets: 15 + 10 is 'high', 6 + 6 'medium'. *)
Example assessRisk_sums :
  risk_riskLevel (assessRisk [wallet_with 15 "team"; wallet_with 10 "team"] [])
    = "high"
  /\ risk_riskLevel (assessRisk [] [wallet_with 6 "bundle"; wallet_with 6 "bundle"])
    = "medium"
  /\ risk_riskLevel (assessRisk [wallet_with 20 "team"] [wallet_with 15 "bundle"])
    = "medium".
Proof. repeat split; vm_compute; reflexivity. Qed.

(** *** Classification of one holder *)

Section Classify.
Context `{Builtins}.
Variable net : Network.

(** C9.  A holder above the 0.1% threshold is classified 'team' by the
    concentration rule alone: no deployer-funding check and no
    bundle-pattern check is started, and the risk level is 'high' above 10%
    and 'medium' otherwise, whatever the network would answer. *)
Theorem classifyWallet_concentration :
  forall (now : number) (h : Holder) (deployer : option Deployer)
         (metadata : TokenMetadata) (blockchain : string),
    gt (percentage h) 0.1 = true ->
    classifyWallet net now h deployer metadata blockchain
    = ({| type := "team";
          reason := "Holds " ++ toFixed (percentage h) 2 ++ "% of total supply";
          riskLevel := Some (if gt (percentage h) 10 then "high" else "medium") |},
       []).
Proof.
  intros now h deployer metadata blockchain Hpct.
  unfold classifyWallet. rewrite Hpct. reflexivity.
Qed.

End Classify.

(** With the same network and deployer, a holder below the threshold is
    classified 'bundle' by the funding rule. *)
Example small_funded_holder_is_bundle :
  classifyWallet funded_network t0 (holder_of_pct 0.05) (Some sample_deployer)
                 sample_metadata "ethereum"
  = ({| type := "bundle"; reason := "Funded by contract deployer";
        riskLevel := Some "high" |},
     [CallCheckDeployerFunding "0x1111111111111111111111111111111111111111"
                               deployer_addr]).
Proof. vm_compute. reflexivity. Qed.

(** A holder at 5% that the deployer funded is classified 'team'. *)
Lemma classifyWallet_concentration_witness :
  gt (percentage (holder_of_pct 5)) 0.1 = true
  /\ checkDeployerFunding funded_network (address (holder_of_pct 5))
                          deployer_addr "ethereum" = true
  /\ classifyWallet funded_network t0 (holder_of_pct 5) (Some sample_deployer)
                    sample_metadata "ethereum"
     = ({| type := "team"; reason := "Holds 5.00% of total supply";
           riskLevel := Some "medium" |}, []).
Proof.
  split; [reflexivity | split; [vm_compute; reflexivity |]].
  exact (classifyWallet_concentration funded_network t0 (holder_of_pct 5)
           (Some sample_deployer) sample_metadata "ethereum" eq_refl).
Defined.

(** *** Classification of a list of holders *)

Section Batch.
Variable classify : Holder -> result Classification.

Lemma team_is_not_bundle :
  forall w, is_team w = true -> is_bundle w = false.
Proof.
  intros w. unfold is_team, is_bundle.
  intros Ht. apply String.eqb_eq in Ht. rewrite Ht. reflexivity.
Qed.

Lemma classify_step_pushed :
  forall team bundle regular h,
    classify_step classify (team, bundle, regular) h
    = ((team ++ filter is_team [pushed classify h])%list,
       (bundle ++ filter is_bundle [pushed classify h])%list,
       (regular ++ filter is_regular [pushed classify h])%list).
Proof.
  intros team bundle regular h.
  unfold classify_step, pushed.
  destruct (classify h) as [c | e].
  - cbn [filter]. unfold is_regular.
    destruct (is_team {| holder := h; classification := c |}) eqn:Ht.
    + rewrite (team_is_not_bundle _ Ht).
      unfold is_team in Ht; cbn in Ht. rewrite Ht.
      cbn. now rewrite !app_nil_r.
    + unfold is_team in Ht; cbn in Ht. rewrite Ht.
      unfold is_bundle; cbn [classification].
      destruct (type c =? "bundle"); cbn; now rewrite !app_nil_r.
  - cbn. now rewrite !app_nil_r.
Qed.

Lemma fold_classify_step :
  forall hs team bundle regular,
    fold_left (classify_step classify) hs (team, bundle, regular)
    = ((team ++ filter is_team (map (pushed classify) hs))%list,
       (bundle ++ filter is_bundle (map (pushed classify) hs))%list,
       (regular ++ filter is_regular (map (pushed classify) hs))%list).
Proof.
  induction hs as [| h hs IH]; intros team bundle regular.
  - cbn. now rewrite !app_nil_r.
  - cbn [fold_left map]. rewrite classify_step_pushed, IH.
    rewrite <- !app_assoc.
    change (pushed classify h :: map (pushed classify) hs)
      with ([pushed classify h] ++ map (pushed classify) hs)%list.
    now rewrite !filter_app.
Qed.

(** The three arrays returned for an array of holders. *)
Lemma classifyWallets_buckets :
  forall hs,
    teamWallets (classifyWallets classify (Some hs))
      = filter is_team (map (pushed classify) hs)
    /\ bundleWallets (classifyWallets classify (Some hs))
      = filter is_bundle (map (pushed classify) hs)
    /\ regularWallets (classifyWallets classify (Some hs))
      = filter is_regular (map (pushed classify) hs).
Proof.
  intros [| h hs].
  - cbn. auto.
  - unfold classifyWallets.
    rewrite (fold_classify_step (h :: hs) [] [] []). cbn [app].
    cbn [teamWallets bundleWallets regularWallets]. auto.
Qed.

Lemma partition_lengths :
  forall ws : list ClassifiedWallet,
    (List.length (filter is_team ws) + List.length (filter is_bundle ws)
     + List.length (filter is_regular ws) = List.length ws)%nat.
Proof.
  induction ws as [| w ws IH]; [reflexivity |].
  cbn [filter]. unfold is_regular at 1.
  destruct (is_team w) eqn:Ht.
  - rewrite (team_is_not_bundle _ Ht). cbn. lia.
  - destruct (is_bundle w); cbn; lia.
Qed.

Lemma is_regular_iff :
  forall h c,
    is_regular {| holder := h; classification := c |} = true
    <-> type c <> "team" /\ type c <> "bundle".
Proof.
  intros h c. unfold is_regular, is_team, is_bundle. cbn [classification].
  rewrite andb_true_iff, !negb_true_iff, !String.eqb_neq. tauto.
Qed.

End Batch.

(** *** Classification of arbitrary holder values *)

Lemma firstn_In :
  forall (A : Type) (n : nat) (y : A) (l : list A),
    In y (firstn n l) -> In y l.
Proof.
  intros A n y l. revert n.
  induction l as [| x l IH]; intros [| n]; cbn; try tauto.
  intros [Hy | Hy]; [now left | right; now apply (IH n)].
Qed.

Section RawBatch.
Import HolderRecords.
Context `{Builtins}.
Variable net : Network.
Variables (now : number) (deployer : option Deployer)
          (metadata : TokenMetadata) (blockchain : string).

(** The record that one iteration of the loop pushes for a holder object. *)
Definition recorded (o : HolderObject) : RawClassified :=
  match classifyWallet_raw net now (Some o) deployer metadata blockchain with
  | Ok c => {| classified_holder := o; classified_as := c |}
  | Throw _ => unknown_raw o
  end.

(** The classification of a holder object throws exactly when one of its two
    logged expressions does. *)
Lemma classifyWallet_raw_loggable :
  forall o,
    (loggable o = true ->
       classifyWallet_raw net now (Some o) deployer metadata blockchain
       = Ok (fst (classifyWallet net now (destructured o) deployer metadata
                                 blockchain)))
    /\ (loggable o = false ->
          exists e, classifyWallet_raw net now (Some o) deployer metadata
                                       blockchain = Throw e).
Proof.
  intros o. unfold loggable, log_row, classifyWallet_raw.
  destruct (slice_0_8 (raw_address o)) as [a | e].
  - destruct (toFixed_optional (raw_percentage o) 4) as [p | e].
    + split; [reflexivity | discriminate].
    + split; [discriminate | intros _; now exists e].
  - split; [discriminate | intros _; now exists e].
Qed.

Lemma try_classify_is_classifyWallet :
  forall o,
    try_classify net now o deployer metadata blockchain
    = classifyWallet_raw net now (Some o) deployer metadata blockchain.
Proof.
  intros o. unfold try_classify.
  destruct (classifyWallet_raw_loggable o) as [Hok Hbad].
  unfold loggable in Hok, Hbad.
  destruct (log_row (Some o)) as [row | e].
  - now destruct (classifyWallet_raw net now (Some o) deployer metadata
                                     blockchain).
  - destruct (Hbad eq_refl) as [e' He']. now rewrite He'.
Qed.

Lemma raw_team_is_not_bundle :
  forall w, raw_is_team w = true -> raw_is_bundle w = false.
Proof.
  intros w. unfold raw_is_team, raw_is_bundle.
  intros Ht. apply String.eqb_eq in Ht. rewrite Ht. reflexivity.
Qed.

Lemma classify_step_raw_recorded :
  forall team bundle regular o,
    classify_step_raw net now deployer metadata blockchain
                      (Ok (team, bundle, regular)) (Some o)
    = Ok ((team ++ filter raw_is_team [recorded o])%list,
          (bundle ++ filter raw_is_bundle [recorded o])%list,
          (regular ++ filter raw_is_regular [recorded o])%list).
Proof.
  intros team bundle regular o.
  unfold classify_step_raw, recorded.
  rewrite try_classify_is_classifyWallet.
  destruct (classifyWallet_raw net now (Some o) deployer metadata blockchain)
    as [c | e].
  - cbn [filter]. unfold raw_is_regular, raw_is_team, raw_is_bundle.
    cbn [classified_as].
    destruct (type c =? "team") eqn:Ht.
    + apply String.eqb_eq in Ht. rewrite Ht. cbn. now rewrite !app_nil_r.
    + destruct (type c =? "bundle"); cbn; now rewrite !app_nil_r.
  - cbn. now rewrite !app_nil_r.
Qed.

Lemma fold_classify_step_raw :
  forall os team bundle regular,
    fold_left (classify_step_raw net now deployer metadata blockchain)
              (map Some os) (Ok (team, bundle, regular))
    = Ok ((team ++ filter raw_is_team (map recorded os))%list,
          (bundle ++ filter raw_is_bundle (map recorded os))%list,
          (regular ++ filter raw_is_regular (map recorded os))%list).
Proof.
  induction os as [| o os IH]; intros team bundle regular.
  - cbn. now rewrite !app_nil_r.
  - cbn [map fold_left]. rewrite classify_step_raw_recorded, IH.
    rewrite <- !app_assoc.
    change (recorded o :: map recorded os)
      with ([recorded o] ++ map recorded os)%list.
    now rewrite !filter_app.
Qed.

(** The log statement before the loop succeeds exactly when the first five
    holders are loggable. *)
Lemma map_result_log_row :
  forall os,
    (forallb loggable os = true ->
       exists rows, map_result log_row (map Some os) = Ok rows)
    /\ (forallb loggable os = false ->
          exists e, map_result log_row (map Some os) = Throw e).
Proof.
  induction os as [| o os [IHok IHbad]]; cbn [forallb map map_result].
  - split; [intros _; now exists [] | discriminate].
  - unfold loggable at 1 3.
    destruct (log_row (Some o)) as [row | e]; cbn [andb].
    + split.
      * intros Hall. destruct (IHok Hall) as [rows Hrows]. rewrite Hrows.
        now exists (row :: rows).
      * intros Hall. destruct (IHbad Hall) as [e He]. rewrite He.
        now exists e.
    + split; [discriminate | intros _; now exists e].
Qed.

Lemma log_top_holders_objects :
  forall os,
    log_top_holders (map Some os)
    = map_result log_row (map Some (firstn 5 os)).
Proof.
  intros os. unfold log_top_holders, slice. cbn [Nat.sub skipn].
  now rewrite firstn_map.
Qed.

(** With a holder among the first five that cannot be logged, the method
    rejects. *)
Lemma classifyWallets_raw_rejects :
  forall os,
    forallb loggable (firstn 5 os) = false ->
    exists e,
      classifyWallets_raw net now (Some (map Some os)) deployer metadata
                          blockchain = Throw e.
Proof.
  intros os Hbad.
  destruct os as [| o os]; [discriminate Hbad |].
  unfold classifyWallets_raw. cbn [map].
  change (Some o :: map Some os) with (map Some (o :: os)).
  rewrite log_top_holders_objects.
  destruct (proj2 (map_result_log_row (firstn 5 (o :: os))) Hbad) as [e He].
  rewrite He. now exists e.
Qed.

Lemma raw_partition_lengths :
  forall ws : list RawClassified,
    (List.length (filter raw_is_team ws) + List.length (filter raw_is_bundle ws)
     + List.length (filter raw_is_regular ws) = List.length ws)%nat.
Proof.
  induction ws as [| w ws IH]; [reflexivity |].
  cbn [filter]. unfold raw_is_regular at 1.
  destruct (raw_is_team w) eqn:Ht.
  - rewrite (raw_team_is_not_bundle _ Ht). cbn. lia.
  - destruct (raw_is_bundle w); cbn; lia.
Qed.


(** On holder records the method on arbitrary values returns, with the
    buckets of the loop on records. *)
Lemma classifyWallets_raw_on_records :
  forall hs : list Holder,
    exists r : RawClassificationResult,
      classifyWallets_raw net now (Some (map of_holder hs)) deployer metadata
                          blockchain = Ok r
      /\ map as_wallet (raw_teamWallets r)
         = teamWallets (classifyWallets_service net now (Some hs) deployer
                                                metadata blockchain)
      /\ map as_wallet (raw_bundleWallets r)
         = bundleWallets (classifyWallets_service net now (Some hs) deployer
                                                  metadata blockchain)
      /\ map as_wallet (raw_regularWallets r)
         = regularWallets (classifyWallets_service net now (Some hs) deployer
                                                   metadata blockchain)
      /\ raw_riskAssessment r
         = riskAssessment (classifyWallets_service net now (Some hs) deployer
                                                   metadata blockchain).
Proof.
  intros hs.
  set (objects := map (fun h => {| raw_address := Str (address h);
                                   raw_balance := Num (balance h);
                                   raw_balanceRaw := Num (balanceRaw h);
                                   raw_percentage := Num (percentage h) |}) hs).
  assert (Hmap : map of_holder hs = map Some objects)
    by (unfold objects; now rewrite map_map).
  set (classify := fun h : Holder =>
         @Ok Classification
             (fst (classifyWallet net now h deployer metadata blockchain))).
  assert (Hrec : map as_wallet (map recorded objects)
                 = map (pushed classify) hs).
  { unfold objects. rewrite !map_map. apply map_ext. intros [a b br p].
    cbn [address balance balanceRaw percentage].
    unfold recorded, pushed, classify.
    destruct (classifyWallet_raw_loggable
                {| raw_address := Str a; raw_balance := Num b;
                   raw_balanceRaw := Num br; raw_percentage := Num p |})
      as [Hok _].
    rewrite (Hok eq_refl). reflexivity. }
  assert (Hfilter : forall (p : ClassifiedWallet -> bool)
                           (q : RawClassified -> bool) ws,
            (forall w, q w = p (as_wallet w)) ->
            map as_wallet (filter q ws) = filter p (map as_wallet ws)).
  { intros p q ws Hpq. induction ws as [| w ws IH]; [reflexivity |].
    cbn [filter map]. rewrite Hpq.
    destruct (p (as_wallet w)); cbn [map]; now rewrite IH. }
  destruct (classifyWallets_buckets classify hs) as (Ht & Hb & Hr).
  assert (Hrisk : riskAssessment (classifyWallets classify (Some hs))
                  = assessRisk (teamWallets (classifyWallets classify (Some hs)))
                               (bundleWallets (classifyWallets classify (Some hs)))).
  { unfold classifyWallets. destruct hs as [| h hs']; [reflexivity |].
    destruct (fold_left _ _ _) as [[team bundle] regular]. reflexivity. }
  change (classifyWallets_service net now (Some hs) deployer metadata blockchain)
    with (classifyWallets classify (Some hs)).
  rewrite Hrisk, Ht, Hb, Hr, <- Hrec, Hmap.
  destruct hs as [| h hs'].
  - eexists. split; [reflexivity |]. repeat split.
  - unfold classifyWallets_raw.
    assert (Hcons : exists o os', objects = o :: os')
      by (unfold objects; cbn [map]; eauto).
    destruct Hcons as (o & os' & Hobjects).
    rewrite Hobjects. cbn [map]. cbv iota.
    change (Some o :: map Some os') with (map Some (o :: os')).
    rewrite <- Hobjects.
    rewrite log_top_holders_objects.
    assert (Hlog : forallb loggable (firstn 5 objects) = true).
    { apply forallb_forall. intros x Hx.
      apply firstn_In in Hx. unfold objects in Hx.
      apply in_map_iff in Hx. destruct Hx as (h0 & Hx & _). now subst x. }
    destruct (proj1 (map_result_log_row (firstn 5 objects)) Hlog)
      as [rows Hrows].
    rewrite Hrows, (fold_classify_step_raw objects [] [] []). cbn [app].
    eexists. split; [reflexivity |].
    cbn [raw_teamWallets raw_bundleWallets raw_regularWallets
         raw_riskAssessment].
    rewrite !(Hfilter is_team raw_is_team), !(Hfilter is_bundle raw_is_bundle),
      (Hfilter is_regular raw_is_regular) by reflexivity.
    rewrite Hobjects. repeat split.
Qed.

End RawBatch.



(** *** Holder percentages *)

(** A total supply of zero (of either sign) is not positive. *)
Lemma zero_is_not_positive :
  forall x : number, PrimFloat.eqb x 0 = true -> gt x 0 = false.
Proof.
  intros x. unfold gt.
  rewrite FloatAxioms.eqb_spec, FloatAxioms.ltb_spec.
  change (Prim2SF 0) with (S754_zero false).
  destruct (Prim2SF x) as [s | s | | s m e]; cbn;
    try destruct s; cbn; intros Hx; try discriminate Hx; reflexivity.
Qed.

Lemma sort_insert_In :
  forall (A : Type) (cmp : A -> A -> number) (x y : A) (l : list A),
    In y (sort_insert cmp x l) -> y = x \/ In y l.
Proof.
  intros A cmp x y l. induction l as [| z l IH]; cbn [sort_insert].
  - intros [Hy | []]. now left.
  - destruct (gt (cmp x z) 0); cbn [In].
    + intros [Hy | Hy]; [right; now left |].
      destruct (IH Hy) as [Hx | Hl]; [now left | right; now right].
    + intros [Hy | Hy]; [now left | now right].
Qed.

Lemma sort_In :
  forall (A : Type) (cmp : A -> A -> number) (y : A) (l : list A),
    In y (sort cmp l) -> In y l.
Proof.
  intros A cmp y l. induction l as [| x l IH]; cbn; [tauto |].
  intros Hy. apply sort_insert_In in Hy.
  destruct Hy as [Hy | Hy]; [now left | right; now apply IH].
Qed.

Lemma firstn_subset :
  forall (A : Type) (n : nat) (y : A) (l : list A),
    In y (firstn n l) -> In y l.
Proof.
  intros A n y l. revert n.
  induction l as [| x l IH]; intros [| n]; cbn; try tauto.
  intros [Hy | Hy]; [now left | right; now apply (IH n)].
Qed.

Section Percentages.
Context `{Builtins}.
Variable net : Network.

Lemma holder_record_rule :
  forall metadata addr raw,
    percentage_rule (totalSupplyFormatted metadata)
                    (holder_record metadata addr raw).
Proof.
  intros metadata addr raw. unfold percentage_rule, holder_record.
  cbn [percentage balance].
  split; [| split].
  - intros Hpos. now rewrite Hpos.
  - intros Hzero. now rewrite (zero_is_not_positive _ Hzero).
  - intros Hnot. now rewrite Hnot.
Qed.

(** The records of the fallback all come from one metadata snapshot, the one
    of request number [k]. *)
Lemma getHoldersFromTransactions_rule :
  forall k contractAddress blockchain h,
    In h (getHoldersFromTransactions net k contractAddress blockchain) ->
    exists metadata,
      getTokenMetadata net k contractAddress blockchain = Ok metadata
      /\ percentage_rule (totalSupplyFormatted metadata) h.
Proof.
  intros k contractAddress blockchain h.
  unfold getHoldersFromTransactions.
  destruct (getTokenMetadata net k contractAddress blockchain)
    as [metadata | e]; [| intros []].
  destruct (explorer_tokentx net contractAddress blockchain)
    as [response | e]; [| intros []].
  destruct (status response =? "1"); [| intros []].
  intros Hin. apply firstn_subset, sort_In, in_map_iff in Hin.
  destruct Hin as ([addr raw] & Hh & _). subst h.
  exists metadata. split; [reflexivity | apply holder_record_rule].
Qed.

(** The record built for one holder follows the rule of the
    specification. *)
Lemma holder_record_follows_rule :
  forall metadata addr raw,
    follows_percentage_rule metadata (holder_record metadata addr raw).
Proof.
  intros metadata addr raw.
  assert (Hpct : percentage (holder_record metadata addr raw)
                 = percentage_of_supply metadata raw) by reflexivity.
  unfold follows_percentage_rule.
  split; [reflexivity |].
  rewrite Hpct. unfold percentage_of_supply.
  change (balance (holder_record metadata addr raw))
    with (human_units metadata raw).
  split; [| split].
  - intros Hpos. now rewrite Hpos.
  - intros Hzero. now rewrite (zero_is_not_positive _ Hzero).
  - intros Hnot. now rewrite Hnot.
Qed.

Lemma getHoldersFromTransactions_follows_rule :
  forall k contractAddress blockchain h,
    In h (getHoldersFromTransactions net k contractAddress blockchain) ->
    exists metadata,
      getTokenMetadata net k contractAddress blockchain = Ok metadata
      /\ follows_percentage_rule metadata h.
Proof.
  intros k contractAddress blockchain h.
  unfold getHoldersFromTransactions.
  destruct (getTokenMetadata net k contractAddress blockchain)
    as [metadata | e]; [| intros []].
  destruct (explorer_tokentx net contractAddress blockchain)
    as [response | e]; [| intros []].
  destruct (status response =? "1"); [| intros []].
  intros Hin. apply firstn_subset, sort_In, in_map_iff in Hin.
  destruct Hin as ([addr raw] & Hh & _). subst h.
  exists metadata. split; [reflexivity | apply holder_record_follows_rule].
Qed.

(** C10.  Every holder record returned by [getTopHolders] or by the
    transaction-history fallback has the balance [balanceRaw / 10^decimals]
    and carries the percentage [balance / (totalSupply / 10^decimals) * 100]
    when that human-readable total supply is positive, and 0 when it is zero
    (or is not positive at all): no division by a zero total supply is
    performed.  The total supply and the decimals are those of the metadata
    that the function itself requested: for the fallback called with request
    number [k] the answer to that request, for [getTopHolders] the answer to
    its first metadata request or, when that request failed, to its
    second. *)
Theorem holders_percentage_rule :
  forall (contractAddress blockchain : string) (h : Holder),
    (In h (getTopHolders net contractAddress blockchain) ->
       exists metadata : TokenMetadata,
         (getTokenMetadata net 0 contractAddress blockchain = Ok metadata
          \/ ((exists e,
                 getTokenMetadata net 0 contractAddress blockchain = Throw e)
              /\ getTokenMetadata net 1 contractAddress blockchain
                 = Ok metadata))
         /\ follows_percentage_rule metadata h)
    /\ (forall k : nat,
          In h (getHoldersFromTransactions net k contractAddress blockchain) ->
          exists metadata : TokenMetadata,
            getTokenMetadata net k contractAddress blockchain = Ok metadata
            /\ follows_percentage_rule metadata h).
Proof.
  intros contractAddress blockchain h.
  split; [| intros k; apply getHoldersFromTransactions_follows_rule].
  unfold getTopHolders.
  assert (Hfirst :
    In h (getHoldersFromTransactions net 0 contractAddress blockchain) ->
    exists metadata : TokenMetadata,
      (getTokenMetadata net 0 contractAddress blockchain = Ok metadata
       \/ ((exists e,
              getTokenMetadata net 0 contractAddress blockchain = Throw e)
           /\ getTokenMetadata net 1 contractAddress blockchain = Ok metadata))
      /\ follows_percentage_rule metadata h).
  { intros Hin.
    destruct (getHoldersFromTransactions_follows_rule _ _ _ _ Hin)
      as (md & Hmd & Hrule).
    exists md. split; [now left | exact Hrule]. }
  destruct (chainIds blockchain) as [chain |]; [| exact Hfirst].
  destruct (moralis_owners net contractAddress blockchain)
    as [[[| o owners] |] | e]; try exact Hfirst.
  destruct (getTokenMetadata net 0 contractAddress blockchain)
    as [metadata | e] eqn:Hmd.
  - intros Hin. apply in_map_iff in Hin. destruct Hin as (row & Hh & _).
    subst h. exists metadata. split; [now left |].
    apply holder_record_follows_rule.
  - intros Hin.
    destruct (getHoldersFromTransactions_follows_rule _ _ _ _ Hin)
      as (md & Hmd1 & Hrule).
    exists md. split; [right; split; [now exists e | exact Hmd1] | exact Hrule].
Qed.

End Percentages.

(** Two owners of a token with no decimals and a supply of 10^9: 25% and
    50 / 10^9 * 100 percent; both 0 when the reported total supply is "0". *)
Example getTopHolders_sample :
  map percentage (getTopHolders (owners_network "1000000000") token "ethereum")
    = [25%float; (50 / 1000000000 * 100)%float]
  /\ map percentage (getTopHolders (owners_network "0") token "ethereum")
    = [0%float; 0%float].
Proof. split; vm_compute; reflexivity. Qed.

(** The same owners of a token with six decimals: the raw balances 250000000
    and 50 are 250 and 0.00005 tokens of a supply of 1000 tokens. *)
Example getTopHolders_six_decimals :
  map (fun h => (balanceRaw h, balance h, percentage h))
      (getTopHolders six_decimals_network token "ethereum")
  = [ (250000000%float, 250%float, 25%float);
      (50%float, (50 / 1000000)%float, (50 / 1000000 / 1000 * 100)%float) ].
Proof. vm_compute. reflexivity. Qed.

(** The fallback on the same token: the two transfers to the first address
    add up to 150 tokens (15%), the other address received 250 (25%) and
    comes first. *)
Example getHoldersFromTransactions_six_decimals :
  map (fun h => (address h, balanceRaw h, balance h, percentage h))
      (getTopHolders transfers_network token "ethereum")
  = [ ("0x3333333333333333333333333333333333333333",
       250000000%float, 250%float, 25%float);
      ("0x1111111111111111111111111111111111111111",
       150000000%float, 150%float, 15%float) ].
Proof. vm_compute. reflexivity. Qed.

Lemma holders_percentage_rule_witness :
  In {| address := "0x1111111111111111111111111111111111111111";
        balance := 250%float; balanceRaw := 250000000%float;
        percentage := 25%float |}
     (getTopHolders six_decimals_network token "ethereum")
  /\ totalSupplyHuman
       {| name := "Token"; symbol := "TKN"; decimals := Some "6";
          totalSupply := Some "1000000000"; contractAddress := token |}
     = 1000%float
  /\ exists metadata : TokenMetadata,
       (getTokenMetadata six_decimals_network 0 token "ethereum" = Ok metadata
        \/ ((exists e, getTokenMetadata six_decimals_network 0 token "ethereum"
                        = Throw e)
            /\ getTokenMetadata six_decimals_network 1 token "ethereum"
               = Ok metadata))
       /\ follows_percentage_rule metadata
            {| address := "0x1111111111111111111111111111111111111111";
               balance := 250%float; balanceRaw := 250000000%float;
               percentage := 25%float |}.
Proof.
  assert (Hin : In {| address := "0x1111111111111111111111111111111111111111";
                      balance := 250%float; balanceRaw := 250000000%float;
                      percentage := 25%float |}
                   (getTopHolders six_decimals_network token "ethereum"))
    by (left; vm_compute; reflexivity).
  split; [exact Hin | split; [vm_compute; reflexivity |]].
  exact (proj1 (holders_percentage_rule six_decimals_network token "ethereum"
                  _) Hin).
Defined.

End AnalyticsProofs.

(* ===================================================================== *)
(** ** Properties of RealTimeMonitor *)
(* ===================================================================== *)

Module MonitorProofs.
Import Js RealTimeMonitor MonitorSpec Samples MonitorSamples.

(** *** Which definitions run *)

Lemma startPolling_resolved :
  resolve class_definition "startPolling" = Some 255%nat.
Proof. reflexivity. Qed.

Lemma handleSellDetected_resolved :
  resolve class_definition "handleSellDetected" = Some 308%nat.
Proof. reflexivity. Qed.

Lemma startPolling_runs_second_definition :
  forall m, startPolling m = startPolling_at_255 m.
Proof. reflexivity. Qed.

Section CheckFacts.
Context `{Builtins}.

Lemma handleSellDetected_runs_second_definition :
  forall env w amount balance,
    handleSellDetected env w amount balance
    = handleSellDetected_at_308 env w amount balance.
Proof. reflexivity. Qed.

(** The handler that runs never writes to the wallet. *)
Lemma handleSellDetected_keeps_wallet :
  forall env w amount balance,
    fst (handleSellDetected env w amount balance) = w.
Proof.
  intros env w amount balance.
  rewrite handleSellDetected_runs_second_definition.
  unfold handleSellDetected_at_308.
  destruct (transactionHistory env) as [txs | e]; [| reflexivity].
  destruct (find _ txs); [| reflexivity].
  destruct (usdValue_response env); [| reflexivity].
  destruct (dex_response env); reflexivity.
Qed.

(** The first definition, which no call reaches, does update the statistics
    of the wallet. *)
Lemma shadowed_handler_updates_stats :
  forall env w amount balance,
    let w' := fst (handleSellDetected_at_167 env w amount balance) in
    alertCount w' = (number_or (alertCount w) 0 + 1)%float
    /\ totalVolumeSold w'
       = (number_or (totalVolumeSold w) 0
          + amount * number_or (getTokenPrice env) 0)%float.
Proof. intros; split; reflexivity. Qed.

(** Whatever the collaborators answer, a check leaves the statistics of the
    wallet as they were. *)
Lemma check_never_updates_stats :
  forall (env : SellEnv) (w : MonitoredWallet) (fetch : result value)
         (now : number),
    alertCount (fst (checkWalletChanges env w fetch now)) = alertCount w
    /\ totalVolumeSold (fst (checkWalletChanges env w fetch now))
       = totalVolumeSold w.
Proof.
  intros env w fetch now.
  unfold checkWalletChanges, checkWalletChanges_with.
  destruct fetch as [v | e]; [| split; reflexivity].
  destruct (truthy v); [| split; reflexivity]. cbn [negb].
  destruct (lastBalance w) as [last |]; [| split; reflexivity].
  destruct (gt _ 0 && gt _ 1); [| split; reflexivity].
  cbn [fst]. rewrite handleSellDetected_keeps_wallet. split; reflexivity.
Qed.

(** *** First observation *)

(** The first-observation branch as written, for an answer of the shape that
    line 281 reads (an object with a [formatted] property): the check
    stores [parseFloat(currentBalance.formatted)] in [lastBalance] and the
    current time in [lastChecked], leaves the statistics alone, calls no
    sell handling and dispatches no alert. *)
Lemma first_observation_seeds_baseline :
  forall (env : SellEnv) (w : MonitoredWallet) (v : value) (now : number),
    lastBalance w = None ->
    truthy v = true ->
    let after := checkWalletChanges env w (Ok v) now in
    lastBalance (fst after) = Some (currentBalanceNum v)
    /\ lastChecked (fst after) = Some now
    /\ alertCount (fst after) = alertCount w
    /\ totalVolumeSold (fst after) = totalVolumeSold w
    /\ snd after = [].
Proof.
  intros env w v now Hnull Hv after. subst after.
  unfold checkWalletChanges, checkWalletChanges_with.
  rewrite Hv, Hnull. cbn. repeat split.
Qed.

(** A fetched value that is a bare number has no [formatted] property: the
    balance read from it is NaN. *)
Lemma bare_number_reads_as_NaN :
  forall n : number, PrimFloat.is_nan (currentBalanceNum (Num n)) = true.
Proof. reflexivity. Qed.

(** *** Zero balances *)

(** C4.  When the balance request returns the number 0 the check stops at
    once: the wallet is unchanged ([lastBalance], [lastChecked], [alertCount]
    and [totalVolumeSold] included), no sell handling is called and no alert
    is dispatched, whatever the previous balance was. *)
Theorem zero_balance_is_skipped :
  forall (env : SellEnv) (w : MonitoredWallet) (n now : number),
    PrimFloat.eqb n 0 = true ->
    checkWalletChanges env w (Ok (Num n)) now = (w, []).
Proof.
  intros env w n now Hzero.
  unfold checkWalletChanges, checkWalletChanges_with.
  cbn [truthy]. unfold number_truthy. rewrite Hzero. reflexivity.
Qed.

(** [getTokenBalance] answers 0 when the request fails or returns no row. *)
Lemma getTokenBalance_defaults_to_zero :
  forall (net : WalletAnalyticsService.Network)
         (walletAddress tokenAddress blockchain : string),
    (WalletAnalyticsService.moralis_balances net walletAddress tokenAddress
       blockchain = Ok []
     \/ exists e, WalletAnalyticsService.moralis_balances net walletAddress
                    tokenAddress blockchain = Throw e) ->
    WalletAnalyticsService.getTokenBalance net walletAddress tokenAddress
      blockchain = 0%float.
Proof.
  intros net walletAddress tokenAddress blockchain Hresp.
  unfold WalletAnalyticsService.getTokenBalance.
  destruct (WalletAnalyticsService.chainIds blockchain); [| reflexivity].
  destruct Hresp as [Hresp | [e Hresp]]; rewrite Hresp; reflexivity.
Qed.

(** *** Sell threshold *)

(** The threshold test as written, for an answer of the shape that line 281
    reads: with the previous balance [last] and the balance [cur] read from
    the answer, sell handling is called exactly when [delta = last - cur] is
    positive and [delta / last * 100] is strictly above 1; it is then called
    once, with [delta] and [cur].  A computed change of exactly 1 does not
    call it. *)
Lemma sell_threshold :
  forall (env : SellEnv) (w : MonitoredWallet) (last : number) (v : value)
         (now : number),
    lastBalance w = Some last ->
    truthy v = true ->
    let cur := currentBalanceNum v in
    let delta := (last - cur)%float in
    let changePercent := (delta / last * 100)%float in
    let events := snd (checkWalletChanges env w (Ok v) now) in
    events = (if gt delta 0 && gt changePercent 1
              then HandleSellDetected delta cur
                   :: snd (handleSellDetected env w delta cur)
              else [])
    /\ (existsb is_sell_call events = true
        <-> gt delta 0 = true /\ gt changePercent 1 = true)
    /\ (changePercent = 1%float -> events = []).
Proof.
  intros env w last v now Hlast Hv cur delta changePercent events.
  assert (Hev : events = (if gt delta 0 && gt changePercent 1
              then HandleSellDetected delta cur
                   :: snd (handleSellDetected env w delta cur)
              else [])).
  { subst events. unfold checkWalletChanges, checkWalletChanges_with.
    rewrite Hv, Hlast. cbn [negb].
    fold cur. fold delta. fold changePercent.
    destruct (gt delta 0 && gt changePercent 1); reflexivity. }
  split; [exact Hev | split].
  - rewrite Hev, <- andb_true_iff.
    destruct (gt delta 0 && gt changePercent 1); cbn [existsb is_sell_call orb];
      split; intros Hx; (reflexivity || discriminate Hx).
  - intros Hone. rewrite Hev, Hone.
    rewrite andb_false_r. reflexivity.
Qed.

End CheckFacts.

(** *** Concrete checks *)

Lemma first_observation_seeds_baseline_witness :
  lastBalance fresh_wallet = None
  /\ truthy (formatted "1000") = true
  /\ lastBalance (fst (checkWalletChanges selling_env fresh_wallet
                         (Ok (formatted "1000")) t0)) = Some 1000%float
  /\ lastChecked (fst (checkWalletChanges selling_env fresh_wallet
                         (Ok (formatted "1000")) t0)) = Some t0
  /\ snd (checkWalletChanges selling_env fresh_wallet
            (Ok (formatted "1000")) t0) = [].
Proof.
  destruct (first_observation_seeds_baseline selling_env fresh_wallet
              (formatted "1000") t0 eq_refl eq_refl)
    as (Hbal & Hchk & _ & _ & Hev).
  split; [reflexivity | split; [reflexivity |]].
  split; [exact Hbal | split; [exact Hchk | exact Hev]].
Defined.

(** A wallet that held 1000 tokens and now holds none: the request returns
    0 and the check does nothing. *)
Lemma zero_balance_is_skipped_witness :
  PrimFloat.eqb 0 0 = true
  /\ checkWalletChanges selling_env (observed_wallet 1000) (Ok (Num 0)) t0
     = (observed_wallet 1000, []).
Proof.
  split; [reflexivity |].
  exact (zero_balance_is_skipped selling_env (observed_wallet 1000)
           0%float t0 eq_refl).
Defined.

Lemma sell_threshold_witness :
  lastBalance (observed_wallet 1000) = Some 1000%float
  /\ truthy (formatted "950") = true
  /\ snd (checkWalletChanges selling_env (observed_wallet 1000)
            (Ok (formatted "950")) t0)
     = HandleSellDetected 50 950
       :: snd (handleSellDetected selling_env (observed_wallet 1000) 50 950).
Proof.
  destruct (sell_threshold selling_env (observed_wallet 1000) 1000%float
              (formatted "950") t0 eq_refl eq_refl) as (Hev & _ & _).
  split; [reflexivity | split; [reflexivity | exact Hev]].
Defined.

(** A drop from 100 to 99 is a change of exactly 1 and calls no sell
    handling; a drop from 1000 to 950 is a change of 5 and calls it. *)
Example threshold_boundary :
  ((100 - 99) / 100 * 100)%float = 1%float
  /\ snd (checkWalletChanges selling_env (observed_wallet 100)
            (Ok (formatted "99")) t0) = []
  /\ ((1000 - 950) / 1000 * 100)%float = 5%float
  /\ existsb is_sell_call
       (snd (checkWalletChanges selling_env (observed_wallet 1000)
               (Ok (formatted "950")) t0)) = true.
Proof. repeat split; vm_compute; reflexivity. Qed.

(** *** Statistics after a sell *)

(** The first definition of the handler on the same call. *)
Example shadowed_handler_sample :
  alertCount (fst (handleSellDetected_at_167 selling_env
                     (observed_wallet 1000) 50 950)) = 1%float
  /\ totalVolumeSold (fst (handleSellDetected_at_167 selling_env
                             (observed_wallet 1000) 50 950)) = 100%float.
Proof. split; vm_compute; reflexivity. Qed.

(** *** Poll cycle *)

Lemma slice_length :
  forall (ws : list MonitoredWallet) (i : nat),
    List.length (slice i (i + batchSize) ws) = Nat.min 3 (List.length ws - i).
Proof.
  intros ws i. unfold slice, batchSize.
  replace (i + 3 - i)%nat with 3%nat by lia.
  now rewrite length_firstn, length_skipn.
Qed.

Lemma staggered_loop_done :
  forall fuel i ws,
    (List.length ws <= i)%nat -> staggered_loop fuel i ws = [].
Proof.
  intros [| fuel] i ws Hi; [reflexivity |].
  cbn [staggered_loop].
  destruct (Nat.ltb_spec i (List.length ws)); [lia | reflexivity].
Qed.

(** With enough fuel the loop checks every wallet from index [i] on, once and
    in order. *)
Lemma staggered_loop_covers :
  forall fuel i ws,
    (List.length ws - i <= fuel)%nat ->
    List.concat (batches (staggered_loop fuel i ws)) = skipn i ws.
Proof.
  induction fuel as [| fuel IH]; intros i ws Hfuel.
  - cbn. symmetry. apply skipn_all2. lia.
  - cbn [staggered_loop].
    destruct (Nat.ltb_spec i (List.length ws)) as [Hlt | Hge].
    + assert (Hrest : List.concat (batches (staggered_loop fuel (i + batchSize) ws))
                      = skipn (i + batchSize) ws)
        by (apply IH; unfold batchSize; lia).
      destruct (i + batchSize <? List.length ws)%nat;
        cbn [app batches List.concat]; rewrite Hrest;
        unfold slice, batchSize;
        replace (i + 3 - i)%nat with 3%nat by lia;
        replace (i + 3)%nat with (3 + i)%nat by lia;
        rewrite <- skipn_skipn; apply firstn_skipn.
    + cbn. symmetry. apply skipn_all2. lia.
Qed.

Lemma staggered_loop_paced :
  forall fuel i ws,
    (List.length ws - i <= fuel)%nat ->
    staggered (staggered_loop fuel i ws).
Proof.
  induction fuel as [| fuel IH]; intros i ws Hfuel.
  - constructor.
  - cbn [staggered_loop].
    destruct (Nat.ltb_spec i (List.length ws)) as [Hlt | Hge];
      [| constructor].
    pose proof (slice_length ws i) as Hlen.
    destruct (Nat.ltb_spec (i + batchSize) (List.length ws)) as [Hmore | Hlast];
      unfold batchSize in *; cbn [app].
    + apply staggered_more.
      * lia.
      * destruct fuel as [| fuel']; [lia |].
        cbn [staggered_loop].
        destruct (Nat.ltb_spec (i + 3) (List.length ws)); [| lia].
        discriminate.
      * apply IH. lia.
    + rewrite staggered_loop_done by lia.
      apply staggered_last. lia.
Qed.

(** The first definition of the cycle does what its comment says: groups of
    three, awaited one after the other, 2000 ms apart, covering every
    monitored wallet once. *)
Lemma checkAllWalletsStaggered_paced :
  forall m,
    staggered (checkAllWalletsStaggered m)
    /\ List.concat (batches (checkAllWalletsStaggered m)) = wallet_values m.
Proof.
  intros m. unfold checkAllWalletsStaggered. split.
  - apply staggered_loop_paced. lia.
  - rewrite staggered_loop_covers by lia. reflexivity.
Qed.

(** Every timer that [startMonitoring] creates runs [checkAllWallets] every
    30 seconds. *)
Lemma startMonitoring_timer :
  forall m id t,
    In (id, t) (timers (snd (startMonitoring m))) ->
    In (id, t) (timers m)
    \/ t = {| period := 30000; callback := RunCheckAllWallets |}.
Proof.
  intros m id t. unfold startMonitoring.
  destruct (negb _ || negb _); [now left |].
  destruct (_ =? 0)%nat; [now left |].
  destruct (isMonitoring m); [now left |].
  rewrite startPolling_runs_second_definition.
  cbn. intros Hin. apply in_app_or in Hin.
  destruct Hin as [Hin | [Heq | []]]; [now left |].
  right. now inversion Heq.
Qed.

(** The cycle of such a timer is one group made of every monitored wallet. *)
Lemma checkAllWallets_one_group :
  forall m,
    poll_cycle {| period := 30000; callback := RunCheckAllWallets |} m
    = [Checks (wallet_values m)].
Proof. reflexivity. Qed.

(** C1, evaluated.  On a monitor that watches four wallets, started with
    [startMonitoring], the only timer runs [checkAllWallets] every 30000 ms,
    and its cycle is one group of four checks started together with no pause;
    a cycle in batches of three would be three checks, a pause of 2000 ms,
    and one check. *)
Theorem poll_cycle_is_not_batched :
  fst (startMonitoring initialized_monitor) = Ok true
  /\ timers started_monitor
     = [ (1%nat, {| period := 30000; callback := RunCheckAllWallets |}) ]
  /\ List.length (wallet_values started_monitor) = 4%nat
  /\ poll_cycle {| period := 30000; callback := RunCheckAllWallets |}
                started_monitor
     = [ Checks (wallet_values started_monitor) ]
  /\ checkAllWalletsStaggered started_monitor
     = [ Checks (firstn 3 (wallet_values started_monitor));
         Wait 2000;
         Checks (skipn 3 (wallet_values started_monitor)) ].
Proof. repeat split. Qed.

(** A cycle made of one group of four is not paced in batches of three. *)
Lemma one_group_of_four_is_not_staggered :
  ~ staggered (poll_cycle {| period := 30000; callback := RunCheckAllWallets |}
                          started_monitor).
Proof.
  intros Hst. unfold poll_cycle, checkAllWallets in Hst. cbn [callback] in Hst.
  inversion Hst as [| b Hlen Hb |]; subst.
  change (List.length (wallet_values started_monitor)) with 4%nat in Hlen.
  lia.
Qed.

(** *** Lifecycle *)

Lemma coherent_initialize :
  forall m tok chain wallets,
    coherent m -> coherent (snd (initialize m tok chain wallets)).
Proof.
  intros m tok chain wallets Hm. unfold initialize.
  destruct wallets as [[| w ws] |]; exact Hm.
Qed.

Lemma coherent_startMonitoring :
  forall m, coherent m -> coherent (snd (startMonitoring m)).
Proof.
  intros m Hm. unfold startMonitoring.
  destruct (negb _ || negb _); [exact Hm |].
  destruct (_ =? 0)%nat; [exact Hm |].
  destruct (isMonitoring m) eqn:Hmon; [exact Hm |].
  rewrite startPolling_runs_second_definition.
  destruct Hm as [Hnext Hm]. unfold coherent. cbn.
  split; [lia |].
  destruct (monitorInterval m) as [id |].
  - destruct Hm as (_ & Hactive & _). congruence.
  - destruct Hm as (_ & Htimers). rewrite Htimers. cbn.
    repeat split; [lia | eexists; reflexivity].
Qed.

Lemma coherent_stopMonitoring :
  forall m, coherent m -> coherent (stopMonitoring m).
Proof.
  intros m [Hnext Hm]. unfold stopMonitoring, coherent.
  destruct (monitorInterval m) as [id |] eqn:Hid.
  - destruct Hm as (Hpos & _ & t & Htimers).
    destruct (Nat.eqb_spec id 0) as [Hzero | _]; [contradiction |].
    cbn. rewrite Htimers. cbn. rewrite Nat.eqb_refl. cbn. auto.
  - cbn. rewrite Hid. destruct Hm as (_ & Htimers). auto.
Qed.

Lemma reachable_coherent : forall m, reachable m -> coherent m.
Proof.
  induction 1.
  - unfold coherent, new_monitor; cbn. auto.
  - now apply coherent_initialize.
  - now apply coherent_startMonitoring.
  - now apply coherent_stopMonitoring.
Qed.

(** After [stopMonitoring] no timer is left. *)
Lemma stopMonitoring_clears_timer :
  forall m, reachable m ->
            timers (stopMonitoring m) = []
            /\ isMonitoring (stopMonitoring m) = false
            /\ monitoredWallets (stopMonitoring m) = [].
Proof.
  intros m Hreach.
  pose proof (coherent_stopMonitoring m (reachable_coherent m Hreach))
    as [_ Hco].
  assert (Hnone : monitorInterval (stopMonitoring m) = None).
  { unfold stopMonitoring.
    destruct (monitorInterval m) as [id |] eqn:Hid; cbn; [| exact Hid].
    destruct (reachable_coherent m Hreach) as [_ Hm]. rewrite Hid in Hm.
    destruct Hm as (Hpos & _).
    destruct (Nat.eqb_spec id 0); [contradiction | reflexivity]. }
  rewrite Hnone in Hco. destruct Hco as [Hidle Htimers].
  split; [exact Htimers | split; [exact Hidle | reflexivity]].
Qed.

(** A monitor that is already monitoring is never changed by a call. *)
Lemma startMonitoring_active_unchanged :
  forall m, isMonitoring m = true -> snd (startMonitoring m) = m.
Proof.
  intros m Hactive. unfold startMonitoring.
  destruct (negb _ || negb _); [reflexivity |].
  destruct (_ =? 0)%nat; [reflexivity |].
  now rewrite Hactive.
Qed.

Lemma startMonitoring_times_active :
  forall n m, isMonitoring m = true -> snd (startMonitoring_times n m) = m.
Proof.
  induction n as [| n IH]; intros m Hactive; [reflexivity |].
  cbn. rewrite (startMonitoring_active_unchanged m Hactive). now apply IH.
Qed.

Lemma startMonitoring_success_active :
  forall m, fst (startMonitoring m) = Ok true ->
            isMonitoring (snd (startMonitoring m)) = true.
Proof.
  intros m. unfold startMonitoring.
  destruct (negb _ || negb _); [discriminate |].
  destruct (_ =? 0)%nat; [discriminate |].
  destruct (isMonitoring m) eqn:Hactive; [intros _; exact Hactive |].
  reflexivity.
Qed.

(** C6, as the code has it.  On every reachable monitor: a call before
    [initialize] (token address or blockchain not set) throws and leaves the
    monitor, timers included, as it was; on an initialised monitor that is
    already monitoring a non-empty set the call returns true and changes
    nothing; on an initialised monitor whose set is empty the call returns
    false and changes nothing, monitoring or not; and after one or more
    successive calls that all returned true exactly one timer is active. *)
Theorem startMonitoring_lifecycle :
  forall m : Monitor,
    reachable m ->
    (string_truthy (tokenAddress m) = false
     \/ string_truthy (blockchain m) = false ->
     startMonitoring m
     = (Throw "Monitor not initialized. Call initialize() first.", m))
    /\ (string_truthy (tokenAddress m) = true ->
        string_truthy (blockchain m) = true ->
        monitoredWallets m <> [] ->
        isMonitoring m = true ->
        startMonitoring m = (Ok true, m))
    /\ (string_truthy (tokenAddress m) = true ->
        string_truthy (blockchain m) = true ->
        monitoredWallets m = [] ->
        startMonitoring m = (Ok false, m))
    /\ (forall n : nat,
          (1 <= n)%nat ->
          Forall (fun r => r = Ok true) (fst (startMonitoring_times n m)) ->
          List.length (timers (snd (startMonitoring_times n m))) = 1%nat
          /\ isMonitoring (snd (startMonitoring_times n m)) = true).
Proof.
  intros m Hreach.
  split; [| split; [| split]].
  - intros Hnot. unfold startMonitoring.
    destruct Hnot as [Hnot | Hnot]; rewrite Hnot; cbn;
      [| rewrite orb_true_r]; reflexivity.
  - intros Htok Hchain Hwallets Hactive. unfold startMonitoring.
    rewrite Htok, Hchain, Hactive. cbn.
    destruct (monitoredWallets m); [contradiction | reflexivity].
  - intros Htok Hchain Hwallets. unfold startMonitoring.
    rewrite Htok, Hchain, Hwallets. reflexivity.
  - intros [| n] Hn Hall; [lia |].
    cbn in Hall |- *. inversion Hall as [| r rs Hfirst _]; subst.
    pose proof (startMonitoring_success_active m Hfirst) as Hactive.
    rewrite (startMonitoring_times_active n _ Hactive).
    split; [| exact Hactive].
    pose proof (coherent_startMonitoring m (reachable_coherent m Hreach))
      as [_ Hco].
    destruct (monitorInterval (snd (startMonitoring m))) as [id |].
    + destruct Hco as (_ & _ & t & Htimers). now rewrite Htimers.
    + destruct Hco as (Hidle & _). congruence.
Qed.

Lemma initialized_monitor_reachable : reachable initialized_monitor.
Proof. apply reach_initialize, reach_new. Qed.

(** Two successive calls on a monitor initialised with four wallets both
    return true and leave one timer; a call on a new monitor throws. *)
Lemma startMonitoring_lifecycle_witness :
  reachable initialized_monitor
  /\ fst (startMonitoring_times 2 initialized_monitor) = [Ok true; Ok true]
  /\ List.length (timers (snd (startMonitoring_times 2 initialized_monitor)))
     = 1%nat
  /\ startMonitoring new_monitor
     = (Throw "Monitor not initialized. Call initialize() first.", new_monitor)
  /\ timers new_monitor = [].
Proof.
  destruct (startMonitoring_lifecycle initialized_monitor
              initialized_monitor_reachable) as (_ & _ & _ & Htimes).
  destruct (startMonitoring_lifecycle new_monitor reach_new)
    as (Hbefore & _ & _ & _).
  split; [exact initialized_monitor_reachable | split; [reflexivity |]].
  split.
  - refine (proj1 (Htimes 2%nat _ _)).
    + apply le_S, le_n.
    + repeat constructor.
  - split; [| reflexivity].
    apply Hbefore. left. reflexivity.
Defined.

(** A monitor that is monitoring and is then initialised again with an empty
    list is still monitoring (flag set, one timer active); a call of
    [startMonitoring] on it returns false. *)
Lemma startMonitoring_while_active_returns_false :
  fst (startMonitoring initialized_monitor) = Ok true
  /\ fst (initialize started_monitor (Some token) (Some "ethereum") (Some []))
     = Ok true
  /\ isMonitoring emptied_monitor = true
  /\ timers emptied_monitor
     = [ (1%nat, {| period := 30000; callback := RunCheckAllWallets |}) ]
  /\ startMonitoring emptied_monitor = (Ok false, emptied_monitor).
Proof. repeat split. Qed.

End MonitorProofs.

(* ===================================================================== *)
(** ** RealTimeMonitor: subscribers, status and repeated checks *)
(* ===================================================================== *)

Module MonitorServices.
Import Js RealTimeMonitor.

(** *** Subscribers *)

(** A callback, identified by its function reference. *)
Definition subscriber : Set := nat.

(** [set.add(c)] and [set.delete(c)] on a [Set] kept in insertion order. *)
Definition set_add (s : list subscriber) (c : subscriber) : list subscriber :=
  if existsb (Nat.eqb c) s then s else (s ++ [c])%list.

Definition set_delete (s : list subscriber) (c : subscriber) : list subscriber :=
  filter (fun x => negb (x =? c)%nat) s.

(** The two subscriber sets of a monitor. *)
Record Subscribers : Type := {
  alertSubscribers : list subscriber;
  updateSubscribers : list subscriber
}.

(** The sets of a new monitor. *)
Definition no_subscribers : Subscribers :=
  {| alertSubscribers := []; updateSubscribers := [] |}.

(** [subscribe(callback)], and the function it returns. *)
Definition subscribe (s : Subscribers) (c : subscriber) : Subscribers :=
  {| alertSubscribers := set_add (alertSubscribers s) c;
     updateSubscribers := updateSubscribers s |}.

Definition unsubscribe (s : Subscribers) (c : subscriber) : Subscribers :=
  {| alertSubscribers := set_delete (alertSubscribers s) c;
     updateSubscribers := updateSubscribers s |}.

Definition onAlert (s : Subscribers) (c : subscriber) : Subscribers :=
  subscribe s c.

(** [onWalletUpdate(callback)], and the function it returns. *)
Definition onWalletUpdate (s : Subscribers) (c : subscriber) : Subscribers :=
  {| alertSubscribers := alertSubscribers s;
     updateSubscribers := set_add (updateSubscribers s) c |}.

Definition unsubscribe_update (s : Subscribers) (c : subscriber) : Subscribers :=
  {| alertSubscribers := alertSubscribers s;
     updateSubscribers := set_delete (updateSubscribers s) c |}.

(** What a notification does, in order: a callback is called; its error is
    caught and logged. *)
Inductive Delivery : Type :=
| Called (c : subscriber)
| ErrorLogged (c : subscriber).

(** What a callback does to the set that is being iterated while it runs
    (it may subscribe or unsubscribe callbacks), and whether it then
    throws. *)
Inductive SetOp : Set :=
| SetAdd (c : subscriber)
| SetDelete (c : subscriber).

Record Reaction : Set := {
  reaction_ops : list SetOp;
  reaction_throws : bool
}.

(** The entries of a [Set] while it is iterated.  [set.delete(c)] empties the
    entry of [c]; [set.add(c)] appends an entry when [c] has none. *)
Definition entries : Set := list (option subscriber).

Definition entry_is (c : subscriber) (e : option subscriber) : bool :=
  match e with
  | Some x => (x =? c)%nat
  | None => false
  end.

Definition entries_delete (es : entries) (c : subscriber) : entries :=
  map (fun e => if entry_is c e then None else e) es.

Definition entries_add (es : entries) (c : subscriber) : entries :=
  if existsb (entry_is c) es then es else (es ++ [Some c])%list.

Definition apply_op (es : entries) (op : SetOp) : entries :=
  match op with
  | SetAdd c => entries_add es c
  | SetDelete c => entries_delete es c
  end.

(** The values of the set, in insertion order. *)
Fixpoint values (es : entries) : list subscriber :=
  match es with
  | [] => []
  | Some c :: rest => c :: values rest
  | None :: rest => values rest
  end.

(** [set.forEach(callback => { try { callback(data) } catch { log } })].
    [Set.prototype.forEach] visits the entries by index, skips the empty
    ones, and reads the number of entries again after each call: a callback
    deleted before its turn is not called, one added during the iteration is
    called in it.  The iteration need not end, so the definition takes
    [fuel], one unit per visited entry; [None] means that the fuel ran
    out. *)
Fixpoint forEach_guarded (fuel : nat) (react : subscriber -> Reaction)
  (es : entries) (index : nat) {struct fuel}
  : option (list Delivery * entries) :=
  match nth_error es index with
  | None => Some ([], es)
  | Some entry =>
      match fuel with
      | O => None
      | S fuel' =>
          match entry with
          | None => forEach_guarded fuel' react es (S index)
          | Some c =>
              let es' := fold_left apply_op (reaction_ops (react c)) es in
              match forEach_guarded fuel' react es' (S index) with
              | None => None
              | Some (ds, final) =>
                  Some (((if reaction_throws (react c)
                          then [Called c; ErrorLogged c]
                          else [Called c]) ++ ds)%list, final)
              end
          end
      end
  end.

(** [notifySubscribers(alertData)]: the deliveries and the subscriber sets
    after the call. *)
Definition notifySubscribers (fuel : nat) (react : subscriber -> Reaction)
  (s : Subscribers) : option (list Delivery * Subscribers) :=
  match forEach_guarded fuel react (map Some (alertSubscribers s)) 0 with
  | Some (ds, es) =>
      Some (ds, {| alertSubscribers := values es;
                   updateSubscribers := updateSubscribers s |})
  | None => None
  end.

Definition notifyWalletUpdate (fuel : nat) (react : subscriber -> Reaction)
  (s : Subscribers) : option (list Delivery * Subscribers) :=
  match forEach_guarded fuel react (map Some (updateSubscribers s)) 0 with
  | Some (ds, es) =>
      Some (ds, {| alertSubscribers := alertSubscribers s;
                   updateSubscribers := values es |})
  | None => None
  end.

(** *** Status *)

(** [Math.max] of two numbers: NaN if one is NaN, and [+0] above [-0]. *)
Definition Math_max2 (a b : number) : number :=
  if PrimFloat.is_nan a || PrimFloat.is_nan b then NaN
  else if PrimFloat.ltb a b then b
  else if PrimFloat.ltb b a then a
  else if PrimFloat.Leibniz.eqb a 0 then a
  else b.

(** [Math.max(...values)]; with no value it is [-Infinity]. *)
Definition Math_max (values : list number) : number :=
  fold_left Math_max2 values PrimFloat.neg_infinity.

(** [w.lastChecked || 0]. *)
Definition lastChecked_or_0 (w : MonitoredWallet) : number :=
  match lastChecked w with
  | Some t => number_or t 0
  | None => 0%float
  end.

Record Status : Type := {
  status_isMonitoring : bool;
  status_walletCount : nat;
  status_subscriberCount : nat;
  status_connected : bool;
  status_lastChecked : number
}.

Definition getStatus (m : Monitor) (s : Subscribers) : Status :=
  let wallets := wallet_values m in
  {| status_isMonitoring := isMonitoring m;
     status_walletCount := List.length (monitoredWallets m);
     status_subscriberCount := List.length (alertSubscribers s);
     status_connected := isMonitoring m;
     status_lastChecked :=
       if (0 <? List.length wallets)%nat
       then Math_max (map lastChecked_or_0 wallets)
       else 0%float |}.

Record EnhancedStatus : Type := {
  enhanced_isMonitoring : bool;
  enhanced_walletCount : nat;
  enhanced_subscriberCount : nat;
  totalAlerts : number;
  totalVolume : number;
  enhanced_lastChecked : number;
  bundleWallets : nat;
  teamWallets : nat
}.

Definition getEnhancedStatus (m : Monitor) (s : Subscribers) : EnhancedStatus :=
  let wallets := wallet_values m in
  {| enhanced_isMonitoring := isMonitoring m;
     enhanced_walletCount := List.length (monitoredWallets m);
     enhanced_subscriberCount := List.length (alertSubscribers s);
     totalAlerts :=
       fold_left (fun sum w => (sum + number_or (alertCount w) 0)%float)
                 wallets 0%float;
     totalVolume :=
       fold_left (fun sum w => (sum + number_or (totalVolumeSold w) 0)%float)
                 wallets 0%float;
     enhanced_lastChecked := Math_max (map lastChecked_or_0 wallets);
     bundleWallets :=
       List.length (filter (fun w => type w =? "Bundle Wallet") wallets);
     teamWallets :=
       List.length (filter (fun w => type w =? "Team Wallet") wallets) |}.

(** [map.get(key)]. *)
Fixpoint map_get (m : list (string * MonitoredWallet)) (key : string)
  : option MonitoredWallet :=
  match m with
  | [] => None
  | (k, w) :: rest => if k =? key then Some w else map_get rest key
  end.

(** *** Repeated checks of one wallet *)

(** One check: the environment of its sell handler, the outcome of its
    balance request and the time of its update. *)
Record Check : Type := {
  check_env : SellEnv;
  check_fetch : result value;
  check_now : number
}.

Section Repeated.
Context `{Builtins}.

(** The checks of successive poll cycles on one wallet: the wallet after the
    last one, and everything the checks did. *)
Fixpoint run_checks (w : MonitoredWallet) (checks : list Check)
  : MonitoredWallet * list Event :=
  match checks with
  | [] => (w, [])
  | c :: rest =>
      let first := checkWalletChanges (check_env c) w (check_fetch c)
                                      (check_now c) in
      let others := run_checks (fst first) rest in
      (fst others, (snd first ++ snd others)%list)
  end.

End Repeated.

(** The request returned a bare number, or failed. *)
Definition bare_number (fetch : result value) : bool :=
  match fetch with
  | Ok (Num _) => true
  | Throw _ => true
  | Ok _ => false
  end.

End MonitorServices.

(* ===================================================================== *)
(** ** Further properties of RealTimeMonitor *)
(* ===================================================================== *)

Module MonitorServicesProofs.
Import Js RealTimeMonitor MonitorSpec MonitorServices Samples MonitorSamples.

(** *** The wallet map built by [initialize] *)

(** A wallet as [initialize] stores it. *)
Definition stored_wallet (tok chain : option string) (a : string)
  (wi : WalletInput) : MonitoredWallet :=
  {| address := a;
     type := in_type wi;
     wallet_tokenAddress := tok;
     network := chain;
     lastBalance := None;
     lastChecked := None;
     alertCount := 0%float;
     totalVolumeSold := 0%float |}.

(** The entry is one that [initialize] stores: keyed by the lower-cased
    address, with no balance observed and no alert counted. *)
Definition fresh_entry (tok chain : option string)
  (e : string * MonitoredWallet) : Prop :=
  fst e = toLowerCase (address (snd e))
  /\ lastBalance (snd e) = None
  /\ lastChecked (snd e) = None
  /\ alertCount (snd e) = 0%float
  /\ totalVolumeSold (snd e) = 0%float
  /\ wallet_tokenAddress (snd e) = tok
  /\ network (snd e) = chain.

Lemma map_set_keys :
  forall m k w,
    map fst (map_set m k w)
    = if existsb (String.eqb k) (map fst m) then map fst m
      else (map fst m ++ [k])%list.
Proof.
  induction m as [| [k' w'] m IH]; intros k w; [reflexivity |].
  cbn [map_set map fst existsb].
  rewrite (String.eqb_sym k k').
  destruct (k' =? k) eqn:Hk.
  - apply String.eqb_eq in Hk. subst. reflexivity.
  - cbn [orb map fst]. rewrite IH.
    destruct (existsb (String.eqb k) (map fst m)); reflexivity.
Qed.

Lemma existsb_eqb_In :
  forall (k : string) (l : list string),
    existsb (String.eqb k) l = true <-> In k l.
Proof.
  intros k l. rewrite existsb_exists. split.
  - intros (x & Hx & Hk). apply String.eqb_eq in Hk. now subst.
  - intros Hin. exists k. split; [exact Hin | apply String.eqb_refl].
Qed.

Lemma map_set_NoDup :
  forall m k w, NoDup (map fst m) -> NoDup (map fst (map_set m k w)).
Proof.
  intros m k w Hnd. rewrite map_set_keys.
  destruct (existsb (String.eqb k) (map fst m)) eqn:Hex; [exact Hnd |].
  apply NoDup_app; [exact Hnd | repeat constructor; intros [] | ].
  intros x Hx [Hk | []]. subst x.
  apply existsb_eqb_In in Hx. congruence.
Qed.

Lemma map_set_length :
  forall m k w,
    (List.length m <= List.length (map_set m k w) <= S (List.length m))%nat.
Proof.
  induction m as [| [k' w'] m IH]; intros k w; cbn [map_set]; [cbn; lia |].
  destruct (k' =? k); cbn [List.length]; [lia |].
  specialize (IH k w). lia.
Qed.

Lemma map_set_entries :
  forall m k w e,
    In e (map_set m k w) -> e = (k, w) \/ In e m.
Proof.
  induction m as [| [k' w'] m IH]; intros k w e; cbn [map_set].
  - intros [He | []]. now left.
  - destruct (k' =? k) eqn:Hk.
    + apply String.eqb_eq in Hk. subst k'.
      intros [He | He]; [now left | right; now right].
    + intros [He | He]; [right; now left |].
      destruct (IH _ _ _ He) as [Hnew | Hold]; [now left | right; now right].
Qed.

Lemma map_get_set :
  forall m k w k',
    map_get (map_set m k w) k'
    = if k =? k' then Some w else map_get m k'.
Proof.
  induction m as [| [k0 w0] m IH]; intros k w k'.
  - reflexivity.
  - cbn [map_set]. destruct (k0 =? k) eqn:Hk.
    + apply String.eqb_eq in Hk. subst k0. cbn [map_get].
      destruct (k =? k'); reflexivity.
    + cbn [map_get]. rewrite IH.
      destruct (k0 =? k') eqn:Hk'; [| reflexivity].
      apply String.eqb_eq in Hk'. subst k0.
      rewrite String.eqb_sym, Hk. reflexivity.
Qed.

(** What one iteration of the set-up loop adds: nothing for an invalid
    element, the stored wallet under its lower-cased address otherwise. *)
Definition valid_address (wallet : option WalletInput) : option string :=
  match wallet with
  | Some wi =>
      match in_address wi with
      | Some a => if a =? "" then None else Some a
      | None => None
      end
  | None => None
  end.

Lemma add_wallet_cases :
  forall tok chain ws wallet,
    add_wallet tok chain ws wallet
    = match wallet, valid_address wallet with
      | Some wi, Some a =>
          map_set ws (toLowerCase a) (stored_wallet tok chain a wi)
      | _, _ => ws
      end.
Proof.
  intros tok chain ws [wi |]; [| reflexivity].
  unfold add_wallet, valid_address.
  destruct (in_address wi) as [a |]; [| reflexivity].
  destruct (a =? ""); reflexivity.
Qed.

Lemma add_wallet_invariant :
  forall tok chain ws wallet,
    NoDup (map fst ws) /\ Forall (fresh_entry tok chain) ws ->
    NoDup (map fst (add_wallet tok chain ws wallet))
    /\ Forall (fresh_entry tok chain) (add_wallet tok chain ws wallet).
Proof.
  intros tok chain ws wallet [Hnd Hfresh].
  rewrite add_wallet_cases.
  destruct wallet as [wi |]; [| now split].
  destruct (valid_address (Some wi)) as [a |]; [| now split].
  split; [now apply map_set_NoDup |].
  apply Forall_forall. intros e He.
  apply map_set_entries in He. destruct He as [He | He].
  - subst e. unfold fresh_entry, stored_wallet. cbn. repeat split.
  - revert e He. now apply Forall_forall.
Qed.

Lemma fold_add_wallet_invariant :
  forall tok chain wallets ws,
    NoDup (map fst ws) /\ Forall (fresh_entry tok chain) ws ->
    NoDup (map fst (fold_left (add_wallet tok chain) wallets ws))
    /\ Forall (fresh_entry tok chain)
              (fold_left (add_wallet tok chain) wallets ws).
Proof.
  induction wallets as [| wallet wallets IH]; intros ws Hws; [exact Hws |].
  cbn [fold_left]. apply IH. now apply add_wallet_invariant.
Qed.

Lemma fold_add_wallet_length :
  forall tok chain wallets ws,
    (List.length (fold_left (add_wallet tok chain) wallets ws)
     <= List.length ws + List.length wallets)%nat.
Proof.
  induction wallets as [| wallet wallets IH]; intros ws; cbn [fold_left].
  - cbn. lia.
  - specialize (IH (add_wallet tok chain ws wallet)).
    assert (List.length (add_wallet tok chain ws wallet) <= S (List.length ws))%nat.
    { rewrite add_wallet_cases.
      destruct wallet as [wi |]; [| lia].
      destruct (valid_address (Some wi)); [| lia].
      apply map_set_length. }
    cbn [List.length]. lia.
Qed.

(** The wallets of the monitor after [initialize] with an array. *)
Lemma initialize_wallets :
  forall m tok chain wallets,
    monitoredWallets (snd (initialize m tok chain (Some wallets)))
    = fold_left (add_wallet tok chain) wallets [].
Proof. intros m tok chain [| w ws]; reflexivity. Qed.

(** X1.  [initialize] with an array always returns true and rebuilds the
    wallet map from its arguments alone: the previous wallets are discarded,
    the keys are pairwise distinct, every entry is keyed by the lower-cased
    address of its wallet and starts with no observed balance, no check time,
    no alert and no volume, and there are at most as many entries as array
    elements.  The monitoring flag and the timers are not touched. *)
Theorem initialize_builds_fresh_set :
  forall (m : Monitor) (tok chain : option string)
         (wallets : list (option WalletInput)),
    let r := initialize m tok chain (Some wallets) in
    fst r = Ok true
    /\ NoDup (map fst (monitoredWallets (snd r)))
    /\ Forall (fresh_entry tok chain) (monitoredWallets (snd r))
    /\ (List.length (monitoredWallets (snd r)) <= List.length wallets)%nat
    /\ monitoredWallets (snd r)
       = monitoredWallets
           (snd (initialize new_monitor tok chain (Some wallets)))
    /\ isMonitoring (snd r) = isMonitoring m
    /\ timers (snd r) = timers m
    /\ tokenAddress (snd r) = tok
    /\ blockchain (snd r) = chain.
Proof.
  intros m tok chain wallets r. subst r.
  rewrite !initialize_wallets.
  destruct (fold_add_wallet_invariant tok chain wallets [])
    as [Hnd Hfresh]; [split; constructor |].
  pose proof (fold_add_wallet_length tok chain wallets []) as Hlen.
  split; [destruct wallets; reflexivity |].
  split; [exact Hnd | split; [exact Hfresh | split; [exact Hlen |]]].
  split; [reflexivity |].
  destruct wallets; repeat split.
Qed.

(** The wallet that the set-up loop leaves under key [k]: the one stored for
    the last valid element whose lower-cased address is [k]. *)
Definition latest_for (tok chain : option string) (k : string)
  (found : option MonitoredWallet) (wallet : option WalletInput)
  : option MonitoredWallet :=
  match wallet, valid_address wallet with
  | Some wi, Some a =>
      if toLowerCase a =? k then Some (stored_wallet tok chain a wi)
      else found
  | _, _ => found
  end.

Lemma fold_add_wallet_get :
  forall tok chain k wallets ws,
    map_get (fold_left (add_wallet tok chain) wallets ws) k
    = fold_left (latest_for tok chain k) wallets (map_get ws k).
Proof.
  induction wallets as [| wallet wallets IH]; intros ws; [reflexivity |].
  cbn [fold_left]. rewrite IH. f_equal.
  rewrite add_wallet_cases. unfold latest_for.
  destruct wallet as [wi |]; [| reflexivity].
  destruct (valid_address (Some wi)) as [a |]; [| reflexivity].
  apply map_get_set.
Qed.

(** X2.  After [initialize], looking a key up in the wallet map gives the
    wallet stored for the last valid array element whose lower-cased address
    is that key (a later duplicate replaces an earlier one), and nothing when
    no valid element has it. *)
Theorem initialize_lookup :
  forall (m : Monitor) (tok chain : option string)
         (wallets : list (option WalletInput)) (k : string),
    map_get (monitoredWallets (snd (initialize m tok chain (Some wallets)))) k
    = fold_left (latest_for tok chain k) wallets None.
Proof.
  intros m tok chain wallets k.
  rewrite initialize_wallets. apply fold_add_wallet_get.
Qed.

(** Two spellings of one address and an element without address: one entry,
    holding the later spelling. *)
Example initialize_lookup_sample :
  map (fun e => (fst e, address (snd e)))
      (monitoredWallets
         (snd (initialize new_monitor (Some token) (Some "ethereum")
                 (Some [ wallet_input "0xABCD000000000000000000000000000000000001";
                         None;
                         Some {| in_address := None; in_type := "team" |};
                         wallet_input "0xAbCd000000000000000000000000000000000001" ]))))
  = [ ("0xabcd000000000000000000000000000000000001",
       "0xAbCd000000000000000000000000000000000001") ].
Proof. reflexivity. Qed.

(** *** Timers *)

Definition polling_timer : Timer :=
  {| period := 30000; callback := RunCheckAllWallets |}.

(** The timer table of a monitor is empty when it is idle and holds one
    30-second [checkAllWallets] timer, the one [monitorInterval] names, when
    it is monitoring. *)
Definition single_timer (m : Monitor) : Prop :=
  (1 <= nextTimerId m)%nat
  /\ match monitorInterval m with
     | Some id =>
         id <> 0%nat /\ isMonitoring m = true
         /\ timers m = [(id, polling_timer)]
     | None => isMonitoring m = false /\ timers m = []
     end.

Lemma single_timer_reachable : forall m, reachable m -> single_timer m.
Proof.
  induction 1 as [| m tok chain wallets _ IH | m _ IH | m _ IH].
  - unfold single_timer; cbn. auto.
  - unfold initialize. destruct wallets as [[| w ws] |]; exact IH.
  - unfold startMonitoring.
    destruct (negb _ || negb _); [exact IH |].
    destruct (_ =? 0)%nat; [exact IH |].
    destruct (isMonitoring m) eqn:Hmon; [exact IH |].
    destruct IH as [Hnext IH]. unfold single_timer. cbn.
    split; [lia |].
    destruct (monitorInterval m) as [id |].
    + destruct IH as (_ & Hactive & _). congruence.
    + destruct IH as (_ & Htimers). rewrite Htimers.
      repeat split. lia.
  - destruct IH as [Hnext IH]. unfold stopMonitoring, single_timer.
    destruct (monitorInterval m) as [id |] eqn:Hid.
    + destruct IH as (Hpos & _ & Htimers).
      destruct (Nat.eqb_spec id 0) as [Hzero | _]; [contradiction |].
      cbn. rewrite Htimers. cbn. rewrite Nat.eqb_refl. cbn. auto.
    + cbn. rewrite Hid. destruct IH as (_ & Htimers). auto.
Qed.

(** X3.  Whatever sequence of [initialize], [startMonitoring] and
    [stopMonitoring] calls a monitor has seen, it never holds more than one
    timer: when it is monitoring, exactly one timer is active, it runs
    [checkAllWallets] every 30000 ms and [monitorInterval] names it; when it
    is not monitoring, no timer is active. *)
Theorem reachable_single_timer :
  forall m : Monitor,
    reachable m ->
    (isMonitoring m = true ->
       exists id, monitorInterval m = Some id
                  /\ timers m = [(id, polling_timer)])
    /\ (isMonitoring m = false ->
          monitorInterval m = None /\ timers m = []).
Proof.
  intros m Hreach. destruct (single_timer_reachable m Hreach) as [_ Hm].
  destruct (monitorInterval m) as [id |].
  - destruct Hm as (_ & Hactive & Htimers). split.
    + intros _. exists id. now split.
    + intros Hidle. congruence.
  - destruct Hm as (Hidle & Htimers). split.
    + intros Hactive. congruence.
    + intros _. now split.
Qed.

Lemma started_monitor_reachable : reachable started_monitor.
Proof. apply reach_start, reach_initialize, reach_new. Qed.

Lemma reachable_single_timer_witness :
  reachable started_monitor
  /\ isMonitoring started_monitor = true
  /\ exists id, monitorInterval started_monitor = Some id
                /\ timers started_monitor = [(id, polling_timer)].
Proof.
  split; [exact started_monitor_reachable | split; [reflexivity |]].
  exact (proj1 (reachable_single_timer started_monitor
                  started_monitor_reachable) eq_refl).
Defined.

(** X4.  [stopMonitoring] leaves no timer, no wallet and the monitoring flag
    cleared, and calling it again changes nothing.  Because it empties the
    wallet map, a [startMonitoring] that follows it never starts a timer: it
    returns false, or throws when the monitor was never initialised. *)
Theorem stop_then_start :
  forall m : Monitor,
    reachable m ->
    timers (stopMonitoring m) = []
    /\ monitoredWallets (stopMonitoring m) = []
    /\ isMonitoring (stopMonitoring m) = false
    /\ stopMonitoring (stopMonitoring m) = stopMonitoring m
    /\ snd (startMonitoring (stopMonitoring m)) = stopMonitoring m
    /\ (fst (startMonitoring (stopMonitoring m)) = Ok false
        \/ fst (startMonitoring (stopMonitoring m))
           = Throw "Monitor not initialized. Call initialize() first.").
Proof.
  intros m Hreach.
  pose proof (single_timer_reachable _ (reach_stop m Hreach)) as [_ Hstop].
  assert (Hnone : monitorInterval (stopMonitoring m) = None).
  { destruct (single_timer_reachable m Hreach) as [_ Hm].
    unfold stopMonitoring.
    destruct (monitorInterval m) as [id |] eqn:Hid; cbn; [| exact Hid].
    destruct Hm as (Hpos & _).
    destruct (Nat.eqb_spec id 0); [contradiction | reflexivity]. }
  rewrite Hnone in Hstop. destruct Hstop as [Hidle Htimers].
  assert (Hwallets : monitoredWallets (stopMonitoring m) = [])
    by reflexivity.
  split; [exact Htimers | split; [exact Hwallets | split; [exact Hidle |]]].
  split.
  - unfold stopMonitoring at 1. rewrite Hnone.
    destruct (stopMonitoring m) as [ws mon int tok chain ts next] eqn:Hs.
    cbn in *. subst. reflexivity.
  - unfold startMonitoring. rewrite Hwallets. cbn [List.length Nat.eqb].
    destruct (negb _ || negb _); cbn; auto.
Qed.

Lemma stop_then_start_witness :
  reachable started_monitor
  /\ timers (stopMonitoring started_monitor) = []
  /\ startMonitoring (stopMonitoring started_monitor)
     = (Ok false, stopMonitoring started_monitor).
Proof.
  destruct (stop_then_start started_monitor started_monitor_reachable)
    as (Htimers & _ & _ & _ & _ & _).
  split; [exact started_monitor_reachable | split; [exact Htimers |]].
  reflexivity.
Defined.

(** *** The staggered cycle *)

Lemma staggered_batch_count :
  forall steps,
    staggered steps ->
    List.length (batches steps)
    = ((List.length (List.concat (batches steps)) + 2) / 3)%nat.
Proof.
  induction 1 as [| b Hb | b rest Hb Hrest _ IH].
  - reflexivity.
  - cbn [batches List.concat List.length]. rewrite app_nil_r.
    destruct Hb as [Hlo Hhi].
    apply (Nat.div_unique _ 3 1 (List.length b - 1)); lia.
  - cbn [batches List.concat List.length]. rewrite length_app, Hb, IH.
    replace (3 + List.length (List.concat (batches rest)) + 2)%nat
      with (1 * 3 + (List.length (List.concat (batches rest)) + 2))%nat by lia.
    rewrite Nat.div_add_l by lia. reflexivity.
Qed.

(** X5.  The cycle of [checkAllWalletsStaggered] checks every monitored
    wallet exactly once, in the order of the wallet map, in groups of three
    (the last group may hold one or two), with a pause of 2000 ms after every
    group but the last; [n] wallets make [ceil(n / 3)] groups. *)
Theorem staggered_cycle_shape :
  forall m : Monitor,
    staggered (checkAllWalletsStaggered m)
    /\ List.concat (batches (checkAllWalletsStaggered m)) = wallet_values m
    /\ List.length (batches (checkAllWalletsStaggered m))
       = ((List.length (monitoredWallets m) + 2) / 3)%nat.
Proof.
  intros m.
  destruct (MonitorProofs.checkAllWalletsStaggered_paced m) as [Hst Hcover].
  split; [exact Hst | split; [exact Hcover |]].
  rewrite (staggered_batch_count _ Hst), Hcover.
  unfold wallet_values. now rewrite length_map.
Qed.

(** *** The effect of a check on its wallet *)

Section CheckEffects.
Context `{Builtins}.

(** X6.  The only thing a check ever changes in a wallet is its baseline:
    when the request returned a truthy value, [lastBalance] becomes the
    balance read from it and [lastChecked] the current time, whether or not
    sell handling ran; when the request failed or returned a falsy value the
    wallet is left exactly as it was.  Address, type, token address, network,
    [alertCount] and [totalVolumeSold] are never written. *)
Theorem check_only_moves_baseline :
  forall (env : SellEnv) (w : MonitoredWallet) (fetch : result value)
         (now : number),
    fst (checkWalletChanges env w fetch now)
    = match fetch with
      | Ok v => if truthy v then set_balance w (currentBalanceNum v) now
                else w
      | Throw _ => w
      end.
Proof.
  intros env w fetch now.
  unfold checkWalletChanges, checkWalletChanges_with.
  destruct fetch as [v | e]; [| reflexivity].
  destruct (truthy v); [| reflexivity]. cbn [negb].
  destruct (lastBalance w) as [last |]; [| reflexivity].
  destruct (gt _ 0 && gt _ 1); [| reflexivity].
  cbn [fst]. now rewrite MonitorProofs.handleSellDetected_keeps_wallet.
Qed.

(** Whatever is subtracted from it, NaN is not below zero. *)
Lemma minus_NaN_is_not_positive :
  forall x : number, gt (x - NaN) 0 = false.
Proof.
  intros x. unfold gt, NaN.
  rewrite FloatAxioms.ltb_spec, FloatAxioms.sub_spec.
  change (Prim2SF nan) with S754_nan.
  change (Prim2SF 0) with (S754_zero false).
  destruct (Prim2SF x) as [s | s | | s m e]; reflexivity.
Qed.

Lemma bare_number_check :
  forall env w fetch now,
    bare_number fetch = true ->
    snd (checkWalletChanges env w fetch now) = []
    /\ (fst (checkWalletChanges env w fetch now) = w
        \/ fst (checkWalletChanges env w fetch now) = set_balance w NaN now).
Proof.
  intros env w fetch now Hbare.
  destruct fetch as [[| | n | s | fields] | e]; try discriminate Hbare.
  - unfold checkWalletChanges, checkWalletChanges_with.
    destruct (truthy (Num n)); cbn [negb]; [| split; [reflexivity | now left]].
    change (currentBalanceNum (Num n)) with NaN.
    destruct (lastBalance w) as [last |];
      [| split; [reflexivity | now right]].
    rewrite minus_NaN_is_not_positive. cbn [andb].
    split; [reflexivity | now right].
  - split; [reflexivity | now left].
Qed.

(** X7.  When every balance request of a wallet fails or answers with a bare
    number, which is what [getTokenBalance] returns, no check of that wallet
    ever calls sell handling or dispatches an alert, whatever the balances
    are: the number has no [formatted] property, the balance read from it is
    NaN, and [lastBalance] is either left alone or set to NaN. *)
Theorem bare_numbers_never_sell :
  forall (checks : list Check) (w : MonitoredWallet),
    forallb (fun c => bare_number (check_fetch c)) checks = true ->
    snd (run_checks w checks) = []
    /\ (lastBalance (fst (run_checks w checks)) = lastBalance w
        \/ lastBalance (fst (run_checks w checks)) = Some NaN).
Proof.
  induction checks as [| c rest IH]; intros w Hall.
  - split; [reflexivity | now left].
  - cbn [forallb] in Hall. apply andb_true_iff in Hall.
    destruct Hall as [Hc Hrest]. cbn [run_checks fst snd].
    destruct (bare_number_check (check_env c) w (check_fetch c)
                (check_now c) Hc) as [Hev Hw].
    destruct (IH (fst (checkWalletChanges (check_env c) w (check_fetch c)
                         (check_now c))) Hrest) as [Hevs Hlast].
    rewrite Hev, Hevs. split; [reflexivity |].
    destruct Hlast as [Hlast | Hlast]; [| now right].
    rewrite Hlast. destruct Hw as [Hw | Hw]; rewrite Hw; [now left | now right].
Qed.

End CheckEffects.

(** A wallet that held 1000 tokens, then three answers of [getTokenBalance]:
    950, a failure, and 10. *)
Definition bare_answers : list Check :=
  [ {| check_env := selling_env; check_fetch := Ok (Num 950);
       check_now := (t0 + 30000)%float |};
    {| check_env := selling_env; check_fetch := Throw "Network Error";
       check_now := (t0 + 60000)%float |};
    {| check_env := selling_env; check_fetch := Ok (Num 10);
       check_now := (t0 + 90000)%float |} ].

Lemma bare_numbers_never_sell_witness :
  forallb (fun c => bare_number (check_fetch c)) bare_answers = true
  /\ snd (run_checks (observed_wallet 1000) bare_answers) = [].
Proof.
  split; [reflexivity |].
  exact (proj1 (bare_numbers_never_sell bare_answers (observed_wallet 1000)
                  eq_refl)).
Defined.

(** The same three balances in the shape the check reads: both drops are
    handled as sells. *)
Example formatted_answers_sell :
  map reported
      (snd (run_checks (observed_wallet 1000)
              [ {| check_env := missing_methods_env;
                   check_fetch := Ok (formatted "950");
                   check_now := (t0 + 30000)%float |};
                {| check_env := missing_methods_env;
                   check_fetch := Throw "Network Error";
                   check_now := (t0 + 60000)%float |};
                {| check_env := missing_methods_env;
                   check_fetch := Ok (formatted "99");
                   check_now := (t0 + 90000)%float |} ]))
  = [ (50%float, None); (851%float, None) ].
Proof. vm_compute. reflexivity. Qed.

(** *** Subscribers *)

(** The callbacks that a notification called, in order. *)
Fixpoint called (ds : list Delivery) : list subscriber :=
  match ds with
  | [] => []
  | Called c :: rest => c :: called rest
  | ErrorLogged _ :: rest => called rest
  end.

Lemma called_app :
  forall ds1 ds2, called (ds1 ++ ds2) = (called ds1 ++ called ds2)%list.
Proof.
  induction ds1 as [| [c | c] ds1 IH]; intros ds2; cbn; now rewrite ?IH.
Qed.

Lemma values_map_Some :
  forall cs : list subscriber, values (map Some cs) = cs.
Proof.
  induction cs as [| c cs IH]; [reflexivity |]. cbn. now rewrite IH.
Qed.

(** When the callbacks still to be visited leave the set alone, the
    iteration ends, leaves the entries as they are and calls each of them
    once, in order. *)
Lemma forEach_guarded_quiet :
  forall react cs fuel index,
    (forall c, In c (skipn index cs) -> reaction_ops (react c) = []) ->
    (List.length cs - index <= fuel)%nat ->
    exists ds,
      forEach_guarded fuel react (map Some cs) index = Some (ds, map Some cs)
      /\ called ds = skipn index cs.
Proof.
  intros react cs fuel. induction fuel as [| fuel IH]; intros index Hq Hfuel.
  - assert (Hend : nth_error (map Some cs) index = None)
      by (apply nth_error_None; rewrite length_map; lia).
    cbn [forEach_guarded]. rewrite Hend.
    exists []. split; [reflexivity |].
    symmetry. apply skipn_all2. lia.
  - cbn [forEach_guarded].
    destruct (nth_error cs index) as [c |] eqn:Hnth.
    + rewrite nth_error_map, Hnth. cbn [option_map].
      assert (Hskip : skipn index cs = c :: skipn (S index) cs).
      { clear - Hnth. revert index Hnth.
        induction cs as [| x cs IHcs]; intros [| index] Hnth;
          try discriminate Hnth.
        - injection Hnth as ->. reflexivity.
        - cbn [skipn]. now apply IHcs. }
      rewrite (Hq c) by (rewrite Hskip; now left). cbn [fold_left].
      destruct (IH (S index)) as (ds & Hds & Hcalled).
      { intros x Hx. apply Hq. rewrite Hskip. now right. }
      { assert (index < List.length cs)%nat
          by (apply nth_error_Some; congruence).
        lia. }
      rewrite Hds. eexists. split; [reflexivity |].
      rewrite called_app, Hcalled, Hskip.
      destruct (reaction_throws (react c)); reflexivity.
    + rewrite nth_error_map, Hnth. cbn [option_map].
      exists []. split; [reflexivity |].
      symmetry. apply skipn_all2. now apply nth_error_None.
Qed.

Lemma notifySubscribers_quiet :
  forall react s fuel,
    (forall c, In c (alertSubscribers s) -> reaction_ops (react c) = []) ->
    (List.length (alertSubscribers s) <= fuel)%nat ->
    exists ds,
      notifySubscribers fuel react s = Some (ds, s)
      /\ called ds = alertSubscribers s.
Proof.
  intros react s fuel Hq Hfuel.
  destruct (forEach_guarded_quiet react (alertSubscribers s) fuel 0)
    as (ds & Hds & Hcalled); [exact Hq | lia |].
  exists ds. unfold notifySubscribers. rewrite Hds, values_map_Some.
  split; [now destruct s | exact Hcalled].
Qed.

Lemma set_add_In :
  forall s c x, In x (set_add s c) <-> x = c \/ In x s.
Proof.
  intros s c x. unfold set_add.
  destruct (existsb (Nat.eqb c) s) eqn:Hex.
  - apply existsb_exists in Hex. destruct Hex as (y & Hy & Hcy).
    apply Nat.eqb_eq in Hcy. subst y.
    split; [now right | intros [-> | Hx]; assumption].
  - rewrite in_app_iff. cbn. intuition congruence.
Qed.

Lemma set_add_NoDup :
  forall s c, NoDup s -> NoDup (set_add s c).
Proof.
  intros s c Hnd. unfold set_add.
  destruct (existsb (Nat.eqb c) s) eqn:Hex; [exact Hnd |].
  apply NoDup_app; [exact Hnd | repeat constructor; intros [] |].
  intros x Hx [Hc | []]. subst x.
  assert (existsb (Nat.eqb c) s = true)
    by (apply existsb_exists; exists c; split; [exact Hx | apply Nat.eqb_refl]).
  congruence.
Qed.

Lemma set_add_idempotent :
  forall s c, set_add (set_add s c) c = set_add s c.
Proof.
  intros s c.
  assert (Hin : In c (set_add s c)) by (apply set_add_In; now left).
  unfold set_add at 1.
  replace (existsb (Nat.eqb c) (set_add s c)) with true; [reflexivity |].
  symmetry. apply existsb_exists. exists c. split; [exact Hin | apply Nat.eqb_refl].
Qed.

Lemma set_delete_In :
  forall s c x, In x (set_delete s c) <-> In x s /\ x <> c.
Proof.
  intros s c x. unfold set_delete. rewrite filter_In, negb_true_iff, Nat.eqb_neq.
  tauto.
Qed.

Lemma set_add_length :
  forall s c, (List.length (set_add s c) <= S (List.length s))%nat.
Proof.
  intros s c. unfold set_add.
  destruct (existsb (Nat.eqb c) s); [lia |].
  rewrite length_app. cbn. lia.
Qed.

Lemma set_delete_length :
  forall s c, (List.length (set_delete s c) <= List.length s)%nat.
Proof. intros s c. unfold set_delete. apply filter_length_le. Qed.

(** X8.  When no subscribed callback subscribes or unsubscribes a callback
    while it is being notified, a notification ends, leaves the subscriber
    sets as they are and calls every subscribed callback exactly once, in
    the order of subscription, whichever callbacks throw.  Subscribing a
    callback that is already subscribed changes nothing, so it is still
    called once; after its unsubscribe function ran it is not called any
    more, and the other subscribers are called as before. *)
Theorem subscribers_are_called_once :
  forall (react : subscriber -> Reaction) (s : Subscribers) (c : subscriber)
         (fuel : nat),
    NoDup (alertSubscribers s) ->
    (forall x, reaction_ops (react x) = []) ->
    (List.length (alertSubscribers s) < fuel)%nat ->
    (exists ds, notifySubscribers fuel react s = Some (ds, s)
                /\ called ds = alertSubscribers s)
    /\ subscribe (subscribe s c) c = subscribe s c
    /\ (exists ds,
          notifySubscribers fuel react (subscribe s c)
            = Some (ds, subscribe s c)
          /\ NoDup (called ds)
          /\ In c (called ds))
    /\ (exists ds,
          notifySubscribers fuel react (unsubscribe (subscribe s c) c)
            = Some (ds, unsubscribe (subscribe s c) c)
          /\ ~ In c (called ds)
          /\ (forall c', c' <> c ->
                (In c' (called ds) <-> In c' (alertSubscribers s)))).
Proof.
  intros react s c fuel Hnd Hquiet Hfuel.
  split; [| split; [| split]].
  - apply notifySubscribers_quiet; [intros x _; apply Hquiet | lia].
  - unfold subscribe. cbn [alertSubscribers updateSubscribers].
    now rewrite set_add_idempotent.
  - destruct (notifySubscribers_quiet react (subscribe s c) fuel)
      as (ds & Hds & Hcalled).
    + intros x _. apply Hquiet.
    + cbn [subscribe alertSubscribers].
      pose proof (set_add_length (alertSubscribers s) c). lia.
    + exists ds. split; [exact Hds |]. rewrite Hcalled.
      cbn [subscribe alertSubscribers].
      split; [now apply set_add_NoDup | apply set_add_In; now left].
  - destruct (notifySubscribers_quiet react (unsubscribe (subscribe s c) c)
                fuel) as (ds & Hds & Hcalled).
    + intros x _. apply Hquiet.
    + cbn [subscribe unsubscribe alertSubscribers].
      pose proof (set_add_length (alertSubscribers s) c).
      pose proof (set_delete_length (set_add (alertSubscribers s) c) c). lia.
    + exists ds. split; [exact Hds |]. rewrite Hcalled.
      cbn [subscribe unsubscribe alertSubscribers].
      split.
      * rewrite set_delete_In. tauto.
      * intros c' Hne. rewrite set_delete_In, set_add_In. tauto.
Qed.

(** The reactions of the instances: callback 2 throws; callback 5
    unsubscribes callback 3 when it is called; callback 6 subscribes
    callback 7; callback 8 unsubscribes and subscribes itself again. *)
Definition sample_reactions (c : subscriber) : Reaction :=
  {| reaction_ops :=
       if (c =? 5)%nat then [SetDelete 3%nat]
       else if (c =? 6)%nat then [SetAdd 7%nat]
       else if (c =? 8)%nat then [SetDelete 8%nat; SetAdd 8%nat]
       else [];
     reaction_throws := (c =? 2)%nat |}.

Definition throwing_second (c : subscriber) : Reaction :=
  {| reaction_ops := []; reaction_throws := (c =? 2)%nat |}.

(** Three subscribers, the second of which throws. *)
Definition three_subscribers : Subscribers :=
  onAlert (onAlert (onAlert no_subscribers 1%nat) 2%nat) 3%nat.

Lemma subscribers_are_called_once_witness :
  NoDup (alertSubscribers three_subscribers)
  /\ notifySubscribers 4 throwing_second three_subscribers
     = Some ([Called 1%nat; Called 2%nat; ErrorLogged 2%nat; Called 3%nat],
             three_subscribers)
  /\ exists ds,
       notifySubscribers 4 throwing_second three_subscribers
         = Some (ds, three_subscribers)
       /\ called ds = alertSubscribers three_subscribers.
Proof.
  assert (Hnd : NoDup (alertSubscribers three_subscribers)).
  { repeat constructor; cbn; intuition discriminate. }
  split; [exact Hnd | split; [reflexivity |]].
  assert (Hfuel : (List.length (alertSubscribers three_subscribers) < 4)%nat)
    by (cbn; lia).
  exact (proj1 (subscribers_are_called_once throwing_second three_subscribers
                  1%nat 4%nat Hnd (fun _ => eq_refl) Hfuel)).
Defined.

(** Callbacks that change the set while it is notified.  A callback that an
    earlier one unsubscribed is not called (3 after 5); a callback
    subscribed during the notification is called in it (7 after 6). *)
Example notification_follows_the_live_set :
  notifySubscribers 10 sample_reactions
    {| alertSubscribers := [5; 3; 1]%nat; updateSubscribers := [] |}
  = Some ([Called 5%nat; Called 1%nat],
          {| alertSubscribers := [5; 1]%nat; updateSubscribers := [] |})
  /\ notifySubscribers 10 sample_reactions
       {| alertSubscribers := [1; 6]%nat; updateSubscribers := [] |}
     = Some ([Called 1%nat; Called 6%nat; Called 7%nat],
             {| alertSubscribers := [1; 6; 7]%nat; updateSubscribers := [] |}).
Proof. split; reflexivity. Qed.

(** A callback that unsubscribes and subscribes itself again is appended
    behind its own emptied entry and visited again: the notification never
    ends. *)
Lemma resubscribing_entries :
  forall holes : nat,
    fold_left apply_op (reaction_ops (sample_reactions 8%nat))
              (repeat None holes ++ [Some 8%nat])%list
    = (repeat None (S holes) ++ [Some 8%nat])%list.
Proof.
  intros holes. cbn [sample_reactions reaction_ops Nat.eqb fold_left apply_op].
  assert (Hdel : entries_delete (repeat None holes ++ [Some 8%nat])%list 8%nat
                 = repeat None (S holes)).
  { unfold entries_delete. rewrite map_app. cbn [map entry_is Nat.eqb].
    cbv delta [subscriber entries].
    match goal with
    | |- (map ?f (repeat ?x holes) ++ _)%list = _ =>
        assert (Hmap : map f (repeat x holes) = repeat x holes)
    end.
    { induction holes as [| holes IH]; [reflexivity |].
      cbn [repeat map entry_is]. now rewrite IH. }
    rewrite Hmap. now rewrite <- repeat_cons. }
  rewrite Hdel. unfold entries_add.
  replace (existsb (entry_is 8%nat) (repeat None (S holes))) with false;
    [reflexivity |].
  symmetry. apply not_true_is_false. intros Hex.
  apply existsb_exists in Hex. destruct Hex as (e & Hin & He).
  apply repeat_spec in Hin. subst e. discriminate He.
Qed.

Lemma resubscribing_callback_never_ends :
  forall fuel holes : nat,
    forEach_guarded fuel sample_reactions
                    (repeat None holes ++ [Some 8%nat])%list holes
    = None.
Proof.
  induction fuel as [| fuel IH]; intros holes.
  - cbn [forEach_guarded].
    rewrite nth_error_app2 by (rewrite repeat_length; lia).
    rewrite repeat_length, Nat.sub_diag. reflexivity.
  - cbn [forEach_guarded].
    rewrite nth_error_app2 by (rewrite repeat_length; lia).
    rewrite repeat_length, Nat.sub_diag. cbn [nth_error].
    rewrite resubscribing_entries, IH. reflexivity.
Qed.

Example notification_may_not_end :
  forall fuel : nat,
    notifySubscribers fuel sample_reactions
      {| alertSubscribers := [8%nat]; updateSubscribers := [] |}
    = None.
Proof.
  intros fuel. unfold notifySubscribers. cbn [alertSubscribers map].
  pose proof (resubscribing_callback_never_ends fuel 0) as Hnever.
  cbn [repeat app] in Hnever.
  match goal with
  | |- match ?run with _ => _ end = _ =>
      assert (Hrun : run = None) by exact Hnever; rewrite Hrun
  end.
  reflexivity.
Qed.

(** *** Status *)

Lemma Math_max_zeros :
  forall values : list number,
    values <> [] ->
    Forall (fun x => x = 0%float) values ->
    Math_max values = 0%float.
Proof.
  intros values Hne Hall. unfold Math_max.
  destruct values as [| x values]; [contradiction |].
  inversion Hall as [| y ys Hx Hrest]; subst. cbn [fold_left].
  change (Math_max2 neg_infinity 0%float) with 0%float.
  clear Hne Hall. induction values as [| y values IH]; [reflexivity |].
  inversion Hrest as [| z zs Hy Hrest']; subst. cbn [fold_left].
  change (Math_max2 0%float 0%float) with 0%float. now apply IH.
Qed.

Lemma sum_of_zeros :
  forall (A : Type) (f : A -> number) (l : list A),
    Forall (fun x => f x = 0%float) l ->
    fold_left (fun sum x => (sum + number_or (f x) 0)%float) l 0%float
    = 0%float.
Proof.
  intros A f l. induction l as [| x l IH]; intros Hall; [reflexivity |].
  inversion Hall as [| y ys Hx Hrest]; subst. cbn [fold_left].
  rewrite Hx. change (0 + number_or 0 0)%float with 0%float. now apply IH.
Qed.

(** X9.  Right after [initialize] with an array, whatever the monitor went
    through before, the status reports the number of stored wallets, no
    alert, no volume and a last check time of 0.  With no wallet stored
    [getStatus] still reports 0, while [getEnhancedStatus], which takes
    [Math.max] of an empty list, reports [-Infinity]. *)
Theorem status_after_initialize :
  forall (m : Monitor) (tok chain : option string)
         (wallets : list (option WalletInput)) (s : Subscribers),
    let m' := snd (initialize m tok chain (Some wallets)) in
    status_walletCount (getStatus m' s) = List.length (monitoredWallets m')
    /\ status_connected (getStatus m' s) = isMonitoring m
    /\ status_lastChecked (getStatus m' s) = 0%float
    /\ totalAlerts (getEnhancedStatus m' s) = 0%float
    /\ totalVolume (getEnhancedStatus m' s) = 0%float
    /\ enhanced_lastChecked (getEnhancedStatus m' s)
       = match monitoredWallets m' with
         | [] => PrimFloat.neg_infinity
         | _ :: _ => 0%float
         end.
Proof.
  intros m tok chain wallets s m'.
  assert (Hfresh : Forall (fresh_entry tok chain) (monitoredWallets m')).
  { subst m'. rewrite initialize_wallets.
    apply fold_add_wallet_invariant. split; constructor. }
  assert (Hmon : isMonitoring m' = isMonitoring m)
    by (subst m'; destruct wallets; reflexivity).
  assert (Hvalues : Forall (fun w => lastChecked_or_0 w = 0%float
                                     /\ alertCount w = 0%float
                                     /\ totalVolumeSold w = 0%float)
                           (wallet_values m')).
  { unfold wallet_values. apply Forall_map.
    eapply Forall_impl; [| exact Hfresh].
    intros e (_ & _ & Hchk & Hcount & Hvol & _).
    unfold lastChecked_or_0. now rewrite Hchk. }
  assert (Hzeros : Forall (fun x => x = 0%float)
                          (map lastChecked_or_0 (wallet_values m'))).
  { apply Forall_map. eapply Forall_impl; [| exact Hvalues]. now intros w []. }
  split; [reflexivity | split; [exact Hmon |]].
  split; [| split; [| split]].
  - cbn [getStatus status_lastChecked].
    destruct (wallet_values m') as [| w ws] eqn:Hw; [reflexivity |].
    cbn [List.length Nat.ltb Nat.leb]. apply Math_max_zeros; [discriminate |].
    exact Hzeros.
  - cbn [getEnhancedStatus totalAlerts]. apply sum_of_zeros.
    eapply Forall_impl; [| exact Hvalues]. now intros w (_ & ? & _).
  - cbn [getEnhancedStatus totalVolume]. apply sum_of_zeros.
    eapply Forall_impl; [| exact Hvalues]. now intros w (_ & _ & ?).
  - cbn [getEnhancedStatus enhanced_lastChecked].
    unfold wallet_values in *.
    destruct (monitoredWallets m') as [| e es]; [reflexivity |].
    apply Math_max_zeros; [discriminate | exact Hzeros].
Qed.

(** The type labels that [classifyWallets] gives. *)
Definition classifier_label (label : string) : bool :=
  (label =? "team") || (label =? "bundle") || (label =? "regular")
  || (label =? "unknown").

Lemma count_none :
  forall (label : string) (ws : list MonitoredWallet),
    classifier_label label = false ->
    Forall (fun w => classifier_label (type w) = true) ws ->
    List.length (filter (fun w => type w =? label) ws) = 0%nat.
Proof.
  intros label ws Hlabel. induction ws as [| w ws IH]; intros Hall;
    [reflexivity |].
  inversion Hall as [| x xs Hw Hrest]; subst. cbn [filter].
  destruct (type w =? label) eqn:Heq; [| now apply IH].
  apply String.eqb_eq in Heq. congruence.
Qed.

(** X10.  [getEnhancedStatus] counts team and bundle wallets by the labels
    'Team Wallet' and 'Bundle Wallet'.  For a monitor whose wallets all carry
    a label of the classifier ('team', 'bundle', 'regular' or 'unknown') both
    counts are 0, however many team and bundle wallets are monitored. *)
Theorem enhanced_status_counts_no_classified_wallet :
  forall (m : Monitor) (s : Subscribers),
    Forall (fun w => classifier_label (type w) = true) (wallet_values m) ->
    teamWallets (getEnhancedStatus m s) = 0%nat
    /\ bundleWallets (getEnhancedStatus m s) = 0%nat.
Proof.
  intros m s Hall. cbn [getEnhancedStatus teamWallets bundleWallets].
  split; now apply count_none.
Qed.

Lemma enhanced_status_counts_no_classified_wallet_witness :
  Forall (fun w => classifier_label (type w) = true)
         (wallet_values started_monitor)
  /\ List.length (wallet_values started_monitor) = 4%nat
  /\ teamWallets (getEnhancedStatus started_monitor no_subscribers) = 0%nat.
Proof.
  assert (Hall : Forall (fun w => classifier_label (type w) = true)
                        (wallet_values started_monitor))
    by (repeat constructor).
  split; [exact Hall | split; [reflexivity |]].
  exact (proj1 (enhanced_status_counts_no_classified_wallet started_monitor
                  no_subscribers Hall)).
Defined.

End MonitorServicesProofs.

(* ===================================================================== *)
(** ** The balance check as the repository wires it *)
(* ===================================================================== *)

Module MonitorWiringProofs.
Import Js RealTimeMonitor MonitorSpec MonitorWiring MonitorServices Samples
       MonitorSamples.

Section Requests.
Context `{Builtins}.
Variable net : WalletAnalyticsService.Network.

(** No member of the class is static: every call on the class throws. *)
Lemma call_on_class_throws :
  forall (A : Type) (name : string) (run : result A),
    call_on_class name run
    = Throw ("WalletAnalyticsService." ++ name ++ " is not a function").
Proof.
  intros A name run. unfold call_on_class, member.
  destruct (find (fun m => fst m =? name) WalletAnalyticsService_class)
    as [[n kind] |] eqn:Hfind; [| reflexivity].
  apply find_some in Hfind. destruct Hfind as [Hin _].
  cbn [option_map snd].
  destruct kind; [reflexivity |].
  cbn in Hin.
  repeat (destruct Hin as [Hin | Hin]; [discriminate Hin |]).
  destruct Hin.
Qed.

Lemma balance_request_throws :
  forall w,
    balance_request net w
    = Throw "WalletAnalyticsService.getTokenBalance is not a function".
Proof. reflexivity. Qed.

Lemma balance_request_on_instance_is_a_number :
  forall w,
    balance_request_on_instance net w = Ok (Num (requested_balance net w)).
Proof. reflexivity. Qed.

(** As the file is written, a check changes nothing and dispatches
    nothing. *)
Lemma check_as_written_does_nothing :
  forall env w now,
    checkWalletChanges_as_written net env w now = (w, []).
Proof. reflexivity. Qed.

(** With the request made on an instance, a check never calls sell handling;
    when the balance is a number other than 0 (and not NaN) it stores NaN as
    the baseline. *)
Lemma check_on_instance_reads_NaN :
  forall env w now,
    snd (checkWalletChanges_on_instance net env w now) = []
    /\ (number_truthy (requested_balance net w) = true ->
          fst (checkWalletChanges_on_instance net env w now)
          = set_balance w NaN now)
    /\ (number_truthy (requested_balance net w) = false ->
          fst (checkWalletChanges_on_instance net env w now) = w).
Proof.
  intros env w now.
  unfold checkWalletChanges_on_instance.
  rewrite balance_request_on_instance_is_a_number.
  split.
  - apply (MonitorServicesProofs.bare_number_check env w
             (Ok (Num (requested_balance net w))) now eq_refl).
  - unfold checkWalletChanges, checkWalletChanges_with. cbn [truthy].
    change (currentBalanceNum (Num (requested_balance net w))) with NaN.
    split; intros Ht; rewrite Ht; cbn [negb]; [| reflexivity].
    destruct (lastBalance w) as [last |]; [| reflexivity].
    rewrite MonitorServicesProofs.minus_NaN_is_not_positive. reflexivity.
Qed.

(** The handler that runs leaves the statistics of the wallet alone,
    whatever its collaborators answer. *)
Lemma handler_leaves_statistics :
  forall env w amount balance,
    alertCount (fst (handleSellDetected env w amount balance)) = alertCount w
    /\ totalVolumeSold (fst (handleSellDetected env w amount balance))
       = totalVolumeSold w.
Proof.
  intros env w amount balance.
  now rewrite MonitorProofs.handleSellDetected_keeps_wallet.
Qed.

(** With the collaborators of the repository the handler dispatches
    nothing. *)
Lemma handler_in_repository_does_nothing :
  forall clock random price w amount balance,
    handleSellDetected (collaborators clock random price) w amount balance
    = (w, []).
Proof. reflexivity. Qed.

End Requests.

(** *** First observation *)

(** C3, evaluated.  A wallet fresh from [initialize] ([lastBalance] null)
    holds 950 tokens: [getTokenBalance] returns 950 for it.  As the file is
    written the request is a call on the class, it throws, and the check
    leaves the wallet as it was: no balance and no check time are stored.
    With the request made on an instance the check receives the number 950,
    reads its [formatted] property and stores NaN as the baseline.  In
    neither case is the fetched balance stored; both hold for every wallet
    and every network. *)
Theorem first_observation_stores_no_balance :
  lastBalance fresh_wallet = None
  /\ requested_balance (holding_network "950") fresh_wallet = 950%float
  /\ balance_request (holding_network "950") fresh_wallet
     = Throw "WalletAnalyticsService.getTokenBalance is not a function"
  /\ checkWalletChanges_as_written (holding_network "950") repository_env
       fresh_wallet (t0 + 30000)%float
     = (fresh_wallet, [])
  /\ checkWalletChanges_on_instance (holding_network "950") repository_env
       fresh_wallet (t0 + 30000)%float
     = (set_balance fresh_wallet NaN (t0 + 30000)%float, [])
  /\ (forall (B : Builtins) net env w now,
        lastBalance w = None ->
        lastBalance (fst (checkWalletChanges_as_written net env w now)) = None
        /\ lastChecked (fst (checkWalletChanges_as_written net env w now))
           = lastChecked w
        /\ (number_truthy (requested_balance net w) = true ->
              lastBalance (fst (checkWalletChanges_on_instance net env w now))
              = Some NaN)).
Proof.
  split; [reflexivity |].
  split; [vm_compute; reflexivity |].
  split; [reflexivity |].
  split; [reflexivity |].
  split; [vm_compute; reflexivity |].
  intros B net env w now Hnull.
  rewrite check_as_written_does_nothing. cbn [fst].
  split; [exact Hnull | split; [reflexivity |]].
  intros Ht.
  destruct (check_on_instance_reads_NaN net env w now) as (_ & Hnan & _).
  now rewrite (Hnan Ht).
Qed.

(** *** Sell threshold *)


(** *** Statistics after a sell *)


End MonitorWiringProofs.

(* ===================================================================== *)
(** ** WalletAnalyticsService: deployer lookup and whole analysis *)
(* ===================================================================== *)

Module AnalysisService.
Import Js WalletAnalyticsService.

(** A row of the explorer's contract-creation answer. *)
Record CreationRow : Type := {
  contractCreator : string;
  creation_txHash : string;
  creation_blockNumber : string
}.

Record CreationResponse : Type := {
  creation_status : string;
  creation_result : option (list CreationRow)
}.

Record AnalysisResult : Type := {
  analysis_contractAddress : string;
  analysis_blockchain : string;
  analysis_deployer : option Deployer;
  analysis_metadata : TokenMetadata;
  analysis_holders : list Holder;
  analysis_classification : ClassificationResult;
  analysis_timestamp : string
}.

(** The network as seen after the first metadata request. *)
Definition after_first_metadata (net : Network) : Network :=
  {| moralis_owners := moralis_owners net;
     moralis_metadata := fun k => moralis_metadata net (S k);
     moralis_balances := moralis_balances net;
     explorer_tokentx := explorer_tokentx net;
     explorer_txlist := explorer_txlist net |}.

Section Analysis.
Context `{Builtins}.
Variable net : Network.

(** The outcome of the contract-creation request, by contract address and
    blockchain. *)
Variable explorer_creation : string -> string -> result CreationResponse.

Definition getContractDeployer (contractAddress blockchain : string)
  : option Deployer :=
  match explorer_creation contractAddress blockchain with
  | Ok response =>
      if creation_status response =? "1" then
        match creation_result response with
        | Some (row :: _) =>
            Some {| deployer_address := contractCreator row;
                    txHash := creation_txHash row;
                    blockNumber := creation_blockNumber row |}
        | Some [] | None => None
        end
      else None
  | Throw _ => None
  end.

(** [analyzeToken]; [now] is the value of [Date.now()] during the
    classification and [stamp] the text of [new Date().toISOString()]. *)
Definition analyzeToken (now : number) (stamp : string)
  (contractAddress blockchain : string) : result AnalysisResult :=
  let deployer := getContractDeployer contractAddress blockchain in
  match getTokenMetadata net 0 contractAddress blockchain with
  | Throw e => Throw e
  | Ok metadata =>
      let holders :=
        getTopHolders (after_first_metadata net) contractAddress blockchain in
      Ok {| analysis_contractAddress := contractAddress;
            analysis_blockchain := blockchain;
            analysis_deployer := deployer;
            analysis_metadata := metadata;
            analysis_holders := holders;
            analysis_classification :=
              classifyWallets_service net now (Some holders) deployer metadata
                                      blockchain;
            analysis_timestamp := stamp |}
  end.

End Analysis.
End AnalysisService.

(* ===================================================================== *)
(** ** Further properties of WalletAnalyticsService *)
(* ===================================================================== *)

Module AnalysisProofs.
Import Js WalletAnalyticsService AnalyticsSpec AnalysisService Samples
       AnalyticsSamples.

(** *** The rules of [classifyWallet] *)

Section Rules.
Context `{Builtins}.
Variable net : Network.

(** X11.  [classifyWallet] always answers 'team', 'bundle' or 'regular',
    never 'unknown', and always with a risk level, which is 'low' exactly for
    'regular'.  It starts at most two network checks, none for a 'team'
    answer, and never the deployer-funding check when no deployer is
    known. *)
Theorem classifyWallet_answers :
  forall (now : number) (h : Holder) (deployer : option Deployer)
         (metadata : TokenMetadata) (blockchain : string),
    let r := classifyWallet net now h deployer metadata blockchain in
    (type (fst r) = "team" \/ type (fst r) = "bundle"
     \/ type (fst r) = "regular")
    /\ (exists level, riskLevel (fst r) = Some level)
    /\ (riskLevel (fst r) = Some "low" <-> type (fst r) = "regular")
    /\ (List.length (snd r) <= 2)%nat
    /\ (type (fst r) = "team" <-> gt (percentage h) 0.1 = true)
    /\ (type (fst r) = "team" -> snd r = [])
    /\ (deployer = None ->
        forall a d, ~ In (CallCheckDeployerFunding a d) (snd r)).
Proof.
  intros now h deployer metadata blockchain r. subst r.
  unfold classifyWallet.
  destruct (gt (percentage h) 0.1) eqn:Hpct;
    [destruct (gt (percentage h) 10) |
     destruct deployer as [d |];
       [destruct (negb (deployer_address d =? ""));
          [destruct (checkDeployerFunding net (address h)
                       (deployer_address d) blockchain) |] |];
       cbn [fst snd];
       try destruct (isBundle (detectBundlePattern net now (address h)
                                 blockchain))];
    cbn;
    (split; [auto |]);
    (split; [eexists; reflexivity |]);
    (split; [split; intros Hx; first [reflexivity | discriminate Hx] |]);
    (split; [lia |]);
    (split; [split; intros Hx; first [reflexivity | discriminate Hx] |]);
    (split; [intros Hx; first [reflexivity | discriminate Hx] |]);
    intros Hd a d' Hin; first [discriminate Hd | intuition discriminate].
Qed.

Lemma getWalletTransactions_length :
  forall addr blockchain,
    List.length (getWalletTransactions net addr blockchain)
    = match explorer_txlist net addr "desc" blockchain with
      | Ok response =>
          if status response =? "1" then List.length (result_rows response)
          else 0%nat
      | Throw _ => 0%nat
      end.
Proof.
  intros addr blockchain. unfold getWalletTransactions.
  destruct (explorer_txlist net addr "desc" blockchain) as [response | e];
    [| reflexivity].
  destruct (status response =? "1"); [| reflexivity].
  apply length_map.
Qed.

Lemma filter_sell_nonempty :
  forall addr blockchain,
    filter (fun tx => wtx_type tx =? "sell")
           (getWalletTransactions net addr blockchain) <> [] ->
    exists response tx,
      explorer_txlist net addr "desc" blockchain = Ok response
      /\ In tx (result_rows response)
      /\ toLowerCase (tx_from tx) = toLowerCase addr.
Proof.
  intros addr blockchain. unfold getWalletTransactions.
  destruct (explorer_txlist net addr "desc" blockchain) as [response | e];
    [| intros Hne; now contradiction Hne].
  destruct (status response =? "1"); [| intros Hne; now contradiction Hne].
  intros Hne.
  destruct (filter _ _) as [| wtx rest] eqn:Hf; [now contradiction Hne |].
  assert (Hin : In wtx (wtx :: rest)) by now left.
  rewrite <- Hf in Hin. apply filter_In in Hin. destruct Hin as [Hin Hsell].
  apply in_map_iff in Hin. destruct Hin as (tx & Hwtx & Htx).
  subst wtx. cbn [wtx_type] in Hsell.
  exists response, tx. split; [reflexivity | split; [exact Htx |]].
  destruct (toLowerCase (tx_from tx) =? toLowerCase addr) eqn:Hfrom;
    [now apply String.eqb_eq | discriminate Hsell].
Qed.

(** X12.  The pattern rule flags a wallet only when the explorer answered
    with status "1" and listed between one and nine transactions for it, at
    least one of them sent by the wallet itself.  A failed request, an empty
    list, or ten or more transactions never give a bundle. *)
Theorem detectBundlePattern_needs_a_short_history :
  forall (now : number) (addr blockchain : string),
    isBundle (detectBundlePattern net now addr blockchain) = true ->
    exists response tx,
      explorer_txlist net addr "desc" blockchain = Ok response
      /\ status response = "1"
      /\ (1 <= List.length (result_rows response) < 10)%nat
      /\ In tx (result_rows response)
      /\ toLowerCase (tx_from tx) = toLowerCase addr.
Proof.
  intros now addr blockchain. unfold detectBundlePattern.
  set (txs := getWalletTransactions net addr blockchain).
  set (sells := filter (fun tx => wtx_type tx =? "sell") txs).
  set (buys := filter (fun tx => wtx_type tx =? "buy") txs).
  intros Hbundle.
  assert (Hlow : (List.length txs <? 10)%nat = true
                 /\ sells <> []).
  { destruct (List.length txs <? 10)%nat eqn:Hlen.
    - split; [reflexivity |].
      intros Hnil. rewrite Hnil in Hbundle.
      cbn in Hbundle. discriminate Hbundle.
    - rewrite !andb_false_r in Hbundle. discriminate Hbundle. }
  destruct Hlow as [Hlen Hsells].
  destruct (filter_sell_nonempty addr blockchain Hsells)
    as (response & tx & Hresp & Htx & Hfrom).
  exists response, tx.
  pose proof (getWalletTransactions_length addr blockchain) as Hcount.
  fold txs in Hcount. rewrite Hresp in Hcount.
  apply Nat.ltb_lt in Hlen.
  destruct (status response =? "1") eqn:Hstatus.
  - apply String.eqb_eq in Hstatus.
    split; [exact Hresp | split; [exact Hstatus |]].
    split; [| split; [exact Htx | exact Hfrom]].
    split; [| lia].
    destruct (result_rows response); [contradiction | cbn; lia].
  - exfalso. apply Hsells. subst sells txs.
    unfold getWalletTransactions. now rewrite Hresp, Hstatus.
Qed.

End Rules.

(** A wallet whose only listed transaction is one it sent itself, at the
    time given by [stamp] (seconds since the epoch, as the explorer writes
    it). *)
Definition one_sell_network (stamp : string) : Network :=
  {| moralis_owners := fun _ _ => Throw "offline";
     moralis_metadata := fun _ _ _ => Throw "offline";
     moralis_balances := fun _ _ _ => Throw "offline";
     explorer_tokentx := fun _ _ => Throw "offline";
     explorer_txlist := fun addr _ _ =>
       Ok {| status := "1";
             result_rows := [ {| tx_hash := "0xaa";
                                 tx_from := addr;
                                 tx_to := Some "0x7a250d5630b4cf539739df2c5dacb4c659f2488d";
                                 tx_value := "1000";
                                 tx_timeStamp := stamp |} ] |} |}.

(** The timestamps of the two instances: the sell made at the very instant
    [t0] is [0] ms old, the one made at 1600000000 s is 10^11 ms old, more
    than the 24 hours (86400000 ms) of the quick-sell rule. *)
Example sell_ages :
  parseInt_string "1700000000" = 1700000000%float
  /\ (t0 - parseInt_string "1700000000" * 1000)%float = 0%float
  /\ (t0 - parseInt_string "1600000000" * 1000)%float = 100000000000%float
  /\ (24 * 60 * 60 * 1000)%float = 86400000%float.
Proof. repeat split; vm_compute; reflexivity. Qed.

(** A sell made at the instant of the check is a quick sell. *)
Lemma detectBundlePattern_needs_a_short_history_witness :
  detectBundlePattern (one_sell_network "1700000000") t0 bad_address "ethereum"
  = {| isBundle := true;
       pattern_reason := "Quick sell pattern detected" |}
  /\ exists response tx,
       explorer_txlist (one_sell_network "1700000000") bad_address "desc"
                       "ethereum"
         = Ok response
       /\ status response = "1"
       /\ (1 <= List.length (result_rows response) < 10)%nat
       /\ In tx (result_rows response)
       /\ toLowerCase (tx_from tx) = toLowerCase bad_address.
Proof.
  split; [vm_compute; reflexivity |].
  exact (detectBundlePattern_needs_a_short_history
           (one_sell_network "1700000000") t0 bad_address "ethereum" eq_refl).
Defined.

(** The same single sell made more than three years before the check is
    flagged by the sell-ratio rule. *)
Example detectBundlePattern_old_sell :
  detectBundlePattern (one_sell_network "1600000000") t0 bad_address "ethereum"
  = {| isBundle := true;
       pattern_reason := "High sell ratio with low activity" |}.
Proof. vm_compute. reflexivity. Qed.

(** *** The buckets of the service *)

Section ServiceBuckets.
Context `{Builtins}.
Variable net : Network.

Lemma filter_map_holder :
  forall (mk : Holder -> ClassifiedWallet) (p : ClassifiedWallet -> bool)
         (hs : list Holder),
    (forall h, holder (mk h) = h) ->
    map holder (filter p (map mk hs)) = filter (fun h => p (mk h)) hs.
Proof.
  intros mk p hs Hmk. induction hs as [| h hs IH]; [reflexivity |].
  cbn [map filter]. destruct (p (mk h)); cbn [map]; now rewrite IH, ?Hmk.
Qed.

Lemma classifyWallet_types :
  forall (now : number) (h : Holder) (deployer : option Deployer)
         (metadata : TokenMetadata) (blockchain : string),
    let c := fst (classifyWallet net now h deployer metadata blockchain) in
    type c = "team" \/ type c = "bundle" \/ type c = "regular".
Proof.
  intros now h deployer metadata blockchain. cbv zeta.
  unfold classifyWallet.
  destruct (gt (percentage h) 0.1);
    [destruct (gt (percentage h) 10) |
     destruct deployer as [d |];
       [destruct (negb (deployer_address d =? ""));
          [destruct (checkDeployerFunding net (address h)
                       (deployer_address d) blockchain) |] |];
       cbn [fst snd];
       try destruct (isBundle (detectBundlePattern net now (address h)
                                 blockchain))];
    cbn; auto.
Qed.

(** X13.  When the service classifies a list of holders, its team bucket
    holds exactly the holders above 0.1% of supply, in the order of the
    list, whatever the network answers; the other holders are split between
    the bundle and the regular bucket, none is recorded as 'unknown', and the
    reported team supply is the sum of the percentages of the holders above
    the threshold. *)
Theorem service_team_bucket :
  forall (now : number) (hs : list Holder) (deployer : option Deployer)
         (metadata : TokenMetadata) (blockchain : string),
    let r := classifyWallets_service net now (Some hs) deployer metadata
                                     blockchain in
    map holder (teamWallets r)
      = filter (fun h => gt (percentage h) 0.1) hs
    /\ (forall w, In w (bundleWallets r) \/ In w (regularWallets r) ->
          gt (percentage (holder w)) 0.1 = false)
    /\ (forall w, In w (regularWallets r) ->
          type (classification w) = "regular")
    /\ (List.length (teamWallets r) + List.length (bundleWallets r)
        + List.length (regularWallets r) = List.length hs)%nat
    /\ teamSupplyPercentage (riskAssessment r)
       = fold_left (fun sum h => (sum + percentage h)%float)
                   (filter (fun h => gt (percentage h) 0.1) hs) 0%float.
Proof.
  intros now hs deployer metadata blockchain. cbv zeta.
  unfold classifyWallets_service.
  set (classify := fun h : Holder =>
         @Ok Classification
             (fst (classifyWallet net now h deployer metadata blockchain))).
  set (r := classifyWallets classify (Some hs)).
  assert (Hpushed : forall h,
            pushed classify h
            = {| holder := h;
                 classification :=
                   fst (classifyWallet net now h deployer metadata blockchain) |})
    by reflexivity.
  assert (Hteam_iff : forall h,
            is_team (pushed classify h) = gt (percentage h) 0.1).
  { intros h. rewrite Hpushed. unfold is_team. cbn [classification].
    unfold classifyWallet.
    destruct (gt (percentage h) 0.1); [reflexivity |].
    destruct deployer as [d |];
      [destruct (negb (deployer_address d =? ""));
         [destruct (checkDeployerFunding net (address h)
                      (deployer_address d) blockchain) |] |];
      cbn [fst snd];
      try destruct (isBundle (detectBundlePattern net now (address h)
                                blockchain));
      reflexivity. }
  assert (Hregular : forall h,
            is_regular (pushed classify h) = true ->
            type (classification (pushed classify h)) = "regular").
  { intros h. rewrite Hpushed. unfold is_regular, is_team, is_bundle.
    cbn [classification].
    destruct (classifyWallet_types now h deployer metadata blockchain)
      as [Ht | [Ht | Ht]]; rewrite Ht; cbn; intros Hx;
      first [reflexivity | discriminate Hx]. }
  destruct (AnalyticsProofs.classifyWallets_buckets classify hs)
    as (Ht & Hb & Hr).
  fold r in Ht, Hb, Hr.
  assert (Hteam : map holder (teamWallets r)
                  = filter (fun h => gt (percentage h) 0.1) hs).
  { rewrite Ht, filter_map_holder by (intros h; now rewrite Hpushed).
    apply filter_ext. exact Hteam_iff. }
  split; [exact Hteam | split; [| split; [| split]]].
  - intros w [Hw | Hw]; [rewrite Hb in Hw | rewrite Hr in Hw];
      apply filter_In in Hw; destruct Hw as [Hin Hp];
      apply in_map_iff in Hin; destruct Hin as (h & Hh & _); subst w;
      change (holder (pushed classify h)) with h;
      rewrite <- Hteam_iff.
    + destruct (is_team (pushed classify h)) eqn:Hteam'; [| reflexivity].
      rewrite (AnalyticsProofs.team_is_not_bundle _ Hteam') in Hp.
      discriminate Hp.
    + unfold is_regular in Hp. apply andb_true_iff in Hp.
      destruct Hp as [Hp _]. now apply negb_true_iff in Hp.
  - intros w Hw. rewrite Hr in Hw. apply filter_In in Hw.
    destruct Hw as [Hin Hp]. apply in_map_iff in Hin.
    destruct Hin as (h & Hh & _). subst w. now apply Hregular.
  - rewrite Ht, Hb, Hr, <- (length_map (pushed classify) hs).
    apply AnalyticsProofs.partition_lengths.
  - assert (Hrisk : riskAssessment r
                    = assessRisk (teamWallets r) (bundleWallets r)).
    { subst r. unfold classifyWallets.
      destruct hs as [| h hs']; [reflexivity |].
      destruct (fold_left _ _ _) as [[team bundle] regular]. reflexivity. }
    rewrite Hrisk. cbn [assessRisk teamSupplyPercentage]. unfold supply.
    rewrite <- Hteam.
    generalize (teamWallets r) 0%float. intros ws.
    induction ws as [| w ws IH]; intros acc; [reflexivity |].
    cbn [map fold_left]. apply IH.
Qed.

End ServiceBuckets.

(** Three holders at 5%, 0.05% and 12% on a network that confirms every
    deployer funding: the first and the third are team wallets. *)
Example service_team_bucket_sample :
  map (fun w => (percentage (holder w), type (classification w)))
      (teamWallets
         (classifyWallets_service funded_network t0
            (Some [holder_of_pct 5; holder_of_pct 0.05; holder_of_pct 12])
            (Some sample_deployer) sample_metadata "ethereum"))
  = [ (5%float, "team"); (12%float, "team") ]
  /\ map (fun w => (percentage (holder w), type (classification w)))
         (bundleWallets
            (classifyWallets_service funded_network t0
               (Some [holder_of_pct 5; holder_of_pct 0.05; holder_of_pct 12])
               (Some sample_deployer) sample_metadata "ethereum"))
     = [ (0.05%float, "bundle") ].
Proof. split; vm_compute; reflexivity. Qed.

(** *** Holders rebuilt from the transfer history *)

Section FallbackHolders.
Context `{Builtins}.
Variable net : Network.

Lemma accumulate_keys :
  forall m key v x,
    In x (map fst (accumulate m key v)) <-> In x (map fst m) \/ x = key.
Proof.
  induction m as [| [k cur] rest IH]; intros key v x; cbn [accumulate].
  - cbn. intuition.
  - destruct (k =? key) eqn:Hk; cbn [map fst In].
    + apply String.eqb_eq in Hk. subst k. intuition.
    + rewrite IH. intuition.
Qed.

Lemma accumulate_NoDup :
  forall m key v,
    NoDup (map fst m) -> NoDup (map fst (accumulate m key v)).
Proof.
  induction m as [| [k cur] rest IH]; intros key v Hnd; cbn [accumulate].
  - cbn. constructor; [intros [] | constructor].
  - destruct (k =? key) eqn:Hk; cbn [map fst] in *; [exact Hnd |].
    inversion Hnd as [| ? ? Hnotin Hrest]; subst.
    constructor; [| now apply IH].
    rewrite accumulate_keys. intros [Hin | Heq]; [now apply Hnotin |].
    subst key. now rewrite String.eqb_refl in Hk.
Qed.

(** What the map of recipients holds after a run of transfers. *)
Definition recipients_of (rows : list RawTx) (m : list (string * number))
  : Prop :=
  NoDup (map fst m)
  /\ forall a, In a (map fst m) ->
       a <> "" /\ a <> zero_address
       /\ exists tx, In tx rows /\ tx_to tx = Some a.

Lemma record_transfer_recipients :
  forall rows tx m,
    recipients_of rows m ->
    recipients_of (rows ++ [tx])%list (record_transfer m tx).
Proof.
  intros rows tx m [Hnd Hkeys].
  assert (Hold : forall a, In a (map fst m) ->
            a <> "" /\ a <> zero_address
            /\ exists tx', In tx' (rows ++ [tx])%list /\ tx_to tx' = Some a).
  { intros a Ha. destruct (Hkeys a Ha) as (H1 & H2 & tx' & Hin & Hto).
    repeat split; auto. exists tx'. split; [apply in_or_app; now left | exact Hto]. }
  unfold record_transfer.
  destruct (tx_to tx) as [to |] eqn:Hto; [| now split].
  destruct (negb (to =? "") && negb (to =? zero_address)) eqn:Hguard;
    [| now split].
  apply andb_true_iff in Hguard. destruct Hguard as [Hne Hnz].
  apply negb_true_iff, String.eqb_neq in Hne.
  apply negb_true_iff, String.eqb_neq in Hnz.
  split; [now apply accumulate_NoDup |].
  intros a Ha. apply accumulate_keys in Ha. destruct Ha as [Ha | Ha];
    [now apply Hold |].
  subst a. repeat split; auto.
  exists tx. split; [apply in_or_app; right; now left | exact Hto].
Qed.

Lemma fold_record_transfer_recipients :
  forall rows done m,
    recipients_of done m ->
    recipients_of (done ++ rows)%list (fold_left record_transfer rows m).
Proof.
  induction rows as [| tx rows IH]; intros done m Hm; cbn [fold_left].
  - now rewrite app_nil_r.
  - change (tx :: rows) with ([tx] ++ rows)%list. rewrite app_assoc.
    apply IH. now apply record_transfer_recipients.
Qed.

Lemma sort_insert_back :
  forall (A : Type) (cmp : A -> A -> number) (x y : A) (l : list A),
    y = x \/ In y l -> In y (sort_insert cmp x l).
Proof.
  intros A cmp x y l. induction l as [| z l IH]; cbn [sort_insert].
  - intros [Hy | []]. now left.
  - destruct (gt (cmp x z) 0); cbn [In].
    + intros [Hy | [Hy | Hy]]; [right; apply IH; now left | now left |
                                 right; apply IH; now right].
    + intros [Hy | Hy]; [now left | now right].
Qed.

Lemma sort_insert_NoDup :
  forall (A B : Type) (f : A -> B) (cmp : A -> A -> number) (x : A)
         (l : list A),
    NoDup (map f (x :: l)) -> NoDup (map f (sort_insert cmp x l)).
Proof.
  intros A B f cmp x l. induction l as [| z l IH]; cbn [sort_insert].
  - auto.
  - destruct (gt (cmp x z) 0); [| auto].
    cbn [map]. intros Hnd.
    inversion Hnd as [| ? ? Hx Hrest]; subst.
    inversion Hrest as [| ? ? Hz Hl]; subst.
    constructor.
    + intros Hin. apply in_map_iff in Hin. destruct Hin as (w & Hw & Hin).
      apply AnalyticsProofs.sort_insert_In in Hin.
      destruct Hin as [Hin | Hin].
      * subst w. apply Hx. left. now symmetry.
      * apply Hz. rewrite <- Hw. now apply in_map.
    + apply IH. cbn [map]. constructor; [| exact Hl].
      intros Hin. apply Hx. now right.
Qed.

Lemma sort_NoDup :
  forall (A B : Type) (f : A -> B) (cmp : A -> A -> number) (l : list A),
    NoDup (map f l) -> NoDup (map f (sort cmp l)).
Proof.
  intros A B f cmp l. induction l as [| x l IH]; [auto |].
  cbn [map]. intros Hnd. inversion Hnd as [| ? ? Hx Hl]; subst.
  unfold sort. cbn [fold_right]. fold (sort cmp l).
  apply sort_insert_NoDup. cbn [map]. constructor; [| now apply IH].
  intros Hin. apply Hx. apply in_map_iff in Hin.
  destruct Hin as (w & Hw & Hin). rewrite <- Hw. apply in_map.
  now apply AnalyticsProofs.sort_In in Hin.
Qed.

Lemma firstn_NoDup :
  forall (A : Type) (n : nat) (l : list A),
    NoDup l -> NoDup (firstn n l).
Proof.
  intros A n l. revert n. induction l as [| x l IH]; intros [| n] Hnd;
    cbn [firstn]; try constructor.
  - inversion Hnd as [| ? ? Hx Hl]; subst. intros Hin. apply Hx.
    now apply AnalyticsProofs.firstn_subset in Hin.
  - inversion Hnd; subst. now apply IH.
Qed.

(** X14.  The holders rebuilt from the transfer history are at most 100, no
    two of them share an address, and each of them is the recipient of a
    transfer of the answered list, never the empty and never the zero
    address; senders that received nothing do not appear. *)
Theorem fallback_holders_are_distinct_recipients :
  forall (k : nat) (contractAddress blockchain : string),
    let hs := getHoldersFromTransactions net k contractAddress blockchain in
    (List.length hs <= 100)%nat
    /\ NoDup (map address hs)
    /\ forall h, In h hs ->
         address h <> "" /\ address h <> zero_address
         /\ exists response tx,
              explorer_tokentx net contractAddress blockchain = Ok response
              /\ In tx (result_rows response)
              /\ tx_to tx = Some (address h).
Proof.
  intros k contractAddress blockchain. cbv zeta.
  unfold getHoldersFromTransactions.
  assert (Hempty : forall P : Holder -> Prop,
            (List.length (@nil Holder) <= 100)%nat
            /\ NoDup (map address (@nil Holder))
            /\ forall h, In h (@nil Holder) -> P h).
  { intros P. split; [cbn; lia | split; [constructor | intros h []]]. }
  destruct (getTokenMetadata net k contractAddress blockchain)
    as [metadata | e]; [| apply Hempty].
  destruct (explorer_tokentx net contractAddress blockchain)
    as [response | e]; [| apply Hempty].
  destruct (status response =? "1"); [| apply Hempty].
  destruct (fold_record_transfer_recipients (result_rows response) [] [])
    as [Hnd Hkeys].
  { split; [constructor | intros a []]. }
  cbn [app] in Hkeys.
  set (m := fold_left record_transfer (result_rows response) []) in *.
  set (records := map (fun e => holder_record metadata (fst e) (snd e)) m).
  assert (Haddr : map address records = map fst m).
  { unfold records. rewrite map_map. apply map_ext. reflexivity. }
  split; [| split].
  - rewrite length_firstn. lia.
  - rewrite <- firstn_map. apply firstn_NoDup. apply sort_NoDup.
    now rewrite Haddr.
  - intros h Hin.
    apply AnalyticsProofs.firstn_subset, AnalyticsProofs.sort_In in Hin.
    assert (Ha : In (address h) (map fst m)).
    { rewrite <- Haddr. now apply in_map. }
    destruct (Hkeys _ Ha) as (H1 & H2 & tx & Htx & Hto).
    split; [exact H1 | split; [exact H2 |]].
    exists response, tx. auto.
Qed.

End FallbackHolders.

(** *** The whole analysis *)

Section WholeAnalysis.
Context `{Builtins}.
Variable net : Network.
Variable explorer_creation : string -> string -> result CreationResponse.

Lemma getTokenMetadata_after_first :
  forall k contractAddress blockchain,
    getTokenMetadata (after_first_metadata net) k contractAddress blockchain
    = getTokenMetadata net (S k) contractAddress blockchain.
Proof. reflexivity. Qed.

(** The holders of [getTopHolders] are computed from the metadata of the
    first or of the second request that it makes. *)
Lemma getTopHolders_snapshot :
  forall (n : Network) contractAddress blockchain h,
    In h (getTopHolders n contractAddress blockchain) ->
    exists k metadata,
      (k = 0 \/ k = 1)%nat
      /\ getTokenMetadata n k contractAddress blockchain = Ok metadata
      /\ percentage_rule (totalSupplyFormatted metadata) h.
Proof.
  intros n contractAddress blockchain h.
  unfold getTopHolders.
  assert (Hfallback : forall k, (k = 0 \/ k = 1)%nat ->
    In h (getHoldersFromTransactions n k contractAddress blockchain) ->
    exists k metadata,
      (k = 0 \/ k = 1)%nat
      /\ getTokenMetadata n k contractAddress blockchain = Ok metadata
      /\ percentage_rule (totalSupplyFormatted metadata) h).
  { intros k Hk Hin.
    destruct (AnalyticsProofs.getHoldersFromTransactions_rule _ _ _ _ _ Hin)
      as (md & Hmd & Hrule).
    now exists k, md. }
  destruct (chainIds blockchain) as [chain |]; [| apply Hfallback; auto].
  destruct (moralis_owners n contractAddress blockchain)
    as [[[| o owners] |] | e]; try (apply Hfallback; auto).
  destruct (getTokenMetadata n 0 contractAddress blockchain)
    as [metadata | e] eqn:Hmd; [| apply Hfallback; auto].
  intros Hin. apply in_map_iff in Hin. destruct Hin as (row & Hh & _).
  subst h. exists 0%nat, metadata. split; [auto | split; [exact Hmd |]].
  apply AnalyticsProofs.holder_record_rule.
Qed.

(** X15.  A successful analysis reports the metadata of its own, first
    request, while the percentage of every holder is computed from the
    metadata of a later request (the second or the third); every classified
    wallet is one of the reported holders and the three buckets together have
    as many wallets as there are holders. *)
Theorem analyzeToken_result :
  forall (now : number) (stamp contractAddress blockchain : string)
         (r : AnalysisResult),
    analyzeToken net explorer_creation now stamp contractAddress blockchain
      = Ok r ->
    getTokenMetadata net 0 contractAddress blockchain = Ok (analysis_metadata r)
    /\ analysis_deployer r = getContractDeployer explorer_creation
                               contractAddress blockchain
    /\ (forall h, In h (analysis_holders r) ->
          exists k metadata,
            (k = 1 \/ k = 2)%nat
            /\ getTokenMetadata net k contractAddress blockchain = Ok metadata
            /\ percentage_rule (totalSupplyFormatted metadata) h)
    /\ (forall w,
          In w (teamWallets (analysis_classification r))
          \/ In w (bundleWallets (analysis_classification r))
          \/ In w (regularWallets (analysis_classification r)) ->
          In (holder w) (analysis_holders r))
    /\ (List.length (teamWallets (analysis_classification r))
        + List.length (bundleWallets (analysis_classification r))
        + List.length (regularWallets (analysis_classification r))
        = List.length (analysis_holders r))%nat.
Proof.
  intros now stamp contractAddress blockchain r.
  unfold analyzeToken.
  destruct (getTokenMetadata net 0 contractAddress blockchain)
    as [metadata | e] eqn:Hmd; [| discriminate].
  set (deployer := getContractDeployer explorer_creation contractAddress
                                       blockchain).
  set (hs := getTopHolders (after_first_metadata net) contractAddress
                           blockchain).
  pose (classify := fun h : Holder =>
         @Ok Classification
             (fst (classifyWallet net now h deployer metadata blockchain))).
  change (classifyWallets_service net now (Some hs) deployer metadata
                                  blockchain)
    with (classifyWallets classify (Some hs)).
  destruct (AnalyticsProofs.classifyWallets_buckets classify hs)
    as (Ht & Hb & Hr).
  remember (classifyWallets classify (Some hs)) as buckets eqn:Hbuckets.
  intros Hok. injection Hok as Hok. subst r.
  cbn [analysis_metadata analysis_deployer analysis_holders
       analysis_classification].
  split; [reflexivity | split; [reflexivity | split; [| split]]].
  - intros h Hin. apply getTopHolders_snapshot in Hin.
    destruct Hin as (k & md & Hk & Hmd' & Hrule).
    rewrite getTokenMetadata_after_first in Hmd'.
    exists (S k), md. split; [lia | split; assumption].
  - intros w Hw.
    assert (Hin : In w (map (pushed classify) hs)).
    { destruct Hw as [Hw | [Hw | Hw]];
        [rewrite Ht in Hw | rewrite Hb in Hw | rewrite Hr in Hw];
        now apply filter_In in Hw. }
    apply in_map_iff in Hin. destruct Hin as (h & Hh & Hin). now subst w.
  - rewrite Ht, Hb, Hr, <- (length_map (pushed classify) hs).
    apply AnalyticsProofs.partition_lengths.
Qed.

End WholeAnalysis.

(** A token whose metadata endpoint reports a supply of 10^9 to the first
    request and of 0 to every later one. *)
Definition drifting_network : Network :=
  {| moralis_owners := moralis_owners (owners_network "1000000000");
     moralis_metadata := fun k _ _ =>
       match k with
       | O => Ok [ metadata_row "1000000000" ]
       | S _ => Ok [ metadata_row "0" ]
       end;
     moralis_balances := fun _ _ _ => Throw "offline";
     explorer_tokentx := fun _ _ => Throw "offline";
     explorer_txlist := fun _ _ _ => Throw "offline" |}.

Definition no_creation (contractAddress blockchain : string)
  : result CreationResponse := Throw "offline".

(** On that token the analysis reports a supply of 10^9 next to holders whose
    percentages were all computed from a supply of 0. *)
Example analyzeToken_mixes_snapshots :
  match analyzeToken drifting_network no_creation t0 "2026-01-01T00:00:00.000Z"
                     token "ethereum" with
  | Ok r => totalSupply (analysis_metadata r) = Some "1000000000"
            /\ map balance (analysis_holders r) = [250000000%float; 50%float]
            /\ map percentage (analysis_holders r) = [0%float; 0%float]
            /\ analysis_deployer r = None
  | Throw _ => False
  end.
Proof. vm_compute. repeat split. Qed.

Lemma analyzeToken_result_witness :
  exists r,
    analyzeToken drifting_network no_creation t0 "2026-01-01T00:00:00.000Z"
                 token "ethereum" = Ok r
    /\ getTokenMetadata drifting_network 0 token "ethereum"
       = Ok (analysis_metadata r)
    /\ (List.length (teamWallets (analysis_classification r))
        + List.length (bundleWallets (analysis_classification r))
        + List.length (regularWallets (analysis_classification r))
        = List.length (analysis_holders r))%nat.
Proof.
  eexists. split; [reflexivity |].
  destruct (analyzeToken_result drifting_network no_creation t0
              "2026-01-01T00:00:00.000Z" token "ethereum" _ eq_refl)
    as (Hmd & _ & _ & _ & Hlen).
  split; [exact Hmd | exact Hlen].
Defined.

End AnalysisProofs.

(* ===================================================================== *)
(** ** The alert of a handled sell *)
(* ===================================================================== *)

Module SellAlertProofs.
Import Js RealTimeMonitor MonitorSpec Samples MonitorSamples.

Section Alerts.
Context `{Builtins}.

(** The test of [recentTxs.find]: sent by the wallet, whatever the case of
    the hexadecimal digits, less than five minutes ago. *)
Definition recent_outgoing (env : SellEnv) (w : MonitoredWallet)
  (tx : HistoryTx) : bool :=
  (toLowerCase (h_from tx) =? toLowerCase (address w))
  && lt (clock env 0 - h_timestamp tx) (5 * 60 * 1000).

Lemma find_first :
  forall (A : Type) (p : A -> bool) (l : list A) (x : A),
    find p l = Some x ->
    exists before after,
      l = (before ++ x :: after)%list
      /\ p x = true
      /\ forallb (fun y => negb (p y)) before = true.
Proof.
  intros A p l x. induction l as [| y l IH]; cbn [find]; [discriminate |].
  destruct (p y) eqn:Hy.
  - intros Hx. injection Hx as Hx. subst y.
    exists [], l. auto.
  - intros Hx. destruct (IH Hx) as (before & after & Hl & Hp & Hb).
    exists (y :: before), after. subst l. cbn [forallb app].
    rewrite Hy, Hb. auto.
Qed.

(** X16.  The sell handler that runs either does nothing or dispatches one
    alert three times, in the order send, store, notify.  The alert is built
    on the first transaction of the answered history that the wallet sent
    within the last five minutes: it carries that transaction's hash and
    timestamp, the amount and the balances that the check passed, and the
    explorer link of the hash; it carries no alert count and no sold
    volume. *)
Theorem sell_alert_content :
  forall (env : SellEnv) (w : MonitoredWallet) (amount balance : number),
    let events := snd (handleSellDetected env w amount balance) in
    events = []
    \/ exists a txs before tx after,
         events = [SendAlert a; StoreAlert a; NotifySubscribers a]
         /\ transactionHistory env = Ok txs
         /\ txs = (before ++ tx :: after)%list
         /\ recent_outgoing env w tx = true
         /\ forallb (fun t => negb (recent_outgoing env w t)) before = true
         /\ transactionHash a = Some (h_hash tx)
         /\ timestamp a = h_timestamp tx
         /\ explorerLink a = Some (getExplorerLink (h_hash tx) (network w))
         /\ walletAddress a = address w
         /\ amountSold a = amount
         /\ newBalance a = balance
         /\ previousBalance a = lastBalance w
         /\ usdValue_response env = Ok (usdValue a)
         /\ alert_alertCount a = None
         /\ alert_totalVolumeSold a = None.
Proof.
  intros env w amount balance. cbv zeta.
  rewrite MonitorProofs.handleSellDetected_runs_second_definition.
  unfold handleSellDetected_at_308.
  destruct (transactionHistory env) as [txs | e]; [| now left].
  fold (recent_outgoing env w).
  destruct (find (recent_outgoing env w) txs) as [tx |] eqn:Hfind;
    [| now left].
  destruct (usdValue_response env) as [usd | e]; [| now left].
  destruct (dex_response env) as [dex | e]; [| now left].
  right. destruct (find_first _ _ _ _ Hfind) as (before & after & Hl & Hp & Hb).
  eexists _, txs, before, tx, after. cbn [snd].
  split; [reflexivity |].
  cbn [transactionHash timestamp explorerLink walletAddress amountSold
       newBalance previousBalance usdValue alert_alertCount
       alert_totalVolumeSold].
  repeat (split; [first [reflexivity | assumption] |]). reflexivity.
Qed.

(** The three calls that the handler awaits before it builds the alert: a
    failure of any of them drops the alert. *)
Lemma sell_alert_needs_every_answer :
  forall (env : SellEnv) (w : MonitoredWallet) (amount balance : number),
    ((exists e, transactionHistory env = Throw e)
     \/ (exists e, usdValue_response env = Throw e)
     \/ (exists e, dex_response env = Throw e)) ->
    snd (handleSellDetected env w amount balance) = [].
Proof.
  intros env w amount balance Hfail.
  rewrite MonitorProofs.handleSellDetected_runs_second_definition.
  unfold handleSellDetected_at_308.
  destruct (transactionHistory env) as [txs | e0];
    [| reflexivity].
  destruct (find _ txs); [| reflexivity].
  destruct (usdValue_response env) as [usd | e1]; [| reflexivity].
  destruct (dex_response env) as [dex | e2]; [| reflexivity].
  destruct Hfail as [[e He] | [[e He] | [e He]]]; discriminate He.
Qed.

End Alerts.

(** A sell of 50 tokens by the sample wallet: the history lists the address
    in lower case while the wallet was registered in mixed case; the
    transaction is still found. *)
Example sell_alert_sample :
  map (fun e => match e with
                | SendAlert a => ("send", transactionHash a, explorerLink a)
                | StoreAlert a => ("store", transactionHash a, explorerLink a)
                | NotifySubscribers a =>
                    ("notify", transactionHash a, explorerLink a)
                | HandleSellDetected _ _ => ("handle", None, None)
                end)
      (snd (handleSellDetected selling_env (observed_wallet 1000) 50 950))
  = [ ("send", Some "0xfeed", Some "https://etherscan.io/tx/0xfeed");
      ("store", Some "0xfeed", Some "https://etherscan.io/tx/0xfeed");
      ("notify", Some "0xfeed", Some "https://etherscan.io/tx/0xfeed") ].
Proof. vm_compute. reflexivity. Qed.

End SellAlertProofs.
